(** * BioLens: the analysis agent and its model manager

    A shallow embedding of [src/agents/analysisAgent.py] and
    [src/agents/modelManager.py], and the properties of the rate limiter, the
    model fallback chain, the knowledge base and the prompt composer.

    - Python strings are [string]s, one [ascii] per character; [lower()]
      acts on the ASCII letters.  Python integers are [Z].
    - A [datetime] is a number of microseconds; [datetime.now()] reads the
      next value of a clock given as a sequence of readings.
    - [st.session_state] is a record, threaded with the trace of what was
      logged, requested and slept through a state-and-exception monad.
    - The knowledge base is made of two levels of insertion-ordered
      dictionaries, held as association lists; the per-model counters and
      the report dictionary, whose order is never observed, are [gmap]s.
    - A provider client is any function from the number of requests made
      so far and the request to an answer or a raised error. *)

From Stdlib Require Import ZArith QArith String Ascii List Lia.
From stdpp Require Import base gmap strings list pretty.
From Equations Require Import Equations.

Local Open Scope string_scope.
Local Open Scope list_scope.
Local Open Scope Z_scope.

(** ** Python strings *)

Module PyStr.

(** [c.lower()] on one ASCII character. *)
Definition lower_ascii (c : ascii) : ascii :=
  let n := N_of_ascii c in
  if ((65 <=? n) && (n <=? 90))%N then ascii_of_N (n + 32) else c.

(** [s.lower()] *)
Fixpoint lower (s : string) : string :=
  match s with
  | EmptyString => EmptyString
  | String c s' => String (lower_ascii c) (lower s')
  end.

(** [needle in hay] on strings: substring test. *)
Fixpoint contains (needle hay : string) : bool :=
  String.prefix needle hay ||
  match hay with
  | EmptyString => false
  | String _ hay' => contains needle hay'
  end.

Definition newline : ascii := ascii_of_N 10.
Definition nl : string := String newline EmptyString.

(** [s.split('\n')]: always at least one piece. *)
Fixpoint split_nl (s : string) : list string :=
  match s with
  | EmptyString => [EmptyString]
  | String c s' =>
      if Ascii.eqb c newline then EmptyString :: split_nl s'
      else match split_nl s' with
           | [] => [String c EmptyString]
           | l :: ls => String c l :: ls
           end
  end.

(** [s[:n]] for a non-negative [n]. *)
Definition slice_to (n : nat) (s : string) : string := String.substring 0 n s.

(** [sep.join(items)] *)
Definition join (sep : string) (items : list string) : string :=
  String.concat sep items.

End PyStr.

(** ** Python values carried by the report dictionary *)

Inductive PyVal :=
| PStr (s : string)
| PInt (n : Z)
| PNone.

(** What an f-string writes for [{v}]. *)
Definition py_format (v : PyVal) : string :=
  match v with
  | PStr s => s
  | PInt n => pretty n
  | PNone => "None"
  end.

(** The [data] argument: a [dict], or any other object. *)
Inductive Data :=
| DDict (d : gmap string PyVal)
| DOther.

Definition dict_get (d : gmap string PyVal) (k : string) (dflt : PyVal) : PyVal :=
  default dflt (d !! k).

Inductive PyExn :=
| AttributeError (msg : string).

(** ** [datetime] and [timedelta] *)

Module Timedelta.

(** A [timedelta] is held as its total number of microseconds; [days] and
    [seconds] are the normalised fields Python exposes
    ([0 <= seconds < 86400], [days] of either sign). *)
Definition usec_per_second : Z := 1000000.
Definition usec_per_day : Z := 86400 * usec_per_second.

Definition of_days (n : Z) : Z := n * usec_per_day.
Definition days (td : Z) : Z := td `div` usec_per_day.
Definition seconds (td : Z) : Z := (td `mod` usec_per_day) `div` usec_per_second.

Definition divmod (a b : Z) : Z * Z := (a `div` b, a `mod` b).

End Timedelta.

(** ** Ordered dictionaries *)

Module ODict.
Section ODict.
Context {V : Type}.

Fixpoint get (k : string) (d : list (string * V)) : option V :=
  match d with
  | [] => None
  | (k', v) :: d' => if String.eqb k' k then Some v else get k d'
  end.

(** [d[k] = v]: in place when [k] is present, at the end otherwise. *)
Fixpoint set (k : string) (v : V) (d : list (string * V)) : list (string * V) :=
  match d with
  | [] => [(k, v)]
  | (k', v') :: d' =>
      if String.eqb k' k then (k', v) :: d' else (k', v') :: set k v d'
  end.

Definition mem (k : string) (d : list (string * V)) : bool :=
  match get k d with Some _ => true | None => false end.

End ODict.
End ODict.

(** ** Session state, the world and the monad *)

Definition Profiles := list (string * list string).
Definition KnowledgeBase := list (string * Profiles).

Record Session := mkSession {
  analysis_count : Z;
  last_analysis : Z;
  analysis_limit : Z;
  models_used : gmap string Z;
  knowledge_base : KnowledgeBase
}.

Record Request := mkRequest {
  req_model : string;
  req_system : string;
  req_user : Data;            (* sent as [str(data)] *)
  req_temperature : Q;
  req_max_tokens : Z
}.

Inductive LogLevel := LError | LWarning | LInfo.

Inductive Event :=
| EvLog (lvl : LogLevel) (msg : string)
| EvRequest (r : Request)
| EvSleep (secs : Z).

(** The world: the session state, how many times the clock has been read,
    and what has been logged, requested and slept so far. *)
Record World := mkWorld {
  w_session : Session;
  w_ticks : nat;
  w_trace : list Event
}.

Inductive Res (A : Type) :=
| Ok (a : A)
| Raise (e : PyExn).
Arguments Ok {A} a.
Arguments Raise {A} e.

Definition M (A : Type) : Type := World -> Res A * World.

Definition ret {A} (a : A) : M A := fun w => (Ok a, w).
Definition raise {A} (e : PyExn) : M A := fun w => (Raise e, w).
Definition bind {A B} (m : M A) (k : A -> M B) : M B :=
  fun w => match m w with
           | (Ok a, w') => k a w'
           | (Raise e, w') => (Raise e, w')
           end.

Notation "x <- c ;; k" := (bind c (fun x => k))
  (at level 100, c at next level, right associativity).
Notation "c ;;; k" := (bind c (fun _ => k))
  (at level 100, right associativity).

Definition get_session : M Session := fun w => (Ok (w_session w), w).
Definition put_session (s : Session) : M unit :=
  fun w => (Ok tt, mkWorld s (w_ticks w) (w_trace w)).

Definition set_analysis_count (n : Z) (s : Session) : Session :=
  mkSession n (last_analysis s) (analysis_limit s) (models_used s) (knowledge_base s).
Definition set_last_analysis (t : Z) (s : Session) : Session :=
  mkSession (analysis_count s) t (analysis_limit s) (models_used s) (knowledge_base s).
Definition set_models_used (m : gmap string Z) (s : Session) : Session :=
  mkSession (analysis_count s) (last_analysis s) (analysis_limit s) m (knowledge_base s).
Definition set_knowledge_base (kb : KnowledgeBase) (s : Session) : Session :=
  mkSession (analysis_count s) (last_analysis s) (analysis_limit s) (models_used s) kb.

Definition modify_session (f : Session -> Session) : M unit :=
  s <- get_session ;; put_session (f s).

(** ** [ModelManager] *)

Inductive ModelTier := PRIMARY | SECONDARY | TERTIARY | FALLBACK.

Record ModelConfig := mkConfig {
  provider : string;
  model : string;
  max_tokens : Z;
  temperature : Q
}.

Definition MODEL_CONFIG (tier : ModelTier) : ModelConfig :=
  match tier with
  | PRIMARY => mkConfig "groq" "llama-3.3-70b-versatile" 2000 (7 # 10)
  | SECONDARY => mkConfig "groq" "llama-3-8b-8192" 2000 (7 # 10)
  | TERTIARY => mkConfig "groq" "mixtral-8x7b-32768" 2000 (7 # 10)
  | FALLBACK => mkConfig "groq" "gemma-7b-it" 2000 (7 # 10)
  end.

(** The tier chosen for a retry count (the [if]/[elif] chain). *)
Definition tier_of (retry_count : Z) : ModelTier :=
  if retry_count =? 0 then PRIMARY
  else if retry_count =? 1 then SECONDARY
  else if retry_count =? 2 then TERTIARY
  else FALLBACK.

(** What one [client.chat.completions.create(...)] followed by reading
    [choices[0].message.content] does: it yields the content, or raises an
    exception whose [str(e)] is [msg]. *)
Inductive Outcome :=
| Completed (content : string)
| Failed (msg : string).

(** A provider client: its answer may depend on the request and on how many
    requests were issued before it. *)
Definition Client := nat -> Request -> Outcome.

Inductive GenerationResult :=
| Success (content model_used : string)
| Failure (error : string).

Definition is_request (e : Event) : bool :=
  match e with EvRequest _ => true | _ => false end.

(** Number of provider calls recorded in a trace. *)
Definition calls_made (tr : list Event) : nat := length (List.filter is_request tr).

Definition log (lvl : LogLevel) (msg : string) (w : World) : World :=
  mkWorld (w_session w) (w_ticks w) (w_trace w ++ [EvLog lvl msg]).
Definition sleep (secs : Z) (w : World) : World :=
  mkWorld (w_session w) (w_ticks w) (w_trace w ++ [EvSleep secs]).
Definition send (r : Request) (w : World) : World :=
  mkWorld (w_session w) (w_ticks w) (w_trace w ++ [EvRequest r]).

Section Manager.

(** [self.clients]: filled once by [_initialize_clients], with a ["groq"]
    entry unless creating the client raised. *)
Variable clients : gmap string Client.

(** The [except] branch up to the recursive call: log, and pause when the
    lower-cased error text mentions a rate limit or a quota. *)
Definition after_failure (model : string) (msg : string) (w : World) : World :=
  let error_message := PyStr.lower msg in
  let w1 := log LWarning ("Model " +:+ model +:+ " failed: " +:+ error_message) w in
  if PyStr.contains "rate limit" error_message || PyStr.contains "quota" error_message
  then sleep 2 w1 else w1.

Equations? generate_analysis (data : Data) (system_prompt : string)
    (retry_count : Z) (w : World) : GenerationResult * World
    by wf (Z.to_nat (4 - retry_count)) lt :=
  generate_analysis data system_prompt retry_count w with Z_gt_dec retry_count 3 := {
    | left _ => (Failure "All models failed after multiple retries", w)
    | right _ =>
        let model_config := MODEL_CONFIG (tier_of retry_count) in
        match clients !! provider model_config with
        | None =>
            generate_analysis data system_prompt (retry_count + 1)
              (log LError ("No client available for provider: "
                             +:+ provider model_config) w)
        | Some client =>
            let w1 := log LInfo ("Attempting generation with "
                                   +:+ provider model_config +:+ " model: "
                                   +:+ model model_config) w in
            if String.eqb (provider model_config) "groq" then
              let req := mkRequest (model model_config) system_prompt data
                           (temperature model_config) (max_tokens model_config) in
              match client (calls_made (w_trace w1)) req with
              | Completed content =>
                  (Success content
                     (provider model_config +:+ "/" +:+ model model_config),
                   send req w1)
              | Failed msg =>
                  generate_analysis data system_prompt (retry_count + 1)
                    (after_failure (model model_config) msg (send req w1))
              end
            else (Failure "Analysis failed with all available models", w1)
        end
  }.
Proof. all: lia. Qed.

End Manager.

(** ** [AnalysisAgent]: the pure parts *)

Record ChatMessage := mkMessage {
  msg_role : string;
  msg_content : string
}.

(** What [analyze_report] can return: the rate-limit dictionary
    [{"success": False, "error": error_msg}], the bare tuple
    [(can_analyze, error_msg)], or the model manager's result dictionary. *)
Inductive AnalyzeResult :=
| RLimit (error : option string)
| RCheck (can_analyze : bool) (error_msg : option string)
| RGenerated (result : GenerationResult).

(** Truthiness of an optional list: [None] and [[]] are false. *)
Definition truthy {A} (l : option (list A)) : bool :=
  match l with
  | Some (_ :: _) => true
  | _ => false
  end.

(** [v.lower()]: only strings have the method. *)
Definition str_lower (v : PyVal) : M string :=
  match v with
  | PStr s => ret (PyStr.lower s)
  | PInt _ => raise (AttributeError "'int' object has no attribute 'lower'")
  | PNone => raise (AttributeError "'NoneType' object has no attribute 'lower'")
  end.

Definition patient_profile_of (d : gmap string PyVal) : string :=
  py_format (dict_get d "age" (PStr "unknown")) +:+ "-"
    +:+ py_format (dict_get d "gender" (PStr "unknown")).

Definition key_indicators : list string :=
  ["hemoglobin"; "glucose"; "cholesterol"; "triglycerides";
   "hdl"; "ldl"; "wbc"; "rbc"; "platelet"; "creatinine"].

(** [knowledge_base[indicator][patient_profile]], empty when either key is
    missing (the loop body creates both before it reads). *)
Definition kb_snippets (kb : KnowledgeBase) (indicator profile : string) : list string :=
  default [] (ODict.get profile (default [] (ODict.get indicator kb))).

(** In-place update of [knowledge_base[indicator][patient_profile]]. *)
Definition kb_store (kb : KnowledgeBase) (indicator profile : string)
    (snippets : list string) : KnowledgeBase :=
  ODict.set indicator
    (ODict.set profile snippets (default [] (ODict.get indicator kb))) kb.

(** One iteration of the [for indicator in key_indicators] loop. *)
Definition kb_learn (report_text patient_profile analysis : string)
    (kb : KnowledgeBase) (indicator : string) : KnowledgeBase :=
  if PyStr.contains indicator report_text then
    if PyStr.contains indicator (PyStr.lower analysis) then
      let kb1 := if ODict.mem indicator kb then kb else ODict.set indicator [] kb in
      let kb2 :=
        if ODict.mem patient_profile (default [] (ODict.get indicator kb1)) then kb1
        else kb_store kb1 indicator patient_profile [] in
      let lines := PyStr.split_nl analysis in
      let relevant_lines :=
        List.filter (fun l => PyStr.contains indicator (PyStr.lower l)) lines in
      match relevant_lines with
      | [] => kb2
      | first :: _ =>
          let current := kb_snippets kb2 indicator patient_profile in
          let kept := if (3 <=? length current)%nat then List.tl current else current in
          kb_store kb2 indicator patient_profile (kept ++ [first])
      end
    else kb
  else kb.

Definition bullet (indicator label insight : string) : string :=
  "- " +:+ indicator +:+ " (" +:+ label +:+ "): " +:+ insight.

(** The two inner loops of [_get_knowledge_base_context] for one indicator. *)
Definition kb_recall_indicator (patient_profile : string)
    (context_items : list string) (indicator : string) (profiles : Profiles)
    : list string :=
  let items1 :=
    match ODict.get patient_profile profiles with
    | Some insights =>
        fold_left (fun items insight =>
                     items ++ [bullet indicator "similar patient profile" insight])
                  insights context_items
    | None => context_items
    end in
  fold_left (fun items '(profile, insights) =>
               if negb (String.eqb profile patient_profile) then
                 fold_left (fun items' insight =>
                              items' ++ [bullet indicator "other patient profile" insight])
                           insights items
               else items)
            profiles items1.

(** [context_items] as it stands after the size limit. *)
Definition kb_context_items (kb : KnowledgeBase) (report_text patient_profile : string)
    : list string :=
  let context_items :=
    fold_left (fun items '(indicator, profiles) =>
                 if PyStr.contains indicator report_text
                 then kb_recall_indicator patient_profile items indicator profiles
                 else items)
              kb [] in
  if (5 <? length context_items)%nat then firstn 5 context_items else context_items.

(** [range(start, stop, step)]; a zero step, which Python rejects, is not
    used by the program and gives the empty list here. *)
Definition py_range (start stop step : Z) : list Z :=
  let n :=
    if 0 <? step then (if start <? stop then (stop - start - 1) `div` step + 1 else 0)
    else if step <? 0 then (if stop <? start then (start - stop - 1) `div` (- step) + 1 else 0)
    else 0 in
  List.map (fun k => start + Z.of_nat k * step) (seq 0 (Z.to_nat n)).

Definition empty_message : ChatMessage := mkMessage "" "".

(** [chat_history[i]] for an index the loop produces; those are always
    within bounds, so the default is never read. *)
Definition message_at (chat_history : list ChatMessage) (i : Z) : ChatMessage :=
  nth (Z.to_nat i) chat_history empty_message.

(** Keep only the first 200 characters of a message. *)
Definition truncate_message (msg : string) : string :=
  if (200 <? String.length msg)%nat then PyStr.slice_to 197 msg +:+ "..." else msg.

Definition render_exchange (user_msg ai_msg : string) : string :=
  "User: " +:+ user_msg +:+ PyStr.nl +:+ "Assistant: " +:+ ai_msg.

(** The [for i in range(...)] loop of [_get_session_context], with its
    [break]. *)
Fixpoint session_loop (chat_history : list ChatMessage) (indices : list Z)
    (context_items : list string) : list string :=
  match indices with
  | [] => context_items
  | i :: rest =>
      if (1 <=? i)
         && String.eqb (msg_role (message_at chat_history (i - 1))) "user"
         && String.eqb (msg_role (message_at chat_history i)) "assistant"
      then
        let user_msg := truncate_message (msg_content (message_at chat_history (i - 1))) in
        let ai_msg := truncate_message (msg_content (message_at chat_history i)) in
        let context_items' := context_items ++ [render_exchange user_msg ai_msg] in
        if (2 <=? length context_items')%nat then context_items'
        else session_loop chat_history rest context_items'
      else session_loop chat_history rest context_items
  end.

(** [context_items] when the loop of [_get_session_context] ends. *)
Definition session_items (chat_history : list ChatMessage) : list string :=
  session_loop chat_history
    (py_range (Z.of_nat (length chat_history) - 1) 0 (-2)) [].

Definition _get_session_context (chat_history : option (list ChatMessage)) : string :=
  match chat_history with
  | None => ""
  | Some h =>
      if negb (truthy chat_history) || (length h <? 2)%nat then ""
      else
        match session_items h with
        | [] => ""
        | items => PyStr.join (PyStr.nl +:+ PyStr.nl) (rev items)
        end
  end.

Definition _preprocess_data (data : Data) : Data :=
  match data with
  | DDict d =>
      DDict (<["report" := dict_get d "report" (PStr "")]>
             (<["gender" := dict_get d "gender" (PStr "")]>
              (<["age" := dict_get d "age" (PStr "")]>
               (<["patient_name" := dict_get d "patient_name" (PStr "")]> ∅))))
  | DOther => DOther
  end.

Section Agent.

(** [clock k] is what the [k]-th call of [datetime.now()] returns. *)
Variable clock : nat -> Z.

Definition datetime_now : M Z :=
  fun w => (Ok (clock (w_ticks w)),
            mkWorld (w_session w) (S (w_ticks w)) (w_trace w)).

(** *** [AnalysisAgent.check_rate_limit] *)

Definition limit_message (hours minutes : Z) : string :=
  "Daily limit reached. Reset in " +:+ pretty hours +:+ "h "
    +:+ pretty minutes +:+ "m".

Definition check_rate_limit : M (bool * option string) :=
  now <- datetime_now ;;
  s <- get_session ;;
  let time_until_reset := Timedelta.of_days 1 - (now - last_analysis s) in
  let '(hours, remainder) := Timedelta.divmod (Timedelta.seconds time_until_reset) 3600 in
  let '(minutes, _) := Timedelta.divmod remainder 60 in
  if Timedelta.days time_until_reset <? 0 then
    modify_session (set_analysis_count 0) ;;;
    now' <- datetime_now ;;
    modify_session (set_last_analysis now') ;;;
    ret (true, None)
  else
    s' <- get_session ;;
    if analysis_limit s' <=? analysis_count s' then
      ret (false, Some (limit_message hours minutes))
    else ret (true, None).

(** *** [AnalysisAgent._update_analytics] *)

Definition _update_analytics (result : GenerationResult) : M unit :=
  modify_session (fun s => set_analysis_count (analysis_count s + 1) s) ;;;
  now <- datetime_now ;;
  modify_session (set_last_analysis now) ;;;
  let model_used :=
    match result with
    | Success _ m => m
    | Failure _ => "unknown"
    end in
  s <- get_session ;;
  match models_used s !! model_used with
  | Some n => put_session (set_models_used (<[model_used := n + 1]> (models_used s)) s)
  | None => put_session (set_models_used (<[model_used := 1]> (models_used s)) s)
  end.

(** *** [AnalysisAgent._update_knowledge_base] *)

Definition _update_knowledge_base (data : Data) (analysis : string) : M unit :=
  match data with
  | DOther => ret tt
  | DDict d =>
      match d !! "report" with
      | None => ret tt
      | Some report =>
          report_text <- str_lower report ;;
          let patient_profile := patient_profile_of d in
          modify_session (fun s =>
            set_knowledge_base
              (fold_left (kb_learn report_text patient_profile analysis)
                         key_indicators (knowledge_base s)) s)
      end
  end.

(** *** [AnalysisAgent._get_knowledge_base_context] *)

Definition _get_knowledge_base_context (d : gmap string PyVal) : M string :=
  s <- get_session ;;
  match knowledge_base s with
  | [] => ret ""
  | kb =>
      report_text <- str_lower (dict_get d "report" (PStr "")) ;;
      let patient_profile := patient_profile_of d in
      match kb_context_items kb report_text patient_profile with
      | [] => ret ""
      | context_items => ret (PyStr.join PyStr.nl context_items)
      end
  end.

(** *** [AnalysisAgent._build_enhanced_prompt] *)

Definition kb_heading : string :=
  PyStr.nl +:+ PyStr.nl +:+ "## Relevant Learning From Previous Analyses" +:+ PyStr.nl.
Definition session_heading : string :=
  PyStr.nl +:+ PyStr.nl +:+ "## Current Session History" +:+ PyStr.nl.

Definition _build_enhanced_prompt (system_prompt : string) (data : Data)
    (chat_history : option (list ChatMessage)) : M string :=
  let enhanced_prompt := system_prompt in
  enhanced_prompt <-
    match data with
    | DDict d =>
        match d !! "report" with
        | Some _ =>
            kb_context <- _get_knowledge_base_context d ;;
            ret (if String.eqb kb_context "" then enhanced_prompt
                 else enhanced_prompt +:+ kb_heading +:+ kb_context)
        | None => ret enhanced_prompt
        end
    | DOther => ret enhanced_prompt
    end ;;
  if truthy chat_history then
    let session_context := _get_session_context chat_history in
    ret (if String.eqb session_context "" then enhanced_prompt
         else enhanced_prompt +:+ session_heading +:+ session_context)
  else ret enhanced_prompt.

(** *** [AnalysisAgent.analyze_report] *)

Variable clients : gmap string Client.

Definition model_manager_generate (data : Data) (system_prompt : string)
    : M GenerationResult :=
  fun w => let '(r, w') := generate_analysis clients data system_prompt 0 w in (Ok r, w').

(** The prompt handed to the model manager. *)
Definition enhanced_prompt (system_prompt : string) (processed_data : Data)
    (chat_history : option (list ChatMessage)) : M string :=
  if truthy chat_history
  then _build_enhanced_prompt system_prompt processed_data chat_history
  else ret system_prompt.

Definition analyze_report (data : Data) (system_prompt : string)
    (check_only : bool) (chat_history : option (list ChatMessage))
    : M AnalyzeResult :=
  checked <- check_rate_limit ;;
  let '(can_analyze, error_msg) := checked in
  if negb can_analyze then ret (RLimit error_msg)
  else if check_only then ret (RCheck can_analyze error_msg)
  else
    let processed_data := _preprocess_data data in
    prompt <- enhanced_prompt system_prompt processed_data chat_history ;;
    result <- model_manager_generate processed_data prompt ;;
    match result with
    | Success content _ =>
        _update_analytics result ;;;
        _update_knowledge_base processed_data content ;;;
        ret (RGenerated result)
    | Failure _ => ret (RGenerated result)
    end.

End Agent.

(** ** Concrete sessions used by the examples *)

Module Scenario.

(** A session whose window opened at time 0, with [n] analyses done. *)
Definition session_with (n : Z) : Session := mkSession n 0 15 ∅ [].
Definition world_with (n : Z) : World := mkWorld (session_with n) 0 [].

(** A clock that reads [t] microseconds at every call. *)
Definition frozen_clock (t : Z) : nat -> Z := fun _ => t.

(** A client whose every call raises. *)
Definition failing_client : Client := fun _ _ => Failed "Service unavailable".
Definition failing_clients : gmap string Client := {["groq" := failing_client]}.

(** A session that has already analysed three reports. *)
Definition seasoned_session : Session :=
  mkSession 3 0 15 {["groq/llama-3.3-70b-versatile" := 3]}
    [("glucose", [("30-Female", ["Glucose is slightly elevated."])])].
Definition seasoned_world : World := mkWorld seasoned_session 0 [].

Definition sample_dict : gmap string PyVal :=
  <["report" := PStr "Hemoglobin: 14.2 g/dL, Glucose: 110 mg/dL, HDL: 50 mg/dL"]>
  (<["gender" := PStr "Female"]> (<["age" := PInt 30]> ∅)).
Definition sample_report : Data := DDict sample_dict.

(** Three analyses of that report, then a fourth. *)
Definition three_updates : list (Data * string) :=
  [(sample_report, "Hemoglobin is low.");
   (sample_report, "Summary" +:+ PyStr.nl +:+ "Hemoglobin is normal.");
   (sample_report, "Hemoglobin is high.")].
Definition fourth_analysis : string := "Hemoglobin is stable.".

(** A knowledge base with two indicators and two profile keys. *)
Definition recall_world : World :=
  mkWorld
    (mkSession 4 0 15 ∅
       [("glucose", [("40-Male", ["Glucose was high."]);
                     ("30-Female", ["Glucose is slightly elevated."])]);
        ("hdl", [("30-Female", ["HDL is protective."])])])
    0 [].

(** A knowledge base where the first indicator has a snippet for another
    profile key only, and the second one a snippet for the request's key. *)
Definition mixed_world : World :=
  mkWorld
    (mkSession 2 0 15 ∅
       [("glucose", [("40-Male", ["Glucose was high."])]);
        ("hdl", [("30-Female", ["HDL is protective."])])])
    0 [].

(** A knowledge base where the first indicator has five snippets for other
    profile keys, and the second one a snippet for the request's key. *)
Definition crowded_world : World :=
  mkWorld
    (mkSession 6 0 15 ∅
       [("glucose", [("40-Male", ["Glucose 1"; "Glucose 2"; "Glucose 3"]);
                     ("50-Male", ["Glucose 4"; "Glucose 5"])]);
        ("hdl", [("30-Female", ["HDL is protective."])])])
    0 [].

(** A client that always answers with the same analysis. *)
Definition answering_client : Client :=
  fun _ _ => Completed ("Summary of the report." +:+ PyStr.nl
                        +:+ "Hemoglobin is within normal range.").
Definition answering_clients : gmap string Client := {["groq" := answering_client]}.

(** The request of the form: an integer age, the extracted report text and
    a field the agent does not keep. *)
Definition form_request : Data :=
  DDict (<["report" := PStr "Hemoglobin: 14.2 g/dL"]>
         (<["gender" := PStr "Female"]>
          (<["age" := PInt 30]>
           (<["patient_name" := PStr "Jane"]> (<["session" := PNone]> ∅))))).

(** A clock that starts two hours after the window opened and advances one
    minute at every reading. *)
Definition ticking_clock : nat -> Z :=
  fun k => 7200000000 + 60000000 * Z.of_nat k.

(** Three user/assistant exchanges, the last answer 250 characters long. *)
Definition long_message : string := string_of_list_ascii (repeat "a"%char 250).
Definition three_exchanges : list ChatMessage :=
  [mkMessage "user" "q1"; mkMessage "assistant" "a1";
   mkMessage "user" "q2"; mkMessage "assistant" "a2";
   mkMessage "user" "q3"; mkMessage "assistant" long_message].

End Scenario.

(** * Vocabulary of the statements *)

Definition exhausted_message : string := "All models failed after multiple retries".

(** [w'] is [w] with the events [evs] appended to its trace and nothing
    else changed. *)
Definition extends (w w' : World) (evs : list Event) : Prop :=
  w_session w' = w_session w /\ w_ticks w' = w_ticks w
  /\ w_trace w' = w_trace w ++ evs.

(** The events of the [except] branch: a warning, then a pause for
    rate-limit and quota errors. *)
Definition failure_events (model msg : string) : list Event :=
  let error_message := PyStr.lower msg in
  EvLog LWarning ("Model " +:+ model +:+ " failed: " +:+ error_message)
  :: (if PyStr.contains "rate limit" error_message
         || PyStr.contains "quota" error_message
      then [EvSleep 2] else []).

(** Every request in a trace carries the given system prompt and data. *)
Definition issued_for (system_prompt : string) (data : Data) (e : Event) : Prop :=
  match e with
  | EvRequest r => req_system r = system_prompt /\ req_user r = data
  | _ => True
  end.

(** A result of the fallback chain: the exhaustion failure, or a success
    naming one tier's provider and model. *)
Definition chain_result (r : GenerationResult) : Prop :=
  match r with
  | Failure e => e = exhausted_message
  | Success _ m =>
      exists t, m = provider (MODEL_CONFIG t) +:+ "/" +:+ model (MODEL_CONFIG t)
  end.

Definition skip_event : Event :=
  EvLog LError "No client available for provider: groq".

Definition always_fails (c : Client) : Prop :=
  forall k q, exists msg, c k q = Failed msg.

(** What a run of the chain that has [n] tiers left to try does. *)
Definition chain_run (clients : gmap string Client) (system_prompt : string)
    (data : Data) (n : nat) (w : World) (out : GenerationResult * World) : Prop :=
  exists evs,
    extends w (snd out) evs
    /\ (calls_made evs <= n)%nat
    /\ Forall (issued_for system_prompt data) evs
    /\ chain_result (fst out)
    /\ (forall e, fst out = Failure e ->
          clients !! "groq" = None \/ calls_made evs = n)
    /\ (clients !! "groq" = None ->
          evs = repeat skip_event n /\ fst out = Failure exhausted_message)
    /\ (forall c, clients !! "groq" = Some c -> always_fails c ->
          fst out = Failure exhausted_message /\ calls_made evs = n).

Ltac conjs := repeat match goal with |- _ /\ _ => split end.

(** An entry of the session recall: the rendering of an adjacent
    user/assistant pair of the history, each message truncated. *)
Definition recalled_exchange (chat_history : list ChatMessage) (item : string) : Prop :=
  exists i : Z,
    1 <= i < Z.of_nat (length chat_history)
    /\ msg_role (message_at chat_history (i - 1)) = "user"
    /\ msg_role (message_at chat_history i) = "assistant"
    /\ item = render_exchange
                (truncate_message (msg_content (message_at chat_history (i - 1))))
                (truncate_message (msg_content (message_at chat_history i))).

(** The bullets of one indicator, in the words of the specification: the
    snippets stored under the request's own profile key, labelled as
    similar, then the snippets of every other profile key in stored order,
    labelled as other. *)
Definition recall_of_indicator (patient_profile indicator : string)
    (profiles : Profiles) : list string :=
  List.map (bullet indicator "similar patient profile")
      (default [] (ODict.get patient_profile profiles))
  ++ flat_map (fun entry : string * list string =>
                 if String.eqb (fst entry) patient_profile then []
                 else List.map (bullet indicator "other patient profile") (snd entry))
              profiles.

(** All the bullets, indicator by indicator in stored order, for the stored
    indicators that occur in the report text. *)
Definition recall_bullets (kb : KnowledgeBase) (report_text patient_profile : string)
    : list string :=
  flat_map (fun entry : string * Profiles =>
              if PyStr.contains (fst entry) report_text
              then recall_of_indicator patient_profile (fst entry) (snd entry)
              else [])
           kb.

(** [x] occurs before [y] in [l]. *)
Definition precedes {A} (x y : A) (l : list A) : Prop :=
  exists l1 l2 l3, l = l1 ++ x :: l2 ++ y :: l3.

(** How many snippets an indicator has stored, over all its profile keys. *)
Definition snippet_count (profiles : Profiles) : nat :=
  length (concat (List.map snd profiles)).

(** A bullet written for a snippet stored under a profile key other than
    the request's. *)
Definition other_bullet (patient_profile indicator : string) (profiles : Profiles)
    (b : string) : Prop :=
  exists profile snippets snippet,
    In (profile, snippets) profiles /\ profile <> patient_profile
    /\ In snippet snippets
    /\ b = bullet indicator "other patient profile" snippet.

(** Every stored sequence of snippets holds at most 3 of them. *)
Definition profiles_bounded (profiles : Profiles) : Prop :=
  Forall (fun e => (length (snd e) <= 3)%nat) profiles.
Definition kb_bounded (kb : KnowledgeBase) : Prop :=
  Forall (fun e => profiles_bounded (snd e)) kb.

(** A sequence of calls of [_update_knowledge_base]; a call that raises
    leaves the world as it had it and the next one goes on from there. *)
Fixpoint run_updates (updates : list (Data * string)) (w : World) : World :=
  match updates with
  | [] => w
  | (data, analysis) :: rest =>
      run_updates rest (snd (_update_knowledge_base data analysis w))
  end.

(** What one loop iteration leaves under [indicator] and the request's
    profile key, given the first line of the analysis that mentions it. *)
Definition after_append (current : list string) (first : string) : list string :=
  (if (3 <=? length current)%nat then List.tl current else current) ++ [first].

(** No character of [s] is a line break. *)
Fixpoint newline_free (s : string) : bool :=
  match s with
  | EmptyString => true
  | String c s' => negb (Ascii.eqb c PyStr.newline) && newline_free s'
  end.

(** The two entries the loop body creates when they are missing. *)
Definition kb_prepare (kb : KnowledgeBase) (indicator profile : string) : KnowledgeBase :=
  let kb1 := if ODict.mem indicator kb then kb else ODict.set indicator [] kb in
  if ODict.mem profile (default [] (ODict.get indicator kb1)) then kb1
  else kb_store kb1 indicator profile [].

(** * Further parts of the program *)

(** ** The session state before the agent is set up *)

(** The five keys of [st.session_state] that the agent owns; an absent key
    is [None].  The sidebar creates [analysis_count] on its own, so a state
    with some of the keys only does occur. *)
Record RawSession := mkRaw {
  raw_analysis_count : option Z;
  raw_last_analysis : option Z;
  raw_analysis_limit : option Z;
  raw_models_used : option (gmap string Z);
  raw_knowledge_base : option KnowledgeBase
}.

Definition session_of (r : RawSession) : option Session :=
  match raw_analysis_count r, raw_last_analysis r, raw_analysis_limit r,
        raw_models_used r, raw_knowledge_base r with
  | Some count, Some last, Some limit, Some used, Some kb =>
      Some (mkSession count last limit used kb)
  | _, _, _, _, _ => None
  end.

Definition raw_of (s : Session) : RawSession :=
  mkRaw (Some (analysis_count s)) (Some (last_analysis s)) (Some (analysis_limit s))
        (Some (models_used s)) (Some (knowledge_base s)).

(** [AnalysisAgent._init_state]: each key is set only when it is absent;
    the clock is read only for an absent [last_analysis]. *)
Definition _init_state (clock : nat -> Z) (r : RawSession) (ticks : nat)
    : RawSession * nat :=
  let count := match raw_analysis_count r with Some n => n | None => 0 end in
  let '(last, ticks') :=
    match raw_last_analysis r with
    | Some t => (t, ticks)
    | None => (clock ticks, S ticks)
    end in
  let limit := match raw_analysis_limit r with Some n => n | None => 15 end in
  let used := match raw_models_used r with Some m => m | None => ∅ end in
  let kb := match raw_knowledge_base r with Some k => k | None => [] end in
  (mkRaw (Some count) (Some last) (Some limit) (Some used) (Some kb), ticks').

(** [ModelManager._initialize_clients]: [connect] is what building the Groq
    client gives, the client or the text of the exception it raises. *)
Definition _initialize_clients (connect : Client + string)
    : gmap string Client * list Event :=
  match connect with
  | inl client => ({["groq" := client]}, [])
  | inr msg => (∅, [EvLog LError ("Failed to initialize Groq client: " +:+ msg)])
  end.

(** ** The service functions *)

(** The state of a page: the agent object under [analysis_agent], when
    there is one, stands for the clients of its model manager. *)
Record App := mkApp {
  app_agent : option (gmap string Client);
  app_raw : RawSession;
  app_ticks : nat;
  app_trace : list Event
}.

Module Services.
Section Services.

Variable clock : nat -> Z.
Variable connect : Client + string.

(** [AnalysisAgent()] builds the model manager, then runs [_init_state]. *)
Definition init_analysis_state (app : App) : App :=
  match app_agent app with
  | Some _ => app
  | None =>
      let '(clients, logged) := _initialize_clients connect in
      let '(raw, ticks) := _init_state clock (app_raw app) (app_ticks app) in
      mkApp (Some clients) raw ticks (app_trace app ++ logged)
  end.

(** A method of the agent run after [init_analysis_state].  The methods
    read the agent's keys as attributes of the session state; the keys are
    created together and deleted only together with the agent, so with an
    agent in place they are all there.  [None] stands for the state where an
    agent is in place and a key is missing, which the methods are not
    modelled for. *)
Definition with_agent {A} (method : gmap string Client -> M A) (app : App)
    : option (Res A * App) :=
  let app1 := init_analysis_state app in
  match app_agent app1, session_of (app_raw app1) with
  | Some clients, Some s =>
      let '(r, w') := method clients (mkWorld s (app_ticks app1) (app_trace app1)) in
      Some (r, mkApp (Some clients) (raw_of (w_session w')) (w_ticks w') (w_trace w'))
  | _, _ => None
  end.

(** [generate_analysis] of [services.py]; [session_id] is not read. *)
Definition generate_analysis (data : Data) (system_prompt : string)
    (check_only : bool) (session_id : option string)
    : App -> option (Res AnalyzeResult * App) :=
  with_agent (fun clients =>
    if check_only then
      checked <- check_rate_limit clock ;;
      let '(can_analyze, error_msg) := checked in
      ret (RCheck can_analyze error_msg)
    else analyze_report clock clients data system_prompt false None).

(** [check_rate_limit] of [services.py]. *)
Definition check_rate_limit : App -> option (Res (bool * option string) * App) :=
  with_agent (fun _ => check_rate_limit clock).

End Services.
End Services.

(** ** The analysis form *)

(** What the form does besides calling the services: an error box, and a
    message handed to [save_chat_message] with the time it was stamped. *)
Inductive PageEvent :=
| ShowError (msg : option string)
| SaveMessage (session_id content role : string) (created_at : Z).

Record Page := mkPage {
  pg_app : App;
  pg_events : list PageEvent
}.

Inductive FormExn :=
| FromAgent (e : PyExn)
| TypeError (msg : string)
| ValueError (msg : string).

(** How [handle_form_submission] ends: it returns, or the script is stopped
    by [st.stop()] or restarted by [st.rerun()], or an exception leaves
    it. *)
Inductive FormOutcome :=
| Returned
| Stopped
| Rerun
| Raised (e : FormExn).

Definition set_app (app : App) (page : Page) : Page := mkPage app (pg_events page).

Definition show_error (msg : option string) (page : Page) : Page :=
  mkPage (pg_app page) (pg_events page ++ [ShowError msg]).

(** [can_analyze, error_msg = result]: a tuple gives its two fields; a
    dictionary gives its keys, when there are two of them.  Only the
    truth value of the first is used afterwards. *)
Definition unpack_check (result : AnalyzeResult) : (bool * option string) + FormExn :=
  match result with
  | RCheck can_analyze error_msg => inl (can_analyze, error_msg)
  | RLimit _ => inl (true, Some "error")
  | RGenerated (Failure _) => inl (true, Some "error")
  | RGenerated (Success _ _) => inr (ValueError "too many values to unpack (expected 2)")
  end.

Section Form.

Variable clock : nat -> Z.
Variable connect : Client + string.

(** [PROMPTS["comprehensive_analyst"]] and the id of the current session. *)
Variable comprehensive_analyst : string.
Variable session_id : string.

(** [AuthService.save_chat_message]: the message is stamped with the time
    and handed to the database; a failure there is swallowed, and the form
    does not read what is returned. *)
Definition save_chat_message (content role : string) (page : Page) : Page :=
  let app := pg_app page in
  mkPage (mkApp (app_agent app) (app_raw app) (S (app_ticks app)) (app_trace app))
         (pg_events page
            ++ [SaveMessage session_id content role (clock (app_ticks app))]).

Definition form_data (patient_name : string) (age : Z) (gender pdf_contents : string)
    : Data :=
  DDict (<["report" := PStr pdf_contents]>
         (<["gender" := PStr gender]>
          (<["age" := PInt age]>
           (<["patient_name" := PStr patient_name]> ∅)))).

Definition model_info (model_used : string) : string :=
  PyStr.nl +:+ PyStr.nl +:+ "*Analysis generated using " +:+ model_used +:+ "*".

(** [handle_form_submission].  The first call of the service passes
    [None] for the data and the prompt, which a check does not read. *)
Definition handle_form_submission (patient_name : string) (age : Z)
    (gender pdf_contents : string) (page : Page) : option (FormOutcome * Page) :=
  if negb (negb (String.eqb patient_name "") && negb (age =? 0)
           && negb (String.eqb gender ""))
  then Some (Returned, show_error (Some "Please fill in all fields") page)
  else
    match Services.generate_analysis clock connect DOther "" true None (pg_app page) with
    | None => None
    | Some (Raise e, app1) => Some (Raised (FromAgent e), set_app app1 page)
    | Some (Ok checked, app1) =>
        let page1 := set_app app1 page in
        match unpack_check checked with
        | inr e => Some (Raised e, page1)
        | inl (can_analyze, error_msg) =>
            if negb can_analyze then Some (Stopped, show_error error_msg page1)
            else
              let page2 :=
                save_chat_message ("Analyzing report for patient: " +:+ patient_name)
                                  "user" page1 in
              match Services.generate_analysis clock connect
                      (form_data patient_name age gender pdf_contents)
                      comprehensive_analyst false None (pg_app page2) with
              | None => None
              | Some (Raise e, app3) => Some (Raised (FromAgent e), set_app app3 page2)
              | Some (Ok result, app3) =>
                  let page3 := set_app app3 page2 in
                  match result with
                  | RGenerated (Success content model_used) =>
                      Some (Rerun,
                            save_chat_message (content +:+ model_info model_used)
                                              "assistant" page3)
                  | RGenerated (Failure e) => Some (Stopped, show_error (Some e) page3)
                  | RLimit error_msg => Some (Stopped, show_error error_msg page3)
                  | RCheck _ _ =>
                      Some (Raised (TypeError
                              "tuple indices must be integers or slices, not str"),
                            page3)
                  end
              end
        end
    end.

End Form.

(** ** Validation of what the user supplies *)

Module PyText.










End PyText.












Section Upload.

(** [f"{size / (1024 * 1024):.1f}"]: the size in megabytes as the messages
    print it. *)
Variable format_mb : Z -> string.

(** [config.SAMPLE_REPORT] *)
Variable SAMPLE_REPORT : string.







End Upload.

(** * Vocabulary of the further properties *)

(** The events a run added: what [w'] has in its trace beyond [w]. *)
Definition new_events (w w' : World) : list Event :=
  skipn (length (w_trace w)) (w_trace w').

(** [w] after the events [evs]. *)
Definition record (evs : list Event) (w : World) : World :=
  mkWorld (w_session w) (w_ticks w) (w_trace w ++ evs).

(** The request sent to a tier. *)
Definition tier_request (system_prompt : string) (data : Data) (tier : ModelTier)
    : Request :=
  mkRequest (model (MODEL_CONFIG tier)) system_prompt data
    (temperature (MODEL_CONFIG tier)) (max_tokens (MODEL_CONFIG tier)).

(** The tiers in the order of the retry counts 0, 1, 2, 3. *)
Definition ladder : list ModelTier := [PRIMARY; SECONDARY; TERTIARY; FALLBACK].

(** The tiers of the [n] retry counts from [retry_count] on. *)
Definition tiers_from (retry_count : Z) (n : nat) : list ModelTier :=
  List.map (fun k => tier_of (retry_count + Z.of_nat k)) (seq 0 n).

Definition requests_of (evs : list Event) : list Request :=
  flat_map (fun e => match e with EvRequest r => [r] | _ => [] end) evs.

(** Seconds slept in a trace. *)
Definition slept (evs : list Event) : Z :=
  fold_right (fun e acc => match e with EvSleep secs => secs + acc | _ => acc end)
             0 evs.


(** The fallback chain as a loop over a list of tiers: the result and the
    events of trying the tiers in turn, [made] requests having been issued
    before. *)
Fixpoint ladder_run (client : option Client) (system_prompt : string) (data : Data)
    (tiers : list ModelTier) (made : nat) : GenerationResult * list Event :=
  match tiers with
  | [] => (Failure "All models failed after multiple retries", [])
  | tier :: rest =>
      match client with
      | None =>
          let '(r, evs) := ladder_run client system_prompt data rest made in
          (r, skip_event :: evs)
      | Some c =>
          let req := tier_request system_prompt data tier in
          let attempt :=
            [EvLog LInfo ("Attempting generation with groq model: "
                            +:+ model (MODEL_CONFIG tier));
             EvRequest req] in
          match c made req with
          | Completed content =>
              (Success content ("groq/" +:+ model (MODEL_CONFIG tier)), attempt)
          | Failed msg =>
              let '(r, evs) := ladder_run client system_prompt data rest (S made) in
              (r, attempt ++ failure_events (model (MODEL_CONFIG tier)) msg ++ evs)
          end
      end
  end.

(** A stored snippet of an indicator mentions it, in any letter case, and
    is a single line. *)
Definition snippet_ok (indicator snippet : string) : Prop :=
  PyStr.contains indicator (PyStr.lower snippet) = true
  /\ newline_free snippet = true.

(** The profile keys of an indicator are distinct and every snippet is
    well formed. *)
Definition profiles_ok (indicator : string) (profiles : Profiles) : Prop :=
  List.NoDup (List.map fst profiles)
  /\ Forall (fun e => Forall (snippet_ok indicator) (snd e)) profiles.

(** The indicator keys are distinct words of the vocabulary, and so on
    below them. *)
Definition kb_ok (kb : KnowledgeBase) : Prop :=
  List.NoDup (List.map fst kb)
  /\ Forall (fun e => In (fst e) key_indicators /\ profiles_ok (fst e) (snd e)) kb.

(** A history made of complete exchanges: each question followed by its
    answer. *)
Definition conversation (exchanges : list (string * string)) : list ChatMessage :=
  flat_map (fun '(question, answer) =>
              [mkMessage "user" question; mkMessage "assistant" answer])
           exchanges.

(** An exchange as the session recall renders it. *)
Definition recalled (question answer : string) : string :=
  render_exchange (truncate_message question) (truncate_message answer).

(** The part of the prompt that carries the session recall: nothing when
    the recall is empty, else the heading and the recall. *)
Definition session_section (chat_history : option (list ChatMessage)) : string :=
  if truthy chat_history then
    if String.eqb (_get_session_context chat_history) "" then ""
    else session_heading +:+ _get_session_context chat_history
  else "".

(** The same for the recall from the knowledge base. *)
Definition kb_section (kb_context : string) : string :=
  if String.eqb kb_context "" then "" else kb_heading +:+ kb_context.

(** The states the service functions are modelled for: no agent yet, or
    an agent with all its keys. *)
Definition consistent (app : App) : Prop :=
  app_agent app = None \/ exists s, session_of (app_raw app) = Some s.

(** The page state that stands for a world of the agent with the given
    clients. *)
Definition app_of (clients : gmap string Client) (w : World) : App :=
  mkApp (Some clients) (raw_of (w_session w)) (w_ticks w) (w_trace w).

(** The session [_init_state] makes of the keys that are there. *)
Definition initial_session (clock : nat -> Z) (r : RawSession) (ticks : nat) : Session :=
  mkSession (default 0 (raw_analysis_count r))
            (default (clock ticks) (raw_last_analysis r))
            (default 15 (raw_analysis_limit r))
            (default ∅ (raw_models_used r))
            (default [] (raw_knowledge_base r)).

(** The messages the form handed to [save_chat_message], in order. *)
Definition saved_messages (events : list PageEvent) : list (string * string) :=
  flat_map (fun e => match e with
                     | SaveMessage _ content role _ => [(role, content)]
                     | ShowError _ => []
                     end) events.

Definition shown_errors (events : list PageEvent) : list (option string) :=
  flat_map (fun e => match e with
                     | ShowError msg => [msg]
                     | SaveMessage _ _ _ _ => []
                     end) events.

(** ** Concrete cases used by the further examples *)

Module Cases.

(** A client whose first call hits a rate limit and whose later calls
    answer. *)
Definition second_try_client : Client :=
  fun made _ => match made with
                | O => Failed "Rate limit exceeded"
                | _ => Completed "Second answer"
                end.
Definition second_try_clients : gmap string Client := {["groq" := second_try_client]}.

End Cases.

(** * Properties *)

(** ** The rate limiter *)

Lemma days_negative (td : Z) : Timedelta.days td < 0 <-> td < 0.
Proof.
  unfold Timedelta.days, Timedelta.usec_per_day, Timedelta.usec_per_second.
  change (86400 * 1000000) with 86400000000.
  split; intros H.
  - destruct (Z_lt_ge_dec td 0) as [|Hge]; [assumption|].
    apply Z.ge_le in Hge.
    pose proof (Z.div_pos td 86400000000 Hge ltac:(lia)). lia.
  - apply Z.div_lt_upper_bound; lia.
Qed.

Lemma check_rate_limit_unfold clock w :
  check_rate_limit clock w =
    let s := w_session w in
    let td := Timedelta.of_days 1 - (clock (w_ticks w) - last_analysis s) in
    if Timedelta.days td <? 0 then
      (Ok (true, None),
       mkWorld (mkSession 0 (clock (S (w_ticks w))) (analysis_limit s)
                          (models_used s) (knowledge_base s))
               (S (S (w_ticks w))) (w_trace w))
    else if analysis_limit s <=? analysis_count s then
      (Ok (false,
           Some (limit_message (Timedelta.seconds td `div` 3600)
                               ((Timedelta.seconds td `mod` 3600) `div` 60))),
       mkWorld s (S (w_ticks w)) (w_trace w))
    else (Ok (true, None), mkWorld s (S (w_ticks w)) (w_trace w)).
Proof.
  unfold check_rate_limit, bind, datetime_now, get_session, modify_session,
    put_session, ret, Timedelta.divmod.
  cbn [w_session w_ticks w_trace].
  destruct (Timedelta.days _ <? 0); [reflexivity|].
  destruct (analysis_limit _ <=? analysis_count _); reflexivity.
Qed.

(** C2, with the strict bound the code implements: when strictly more than
    24 hours have elapsed since [last_analysis] at the moment of the check,
    [check_rate_limit] sets the count to 0, sets [last_analysis] to the clock
    reading it then takes and returns [(True, None)], whatever the count was;
    the limit, the per-model counters and the knowledge base are untouched. *)
Theorem check_rate_limit_resets_after_24h (clock : nat -> Z) (w : World) :
  Timedelta.of_days 1 < clock (w_ticks w) - last_analysis (w_session w) ->
  check_rate_limit clock w =
    (Ok (true, None),
     mkWorld (mkSession 0 (clock (S (w_ticks w)))
                (analysis_limit (w_session w)) (models_used (w_session w))
                (knowledge_base (w_session w)))
             (S (S (w_ticks w))) (w_trace w)).
Proof.
  intros Hlate. rewrite check_rate_limit_unfold. cbv zeta.
  destruct (Z.ltb_spec (Timedelta.days (Timedelta.of_days 1 -
              (clock (w_ticks w) - last_analysis (w_session w)))) 0) as [_|Hge].
  - reflexivity.
  - exfalso. apply Z.le_ngt in Hge. apply Hge, days_negative. lia.
Qed.

Lemma check_rate_limit_resets_after_24h_witness :
  Timedelta.of_days 1 <
    Scenario.frozen_clock 86400000001 (w_ticks (Scenario.world_with 99))
      - last_analysis (w_session (Scenario.world_with 99))
  /\ check_rate_limit (Scenario.frozen_clock 86400000001) (Scenario.world_with 99) =
       (Ok (true, None), mkWorld (mkSession 0 86400000001 15 ∅ []) 2 []).
Proof.
  split; [vm_compute; reflexivity|].
  apply (check_rate_limit_resets_after_24h
           (Scenario.frozen_clock 86400000001) (Scenario.world_with 99)).
  vm_compute; reflexivity.
Defined.

(** C2 as stated fails when exactly 24 hours have elapsed: no reset
    happens, and a session at its limit is refused with its count kept. *)
Lemma check_rate_limit_at_24h_no_reset :
  Timedelta.of_days 1 <=
    Scenario.frozen_clock 86400000000 (w_ticks (Scenario.world_with 15))
      - last_analysis (w_session (Scenario.world_with 15))
  /\ check_rate_limit (Scenario.frozen_clock 86400000000) (Scenario.world_with 15) =
       (Ok (false, Some "Daily limit reached. Reset in 0h 0m"),
        mkWorld (Scenario.session_with 15) 1 [])
  /\ fst (check_rate_limit (Scenario.frozen_clock 86400000000) (Scenario.world_with 15))
     <> Ok (true, None)
  /\ analysis_count
       (w_session (snd (check_rate_limit (Scenario.frozen_clock 86400000000)
                          (Scenario.world_with 15)))) = 15.
Proof.
  conjs; [vm_compute; discriminate | vm_compute; reflexivity
         | vm_compute; discriminate | vm_compute; reflexivity].
Qed.

(** C9: with the count below the limit and no more than 24 hours elapsed
    since [last_analysis], [check_rate_limit] returns [(True, None)] and the
    session state is left exactly as it was (only the clock was read). *)
Theorem check_rate_limit_allows_below_limit (clock : nat -> Z) (w : World) :
  clock (w_ticks w) - last_analysis (w_session w) <= Timedelta.of_days 1 ->
  analysis_count (w_session w) < analysis_limit (w_session w) ->
  check_rate_limit clock w =
    (Ok (true, None), mkWorld (w_session w) (S (w_ticks w)) (w_trace w)).
Proof.
  intros Hin Hcount. rewrite check_rate_limit_unfold. cbv zeta.
  destruct (Z.ltb_spec (Timedelta.days (Timedelta.of_days 1 -
              (clock (w_ticks w) - last_analysis (w_session w)))) 0) as [Hneg|_].
  - apply (proj1 (days_negative _)) in Hneg. lia.
  - destruct (Z.leb_spec (analysis_limit (w_session w))
                         (analysis_count (w_session w))); [lia | reflexivity].
Qed.

Lemma check_rate_limit_allows_below_limit_witness :
  check_rate_limit (Scenario.frozen_clock 7200000000) (Scenario.world_with 14) =
    (Ok (true, None), mkWorld (Scenario.session_with 14) 1 []).
Proof.
  apply (check_rate_limit_allows_below_limit
           (Scenario.frozen_clock 7200000000) (Scenario.world_with 14));
    vm_compute; [discriminate | reflexivity].
Defined.

(** ** The model manager *)

Lemma extends_refl w : extends w w [].
Proof. unfold extends. rewrite app_nil_r. auto. Qed.

Lemma extends_trans w1 w2 w3 evs1 evs2 :
  extends w1 w2 evs1 -> extends w2 w3 evs2 -> extends w1 w3 (evs1 ++ evs2).
Proof.
  unfold extends. intros (Hs1 & Ht1 & Hr1) (Hs2 & Ht2 & Hr2).
  rewrite Hs2, Hs1, Ht2, Ht1, Hr2, Hr1, app_assoc. auto.
Qed.

Lemma calls_made_app (a b : list Event) :
  calls_made (a ++ b) = (calls_made a + calls_made b)%nat.
Proof. unfold calls_made. rewrite List.filter_app, length_app. reflexivity. Qed.

Lemma provider_is_groq (t : ModelTier) : provider (MODEL_CONFIG t) = "groq".
Proof. destruct t; reflexivity. Qed.

Lemma after_failure_extends model msg w :
  extends w (after_failure model msg w) (failure_events model msg).
Proof.
  unfold after_failure, failure_events, extends, log, sleep. cbv zeta.
  destruct (_ || _); cbn [w_session w_ticks w_trace]; rewrite <- ?app_assoc; auto.
Qed.

Lemma failure_events_no_call model msg : calls_made (failure_events model msg) = 0%nat.
Proof. unfold failure_events. cbv zeta. destruct (_ || _); reflexivity. Qed.

Lemma generate_analysis_exhausted clients data system_prompt retry_count w :
  3 < retry_count ->
  generate_analysis clients data system_prompt retry_count w =
    (Failure exhausted_message, w).
Proof.
  intros Hrc. simp generate_analysis.
  destruct (Z_gt_dec retry_count 3) as [Hgt|Hn]; [reflexivity | lia].
Qed.

(** One round of [generate_analysis] with the static configuration, whose
    provider is always ["groq"]. *)
Lemma generate_analysis_step clients data system_prompt retry_count w :
  retry_count <= 3 ->
  generate_analysis clients data system_prompt retry_count w =
    let cfg := MODEL_CONFIG (tier_of retry_count) in
    match (clients !! "groq" : option Client) with
    | None =>
        generate_analysis clients data system_prompt (retry_count + 1)
          (log LError "No client available for provider: groq" w)
    | Some client =>
        let w1 := log LInfo ("Attempting generation with groq model: " +:+ model cfg) w in
        let req := mkRequest (model cfg) system_prompt data (temperature cfg)
                     (max_tokens cfg) in
        match client (calls_made (w_trace w1)) req with
        | Completed content => (Success content ("groq/" +:+ model cfg), send req w1)
        | Failed msg =>
            generate_analysis clients data system_prompt (retry_count + 1)
              (after_failure (model cfg) msg (send req w1))
        end
    end.
Proof.
  intros Hrc. rewrite generate_analysis_equation_1.
  destruct (Z_gt_dec retry_count 3) as [Hgt|Hn]; [lia|].
  rewrite generate_analysis_clause_1_equation_2. cbv zeta.
  rewrite provider_is_groq. reflexivity.
Qed.

Lemma log_extends lvl msg w : extends w (log lvl msg w) [EvLog lvl msg].
Proof. unfold extends, log. cbn. auto. Qed.

Lemma send_extends r w : extends w (send r w) [EvRequest r].
Proof. unfold extends, send. cbn. auto. Qed.

Lemma generate_analysis_run clients data system_prompt :
  forall (n : nat) (retry_count : Z) (w : World),
    Z.of_nat n = 4 - retry_count ->
    chain_run clients system_prompt data n w
      (generate_analysis clients data system_prompt retry_count w).
Proof.
  induction n as [|n IH]; intros retry_count w Hn.
  - rewrite generate_analysis_exhausted by lia.
    exists []. cbn [fst snd]. conjs.
    + apply extends_refl.
    + cbn. lia.
    + constructor.
    + reflexivity.
    + intros; right; reflexivity.
    + intros _. split; reflexivity.
    + intros c _ _. split; reflexivity.
  - rewrite generate_analysis_step by lia. cbv zeta.
    destruct (clients !! "groq" : option Client) as [client|] eqn:Hclient.
    + set (cfg := MODEL_CONFIG (tier_of retry_count)).
      set (w1 := log LInfo _ w).
      set (req := mkRequest _ _ _ _ _).
      assert (Hpre : extends w (send req w1) [EvLog LInfo
                ("Attempting generation with groq model: " +:+ model cfg);
                EvRequest req]).
      { apply (extends_trans w w1 (send req w1) [_] [_]);
          [apply log_extends | apply send_extends]. }
      destruct (client (calls_made (w_trace w1)) req) as [content|msg] eqn:Hout.
      * eexists. cbn [fst snd]. split; [exact Hpre|]. conjs.
        -- cbn. lia.
        -- repeat constructor.
        -- exists (tier_of retry_count). rewrite provider_is_groq. reflexivity.
        -- discriminate.
        -- intros Hnone. rewrite Hclient in Hnone. discriminate.
        -- intros c Hc Hfail. rewrite Hclient in Hc. injection Hc as <-.
           destruct (Hfail (calls_made (w_trace w1)) req) as [m Hm]. congruence.
      * destruct (IH (retry_count + 1)
                    (after_failure (model cfg) msg (send req w1)) ltac:(lia))
          as (evs & Hext & Hcalls & Hreq & Hres & Hfail & _ & Hall).
        pose proof (extends_trans _ _ _ _ _
                      (extends_trans _ _ _ _ _ Hpre (after_failure_extends _ _ _))
                      Hext) as Hext'.
        eexists. split; [exact Hext'|].
        assert (Hcount : forall k, calls_made evs = k ->
                  calls_made (([EvLog LInfo
                     ("Attempting generation with groq model: " +:+ model cfg);
                     EvRequest req] ++ failure_events (model cfg) msg) ++ evs)
                  = S k).
        { intros k <-. rewrite !calls_made_app, failure_events_no_call. reflexivity. }
        conjs.
        -- rewrite (Hcount _ eq_refl). lia.
        -- rewrite !Forall_app. conjs; [| |exact Hreq].
           ++ repeat constructor.
           ++ unfold failure_events. cbv zeta.
              destruct (_ || _); repeat constructor.
        -- exact Hres.
        -- intros e He. destruct (Hfail e He) as [Hnone|Hk]; [congruence|].
           right. apply Hcount, Hk.
        -- intros Hnone. rewrite Hclient in Hnone. discriminate.
        -- intros c Hc Hfails. destruct (Hall c Hc Hfails) as [Hr Hk].
           split; [exact Hr | apply Hcount, Hk].
    + destruct (IH (retry_count + 1)
                  (log LError "No client available for provider: groq" w) ltac:(lia))
        as (evs & Hext & Hcalls & Hreq & Hres & Hfail & Hnone & Hall).
      destruct (Hnone Hclient) as [Hevs Hr].
      exists (skip_event :: evs). conjs.
      * apply (extends_trans w (log LError "No client available for provider: groq" w)
                 _ [_] evs); [apply log_extends | exact Hext].
      * change (calls_made (skip_event :: evs)) with (calls_made evs). lia.
      * constructor; [exact I | exact Hreq].
      * exact Hres.
      * intros; left; exact Hclient.
      * intros _. rewrite Hevs. split; [reflexivity | exact Hr].
      * intros c Hc. rewrite Hclient in Hc. discriminate.
Qed.

(** C1: started at retry count 0, [generate_analysis] returns (it is a total
    function) after at most 4 provider calls.  Without a registered client
    the four tiers are skipped, one log line each and no call, and the run
    still ends in the exhaustion failure; when every call raises, four calls
    are made and the result is that same failure; and no other failure
    message is ever returned. *)
Theorem generate_analysis_at_most_four_calls
    (clients : gmap string Client) (data : Data) (system_prompt : string) (w : World) :
  exists r w' evs,
    generate_analysis clients data system_prompt 0 w = (r, w')
    /\ extends w w' evs
    /\ (calls_made evs <= 4)%nat
    /\ (clients !! "groq" = None ->
          evs = repeat skip_event 4
          /\ calls_made evs = 0%nat
          /\ r = Failure "All models failed after multiple retries")
    /\ (forall c, clients !! "groq" = Some c -> always_fails c ->
          calls_made evs = 4%nat
          /\ r = Failure "All models failed after multiple retries")
    /\ (forall e, r = Failure e -> e = "All models failed after multiple retries").
Proof.
  destruct (generate_analysis_run clients data system_prompt 4 0 w eq_refl)
    as (evs & Hext & Hcalls & _ & Hres & _ & Hnone & Hall).
  destruct (generate_analysis clients data system_prompt 0 w) as [r w'] eqn:Hrun.
  cbn [fst snd] in *.
  exists r, w', evs. conjs; auto.
  - intros Hc. destruct (Hnone Hc) as [-> ->]. conjs; reflexivity.
  - intros c Hc Hfails. destruct (Hall c Hc Hfails) as [-> ->]. conjs; reflexivity.
  - intros e ->. exact Hres.
Qed.

(** ** [analyze_report] *)

Lemma check_rate_limit_shape clock w :
  w_trace (snd (check_rate_limit clock w)) = w_trace w
  /\ (fst (check_rate_limit clock w) = Ok (true, None)
      \/ exists msg,
           check_rate_limit clock w =
             (Ok (false, Some msg), mkWorld (w_session w) (S (w_ticks w)) (w_trace w))).
Proof.
  rewrite check_rate_limit_unfold. cbv zeta.
  destruct (_ <? 0); [split; [reflexivity | left; reflexivity]|].
  destruct (_ <=? _); split; try reflexivity.
  - right. eexists. reflexivity.
  - left. reflexivity.
Qed.

Lemma get_knowledge_base_context_pure d w :
  snd (_get_knowledge_base_context d w) = w.
Proof.
  unfold _get_knowledge_base_context, bind, get_session. cbn [w_session].
  destruct (knowledge_base (w_session w)) as [|entry kb]; [reflexivity|].
  unfold str_lower. destruct (dict_get d "report" (PStr "")); cbn [ret raise];
    try reflexivity.
  destruct (kb_context_items _ _ _); reflexivity.
Qed.

Lemma build_enhanced_prompt_pure system_prompt data chat_history w :
  snd (_build_enhanced_prompt system_prompt data chat_history w) = w.
Proof.
  unfold _build_enhanced_prompt, bind.
  destruct data as [d|].
  - destruct (d !! "report").
    + pose proof (get_knowledge_base_context_pure d w) as Hkb.
      destruct (_get_knowledge_base_context d w) as [[kb_context|e] w1].
      cbn [snd] in Hkb. subst w1. unfold ret.
      * destruct (truthy chat_history); reflexivity.
      * exact Hkb.
    + unfold ret. destruct (truthy chat_history); reflexivity.
  - unfold ret. destruct (truthy chat_history); reflexivity.
Qed.

Lemma enhanced_prompt_pure system_prompt data chat_history w :
  snd (enhanced_prompt system_prompt data chat_history w) = w.
Proof.
  unfold enhanced_prompt. destruct (truthy chat_history);
    [apply build_enhanced_prompt_pure | reflexivity].
Qed.

(** [analyze_report], one stage at a time. *)
Lemma analyze_report_unfold clock clients data system_prompt check_only chat_history w :
  analyze_report clock clients data system_prompt check_only chat_history w =
    match check_rate_limit clock w with
    | (Raise e, w1) => (Raise e, w1)
    | (Ok (false, error_msg), w1) => (Ok (RLimit error_msg), w1)
    | (Ok (true, error_msg), w1) =>
        if check_only then (Ok (RCheck true error_msg), w1)
        else
          let processed_data := _preprocess_data data in
          match enhanced_prompt system_prompt processed_data chat_history w1 with
          | (Raise e, w2) => (Raise e, w2)
          | (Ok prompt, w2) =>
              match generate_analysis clients processed_data prompt 0 w2 with
              | (Failure e, w3) => (Ok (RGenerated (Failure e)), w3)
              | (Success content m, w3) =>
                  match _update_analytics clock (Success content m) w3 with
                  | (Raise e, w4) => (Raise e, w4)
                  | (Ok _, w4) =>
                      match _update_knowledge_base processed_data content w4 with
                      | (Raise e, w5) => (Raise e, w5)
                      | (Ok _, w5) => (Ok (RGenerated (Success content m)), w5)
                      end
                  end
              end
          end
    end.
Proof.
  unfold analyze_report, bind at 1.
  destruct (check_rate_limit clock w) as [[[[|] error_msg]|e] w1]; cbn [negb];
    try reflexivity.
  destruct check_only; [reflexivity|]. cbv zeta. unfold bind at 1.
  destruct (enhanced_prompt _ _ _ w1) as [[prompt|e] w2]; [|reflexivity].
  unfold bind at 1, model_manager_generate.
  destruct (generate_analysis _ _ _ _ w2) as [[content m|e] w3]; [|reflexivity].
  unfold bind at 1.
  destruct (_update_analytics _ _ w3) as [[[]|e] w4]; [|reflexivity].
  unfold bind at 1.
  destruct (_update_knowledge_base _ _ w4) as [[[]|e] w5]; reflexivity.
Qed.

Lemma update_analytics_unfold clock result w :
  _update_analytics clock result w =
    let s := w_session w in
    let model_used := match result with Success _ m => m | Failure _ => "unknown" end in
    (Ok tt,
     mkWorld (mkSession (analysis_count s + 1) (clock (w_ticks w)) (analysis_limit s)
                (<[model_used := match models_used s !! model_used with
                                 | Some n => n + 1
                                 | None => 1
                                 end]> (models_used s))
                (knowledge_base s))
             (S (w_ticks w)) (w_trace w)).
Proof.
  unfold _update_analytics, bind, modify_session, bind, get_session, put_session,
    datetime_now, set_analysis_count, set_last_analysis, set_models_used.
  cbn [w_session w_ticks w_trace analysis_count last_analysis analysis_limit
       models_used knowledge_base].
  destruct (models_used (w_session w) !! _); reflexivity.
Qed.

Lemma update_knowledge_base_frame data analysis w :
  let w' := snd (_update_knowledge_base data analysis w) in
  w_trace w' = w_trace w /\ w_ticks w' = w_ticks w
  /\ analysis_count (w_session w') = analysis_count (w_session w)
  /\ last_analysis (w_session w') = last_analysis (w_session w)
  /\ analysis_limit (w_session w') = analysis_limit (w_session w)
  /\ models_used (w_session w') = models_used (w_session w).
Proof.
  unfold _update_knowledge_base.
  destruct data as [d|]; [|cbn; auto 6].
  destruct (d !! "report") as [report|]; [|cbn; auto 6].
  unfold bind, str_lower. destruct report; cbn; auto 6.
Qed.

(** C3: [_update_analytics], run on the result of a successful generation,
    adds exactly 1 to the count, sets [last_analysis] to the clock reading it
    takes, and adds 1 to the counter of [model_used], which starts at 1 when
    the model had no counter; the limit, the other counters and the knowledge
    base are unchanged. *)
Theorem update_analytics_records_usage
    (clock : nat -> Z) (content model_used : string) (w : World) :
  let s := w_session w in
  let out := _update_analytics clock (Success content model_used) w in
  let s' := w_session (snd out) in
  fst out = Ok tt
  /\ analysis_count s' = analysis_count s + 1
  /\ last_analysis s' = clock (w_ticks w)
  /\ models_used s' !! model_used =
       Some (match models_used s !! model_used with
             | Some n => n + 1
             | None => 1
             end)
  /\ (forall m, m <> model_used -> models_used s' !! m = models_used s !! m)
  /\ analysis_limit s' = analysis_limit s
  /\ knowledge_base s' = knowledge_base s.
Proof.
  cbv zeta. rewrite update_analytics_unfold. cbv zeta.
  cbn [fst snd w_session analysis_count last_analysis analysis_limit models_used
       knowledge_base].
  conjs; try reflexivity.
  - apply lookup_insert_eq.
  - intros m Hm. apply lookup_insert_ne. congruence.
Qed.

(** C5: when what [analyze_report] returns is the model manager's failure,
    the whole session state (count, [last_analysis], limit, per-model
    counters, knowledge base) is what [check_rate_limit] left; and whenever
    the session state differs from what [check_rate_limit] left, the model
    manager had returned a success. *)
Theorem analyze_report_failure_keeps_state
    (clock : nat -> Z) (clients : gmap string Client) (data : Data)
    (system_prompt : string) (check_only : bool)
    (chat_history : option (list ChatMessage)) (w : World) :
  let out := analyze_report clock clients data system_prompt check_only
               chat_history w in
  let w1 := snd (check_rate_limit clock w) in
  (forall e, fst out = Ok (RGenerated (Failure e)) ->
     w_session (snd out) = w_session w1)
  /\ (w_session (snd out) <> w_session w1 ->
      exists prompt content m w2,
        fst (enhanced_prompt system_prompt (_preprocess_data data) chat_history w1)
          = Ok prompt
        /\ generate_analysis clients (_preprocess_data data) prompt 0 w1
           = (Success content m, w2)).
Proof.
  cbv zeta. rewrite analyze_report_unfold.
  destruct (check_rate_limit clock w) as [[[[|] error_msg]|e1] w1]; cbn [fst snd].
  2,3: split; [discriminate | intros Hne; contradiction Hne; reflexivity].
  destruct check_only.
  { split; [discriminate | intros Hne; contradiction Hne; reflexivity]. }
  cbv zeta.
  pose proof (enhanced_prompt_pure system_prompt (_preprocess_data data)
                chat_history w1) as Hpure.
  destruct (enhanced_prompt _ _ _ w1) as [[prompt|e2] w2]; cbn [fst snd] in *;
    subst w2.
  2: split; [discriminate | intros Hne; contradiction Hne; reflexivity].
  destruct (generate_analysis_run clients (_preprocess_data data) prompt 4 0 w1 eq_refl)
    as (evs & (Hsession & _) & _).
  destruct (generate_analysis _ _ _ _ w1) as [[content m|e3] w3] eqn:Hgen;
    cbn [fst snd] in *.
  - split.
    + intros e. destruct (_update_analytics _ _ w3) as [[[]|e4] w4]; [|discriminate].
      destruct (_update_knowledge_base _ _ w4) as [[[]|e5] w5]; discriminate.
    + intros _. exists prompt, content, m, w3. split; [reflexivity | exact Hgen].
  - split; [intros _ _; exact Hsession | intros Hne; contradiction Hne].
Qed.

Lemma analyze_report_failure_keeps_state_witness :
  w_session (snd (analyze_report (Scenario.frozen_clock 7200000000)
                    Scenario.failing_clients Scenario.sample_report "prompt" false None
                    Scenario.seasoned_world))
  = w_session (snd (check_rate_limit (Scenario.frozen_clock 7200000000)
                      Scenario.seasoned_world)).
Proof.
  apply (proj1 (analyze_report_failure_keeps_state (Scenario.frozen_clock 7200000000)
                  Scenario.failing_clients Scenario.sample_report "prompt" false None
                  Scenario.seasoned_world)
           "All models failed after multiple retries").
  vm_compute. reflexivity.
Defined.

(** Requests issued by [analyze_report] all come from its one call of the
    model manager. *)
Lemma analyze_report_requests clock clients data system_prompt check_only chat_history w :
  exists evs,
    w_trace (snd (analyze_report clock clients data system_prompt check_only
                    chat_history w)) = w_trace w ++ evs
    /\ forall prompt,
         (forall w1, fst (enhanced_prompt system_prompt (_preprocess_data data)
                            chat_history w1) = Ok prompt) ->
         Forall (issued_for prompt (_preprocess_data data)) evs.
Proof.
  rewrite analyze_report_unfold.
  destruct (check_rate_limit_shape clock w) as [Htrace _].
  destruct (check_rate_limit clock w) as [[[[|] error_msg]|e1] w1];
    cbn [snd] in Htrace.
  2,3: exists []; rewrite app_nil_r; split; [exact Htrace | constructor].
  destruct check_only.
  { exists []. rewrite app_nil_r. split; [exact Htrace | constructor]. }
  cbv zeta.
  pose proof (enhanced_prompt_pure system_prompt (_preprocess_data data)
                chat_history w1) as Hpure.
  destruct (enhanced_prompt _ _ _ w1) as [[prompt|e2] w2] eqn:Hprompt;
    cbn [snd] in Hpure; subst w2.
  2: { exists []. rewrite app_nil_r. split; [exact Htrace | constructor]. }
  destruct (generate_analysis_run clients (_preprocess_data data) prompt 4 0 w1 eq_refl)
    as (evs & (_ & _ & Hevs) & _ & Hreq & _).
  exists evs. split.
  - rewrite <- Htrace, <- Hevs.
    destruct (generate_analysis _ _ _ _ w1) as [[content m|e3] w3]; [|reflexivity].
    rewrite update_analytics_unfold. cbv beta iota zeta.
    match goal with
    | |- context [_update_knowledge_base ?d ?a ?w0] =>
        destruct (update_knowledge_base_frame d a w0) as (Hkb & _);
        destruct (_update_knowledge_base d a w0) as [[[]|e5] w5]
    end; exact Hkb.
  - intros prompt' Hsame. specialize (Hsame w1). rewrite Hprompt in Hsame.
    injection Hsame as <-. exact Hreq.
Qed.

(** C8: with [chat_history] absent ([None]) or empty, the prompt that
    [analyze_report] composes is the system prompt itself, character for
    character, and every request it then issues carries exactly that system
    prompt. *)
Theorem prompt_unchanged_without_history
    (system_prompt : string) (data : Data)
    (chat_history : option (list ChatMessage)) (w : World) :
  chat_history = None \/ chat_history = Some [] ->
  enhanced_prompt system_prompt (_preprocess_data data) chat_history w
    = (Ok system_prompt, w)
  /\ forall clock clients check_only,
       exists evs,
         w_trace (snd (analyze_report clock clients data system_prompt check_only
                         chat_history w)) = w_trace w ++ evs
         /\ Forall (issued_for system_prompt (_preprocess_data data)) evs.
Proof.
  intros Hempty.
  assert (Hid : forall d w1, enhanced_prompt system_prompt d chat_history w1
                             = (Ok system_prompt, w1)).
  { intros d w1. unfold enhanced_prompt. destruct Hempty as [-> | ->]; reflexivity. }
  split; [apply Hid|].
  intros clock clients check_only.
  destruct (analyze_report_requests clock clients data system_prompt check_only
              chat_history w) as (evs & Htrace & Hreq).
  exists evs. split; [exact Htrace|].
  apply Hreq. intros w1. rewrite Hid. reflexivity.
Qed.

Lemma prompt_unchanged_without_history_witness :
  enhanced_prompt "You are an analyst." (_preprocess_data Scenario.sample_report)
    (Some []) Scenario.seasoned_world
  = (Ok "You are an analyst.", Scenario.seasoned_world).
Proof.
  apply (prompt_unchanged_without_history "You are an analyst."
           Scenario.sample_report (Some []) Scenario.seasoned_world).
  right. reflexivity.
Defined.

(** C10: with [check_only=True], [analyze_report] returns the bare tuple
    [(True, None)] when the rate limit allows and the dictionary
    [{"success": False, "error": message}] when it does not; both shapes
    occur. *)
Theorem analyze_report_check_only_shapes :
  (forall clock clients data system_prompt chat_history w,
     let out := analyze_report clock clients data system_prompt true chat_history w in
     (fst (check_rate_limit clock w) = Ok (true, None)
      /\ out = (Ok (RCheck true None), snd (check_rate_limit clock w)))
     \/ (exists msg,
           fst (check_rate_limit clock w) = Ok (false, Some msg)
           /\ out = (Ok (RLimit (Some msg)), snd (check_rate_limit clock w))))
  /\ fst (analyze_report (Scenario.frozen_clock 7200000000) Scenario.failing_clients
            DOther "" true None (Scenario.world_with 14))
     = Ok (RCheck true None)
  /\ fst (analyze_report (Scenario.frozen_clock 7200000000) Scenario.failing_clients
            DOther "" true None (Scenario.world_with 15))
     = Ok (RLimit (Some "Daily limit reached. Reset in 22h 0m")).
Proof.
  conjs; [|vm_compute; reflexivity|vm_compute; reflexivity].
  intros clock clients data system_prompt chat_history w. cbv zeta.
  rewrite analyze_report_unfold.
  destruct (check_rate_limit_shape clock w) as [_ [Hok | [msg Hno]]].
  - left. destruct (check_rate_limit clock w) as [r w1]. cbn [fst snd] in *.
    subst r. split; reflexivity.
  - right. exists msg. rewrite Hno. split; reflexivity.
Qed.

(** ** Session recall *)

Lemma string_length_app (a b : string) :
  String.length (a +:+ b) = (String.length a + String.length b)%nat.
Proof. induction a as [|c a IH]; simpl; [reflexivity | f_equal; exact IH]. Qed.

Lemma slice_to_length (n : nat) (s : string) :
  (n <= String.length s)%nat -> String.length (PyStr.slice_to n s) = n.
Proof.
  unfold PyStr.slice_to. revert s.
  induction n as [|n IH]; intros s Hn.
  - destruct s; reflexivity.
  - destruct s as [|c s]; cbn in *; [lia|]. rewrite IH by lia. reflexivity.
Qed.

Lemma truncate_message_spec (msg : string) :
  (String.length (truncate_message msg) <= 200)%nat
  /\ ((200 < String.length msg)%nat ->
        truncate_message msg = PyStr.slice_to 197 msg +:+ "..."
        /\ String.length (truncate_message msg) = 200%nat)
  /\ ((String.length msg <= 200)%nat -> truncate_message msg = msg).
Proof.
  unfold truncate_message.
  destruct (Nat.ltb_spec 200 (String.length msg)) as [Hlong|Hshort].
  - assert (Hlen : String.length (PyStr.slice_to 197 msg +:+ "...") = 200%nat).
    { rewrite string_length_app, slice_to_length by lia. reflexivity. }
    conjs; [lia | auto | lia].
  - conjs; [assumption | lia | reflexivity].
Qed.

Lemma py_range_down_bounds (start i : Z) :
  In i (py_range start 0 (-2)) -> 1 <= i <= start.
Proof.
  unfold py_range.
  change (0 <? -2) with false. change (-2 <? 0) with true. cbv iota.
  intros Hin. apply in_map_iff in Hin. destruct Hin as (k & <- & Hk).
  apply in_seq in Hk.
  destruct (Z.ltb_spec 0 start) as [Hpos|Hneg]; [|cbn in Hk; lia].
  change (- -2) with 2 in Hk. rewrite Z.sub_0_r in Hk.
  assert (Z.of_nat k <= (start - 1) `div` 2).
  { pose proof (Z.div_pos (start - 1) 2 ltac:(lia) ltac:(lia)). lia. }
  pose proof (Z.mul_div_le (start - 1) 2 ltac:(lia)). lia.
Qed.

Lemma session_loop_spec (h : list ChatMessage) (indices : list Z) :
  (forall i, In i indices -> i < Z.of_nat (length h)) ->
  forall acc,
    (length acc <= 1)%nat -> Forall (recalled_exchange h) acc ->
    (length (session_loop h indices acc) <= 2)%nat
    /\ Forall (recalled_exchange h) (session_loop h indices acc).
Proof.
  induction indices as [|i rest IH]; intros Hidx acc Hlen Hacc; cbn [session_loop].
  - split; [lia | exact Hacc].
  - assert (Hrest : forall j, In j rest -> j < Z.of_nat (length h))
      by (intros j Hj; apply Hidx; right; exact Hj).
    destruct ((1 <=? i) && _ && _) eqn:Hcond.
    + apply andb_prop in Hcond. destruct Hcond as [Hcond Hai].
      apply andb_prop in Hcond. destruct Hcond as [Hi Hus].
      apply Z.leb_le in Hi. apply String.eqb_eq in Hus, Hai.
      assert (Hnew : Forall (recalled_exchange h)
                (acc ++ [render_exchange
                   (truncate_message (msg_content (message_at h (i - 1))))
                   (truncate_message (msg_content (message_at h i)))])).
      { apply Forall_app. split; [exact Hacc|]. constructor; [|constructor].
        exists i. conjs; auto. apply Hidx. left. reflexivity. }
      cbv zeta. rewrite length_app. cbn [length].
      destruct (Nat.leb_spec 2 (length acc + 1)) as [Hfull|Hroom].
      * split; [rewrite length_app; cbn [length]; lia | exact Hnew].
      * apply IH; [exact Hrest | rewrite length_app; cbn [length]; lia | exact Hnew].
    + apply IH; assumption.
Qed.

(** C6: the session recall holds at most 2 exchanges; each is the rendering
    of an adjacent user/assistant pair of the history; a message longer than
    200 characters is cut to its first 197 characters followed by ["..."], so
    every emitted message is at most 200 characters long, marker included
    (within the 200 characters plus marker that are allowed), and shorter
    messages are emitted unchanged; the section is these entries, oldest
    first, joined by blank lines. *)
Theorem session_context_bounded (chat_history : list ChatMessage) :
  (length (session_items chat_history) <= 2)%nat
  /\ Forall (recalled_exchange chat_history) (session_items chat_history)
  /\ (forall msg,
        (String.length (truncate_message msg) <= 200 + String.length "...")%nat
        /\ (String.length (truncate_message msg) <= 200)%nat
        /\ ((200 < String.length msg)%nat ->
              truncate_message msg = PyStr.slice_to 197 msg +:+ "...")
        /\ ((String.length msg <= 200)%nat -> truncate_message msg = msg))
  /\ _get_session_context (Some chat_history)
     = PyStr.join (PyStr.nl +:+ PyStr.nl) (rev (session_items chat_history)).
Proof.
  assert (Hloop := session_loop_spec chat_history
            (py_range (Z.of_nat (length chat_history) - 1) 0 (-2))
            ltac:(intros i Hi; apply py_range_down_bounds in Hi; lia)
            [] ltac:(cbn; lia) ltac:(constructor)).
  fold (session_items chat_history) in Hloop. destruct Hloop as [Hlen Hall].
  conjs; [exact Hlen | exact Hall | |].
  - intros msg. destruct (truncate_message_spec msg) as (Hle & Hlong & Hshort).
    conjs; [lia | exact Hle | apply Hlong | exact Hshort].
  - unfold _get_session_context.
    destruct chat_history as [|m1 [|m2 h]]; [reflexivity | reflexivity |].
    cbn [truthy negb orb length Nat.ltb Nat.leb].
    destruct (session_items _); reflexivity.
Qed.

(** ** Knowledge recall *)

Lemma fold_append_map {A} (g : A -> string) (l : list A) (acc : list string) :
  fold_left (fun items x => items ++ [g x]) l acc = acc ++ List.map g l.
Proof.
  revert acc. induction l as [|x l IH]; intros acc; cbn [fold_left List.map].
  - now rewrite app_nil_r.
  - rewrite IH, <- app_assoc. reflexivity.
Qed.

Lemma kb_recall_indicator_spec patient_profile acc indicator profiles :
  kb_recall_indicator patient_profile acc indicator profiles
  = acc ++ recall_of_indicator patient_profile indicator profiles.
Proof.
  unfold kb_recall_indicator, recall_of_indicator. cbv zeta.
  set (similar := List.map _ (default [] _)).
  assert (Hfirst : match ODict.get patient_profile profiles with
                   | Some insights =>
                       fold_left (fun items insight =>
                         items ++ [bullet indicator "similar patient profile" insight])
                         insights acc
                   | None => acc
                   end = acc ++ similar).
  { subst similar. destruct (ODict.get patient_profile profiles) as [insights|]; cbn.
    - apply fold_append_map.
    - now rewrite app_nil_r. }
  rewrite Hfirst, (app_assoc acc similar). generalize (acc ++ similar) as items.
  clear. induction profiles as [|[profile insights] profiles IH]; intros items;
    cbn [fold_left flat_map fst snd].
  - now rewrite app_nil_r.
  - rewrite IH. destruct (String.eqb profile patient_profile); cbn [negb].
    + reflexivity.
    + rewrite fold_append_map, <- !app_assoc. reflexivity.
Qed.

Lemma kb_context_items_spec kb report_text patient_profile :
  kb_context_items kb report_text patient_profile
  = firstn 5 (recall_bullets kb report_text patient_profile).
Proof.
  unfold kb_context_items, recall_bullets. cbv zeta.
  assert (Hfold : forall acc,
            fold_left (fun items '(indicator, profiles) =>
                         if PyStr.contains indicator report_text
                         then kb_recall_indicator patient_profile items indicator profiles
                         else items) kb acc
            = acc ++ flat_map (fun entry : string * Profiles =>
                         if PyStr.contains (fst entry) report_text
                         then recall_of_indicator patient_profile (fst entry) (snd entry)
                         else []) kb).
  { induction kb as [|[indicator profiles] kb IH]; intros acc;
      cbn [fold_left flat_map fst snd].
    - now rewrite app_nil_r.
    - rewrite IH. destruct (PyStr.contains indicator report_text).
      + rewrite kb_recall_indicator_spec, <- app_assoc. reflexivity.
      + reflexivity. }
  rewrite Hfold. cbn [app].
  match goal with
  | |- (if (5 <? length ?l)%nat then _ else _) = _ =>
      destruct (Nat.ltb_spec 5 (length l)) as [Hmany|Hfew]
  end.
  - reflexivity.
  - symmetry. apply firstn_all2. exact Hfew.
Qed.

Lemma recall_of_indicator_order patient_profile indicator profiles :
  exists similar others,
    recall_of_indicator patient_profile indicator profiles = similar ++ others
    /\ similar = List.map (bullet indicator "similar patient profile")
                   (default [] (ODict.get patient_profile profiles))
    /\ Forall (other_bullet patient_profile indicator profiles) others.
Proof.
  unfold recall_of_indicator. eexists. eexists. conjs; [reflexivity | reflexivity |].
  apply List.Forall_forall. intros b Hb.
  apply in_flat_map in Hb. destruct Hb as ([profile snippets] & Hentry & Hb).
  cbn [fst snd] in Hb.
  destruct (String.eqb_spec profile patient_profile) as [|Hne]; [contradiction Hb|].
  apply in_map_iff in Hb. destruct Hb as (snippet & <- & Hsnippet).
  exists profile, snippets, snippet. auto.
Qed.

Lemma recall_of_absent_profile patient_profile indicator profiles :
  ~ In patient_profile (List.map fst profiles) ->
  length (recall_of_indicator patient_profile indicator profiles)
  = snippet_count profiles.
Proof.
  unfold recall_of_indicator, snippet_count.
  induction profiles as [|[profile snippets] profiles IH]; intros Hnotin;
    [reflexivity|].
  cbn [List.map fst snd In] in Hnotin.
  cbn [ODict.get flat_map List.map fst snd concat].
  destruct (String.eqb_spec profile patient_profile) as [->|Hne];
    [contradiction Hnotin; left; reflexivity|].
  specialize (IH ltac:(intros H; apply Hnotin; right; exact H)).
  repeat rewrite length_app in *; repeat rewrite length_map in *; lia.
Qed.

Lemma recall_of_indicator_length patient_profile indicator profiles :
  List.NoDup (List.map fst profiles) ->
  length (recall_of_indicator patient_profile indicator profiles)
  = snippet_count profiles.
Proof.
  induction profiles as [|[profile snippets] profiles IH]; intros Hnodup;
    [reflexivity|].
  cbn [List.map fst] in Hnodup. inversion Hnodup as [|k ks Hfresh Hrest]; subst.
  unfold recall_of_indicator, snippet_count in *.
  cbn [ODict.get flat_map List.map fst snd concat].
  destruct (String.eqb_spec profile patient_profile) as [->|Hne].
  - pose proof (recall_of_absent_profile patient_profile indicator profiles Hfresh)
      as Habsent.
    unfold recall_of_indicator, snippet_count in Habsent.
    assert (Hnone : ODict.get patient_profile profiles = None).
    { clear -Hfresh. induction profiles as [|[k v] profiles IH]; [reflexivity|].
      cbn in *. destruct (String.eqb_spec k patient_profile); [tauto | apply IH; tauto]. }
    rewrite Hnone in Habsent. cbn [default List.map app] in Habsent.
    change (default [] (Some snippets)) with snippets.
    repeat rewrite length_app in *; repeat rewrite length_map in *. cbn [length]. lia.
  - specialize (IH Hrest). repeat rewrite length_app in *; repeat rewrite length_map in *; lia.
Qed.

(** C7, with the order the code implements: for a report whose text is a
    string, the knowledge-recall section is the newline-joined list of at
    most 5 bullets obtained by going through the stored indicators that occur
    in the lower-cased report text, in stored order, and, for each indicator,
    writing one bullet ["- {indicator} ({label}): {snippet}"] per stored
    snippet, first those of the request's own profile key (label
    ["similar patient profile"]), then those of the other profile keys (label
    ["other patient profile"]); the combined list is cut to its first 5
    bullets, which keeps that order. *)
Theorem knowledge_recall_section
    (d : gmap string PyVal) (report : string) (w : World) :
  dict_get d "report" (PStr "") = PStr report ->
  let kb := knowledge_base (w_session w) in
  let profile := patient_profile_of d in
  let bullets := recall_bullets kb (PyStr.lower report) profile in
  _get_knowledge_base_context d w = (Ok (PyStr.join PyStr.nl (firstn 5 bullets)), w)
  /\ kb_context_items kb (PyStr.lower report) profile = firstn 5 bullets
  /\ (length (firstn 5 bullets) <= 5)%nat
  /\ (forall indicator profiles,
        exists similar others,
          recall_of_indicator profile indicator profiles = similar ++ others
          /\ similar = List.map (bullet indicator "similar patient profile")
                         (default [] (ODict.get profile profiles))
          /\ Forall (other_bullet profile indicator profiles) others)
  /\ (forall indicator profiles,
        List.NoDup (List.map fst profiles) ->
        length (recall_of_indicator profile indicator profiles)
        = snippet_count profiles)
  /\ (forall indicator label snippet,
        bullet indicator label snippet
        = "- " +:+ indicator +:+ " (" +:+ label +:+ "): " +:+ snippet).
Proof.
  intros Hreport. cbv zeta. conjs.
  - unfold _get_knowledge_base_context, bind, get_session. cbn [w_session].
    destruct (knowledge_base (w_session w)) as [|entry kb] eqn:Hkb; [reflexivity|].
    rewrite Hreport. cbn [str_lower ret]. rewrite kb_context_items_spec.
    destruct (firstn 5 _); reflexivity.
  - apply kb_context_items_spec.
  - apply firstn_le_length.
  - intros indicator profiles. apply recall_of_indicator_order.
  - intros indicator profiles. apply recall_of_indicator_length.
  - reflexivity.
Qed.

(** ** The knowledge base *)

Lemma odict_get_set_eq {V} (k : string) (v : V) (d : list (string * V)) :
  ODict.get k (ODict.set k v d) = Some v.
Proof.
  induction d as [|[k' v'] d IH]; cbn.
  - now rewrite String.eqb_refl.
  - destruct (String.eqb k' k) eqn:Hk; cbn; rewrite Hk; [reflexivity | exact IH].
Qed.

Lemma odict_get_set_ne {V} (k k' : string) (v : V) (d : list (string * V)) :
  k <> k' -> ODict.get k' (ODict.set k v d) = ODict.get k' d.
Proof.
  intros Hne. induction d as [|[k0 v0] d IH]; cbn.
  - destruct (String.eqb_spec k k'); [contradiction | reflexivity].
  - destruct (String.eqb_spec k0 k) as [->|Hk0]; cbn.
    + destruct (String.eqb_spec k k'); [contradiction | reflexivity].
    + rewrite IH. reflexivity.
Qed.

Lemma odict_set_Forall {V} (P : V -> Prop) (k : string) (v : V) (d : list (string * V)) :
  Forall (fun e => P (snd e)) d -> P v -> Forall (fun e => P (snd e)) (ODict.set k v d).
Proof.
  intros Hd Hv. induction Hd as [|[k' v'] d Hhead Htail IH]; cbn.
  - constructor; [exact Hv | constructor].
  - destruct (String.eqb k' k); constructor; auto.
Qed.

Lemma odict_get_Forall {V} (P : V -> Prop) (k : string) (v : V) (d : list (string * V)) :
  Forall (fun e => P (snd e)) d -> ODict.get k d = Some v -> P v.
Proof.
  intros Hd. induction Hd as [|[k' v'] d Hhead Htail IH]; cbn; [discriminate|].
  destruct (String.eqb k' k); [intros [= <-]; exact Hhead | exact IH].
Qed.

Lemma kb_profiles_bounded kb indicator :
  kb_bounded kb -> profiles_bounded (default [] (ODict.get indicator kb)).
Proof.
  intros Hkb. destruct (ODict.get indicator kb) as [profiles|] eqn:Hget; cbn.
  - exact (odict_get_Forall profiles_bounded _ _ _ Hkb Hget).
  - constructor.
Qed.

Lemma kb_snippets_bounded kb indicator profile :
  kb_bounded kb -> (length (kb_snippets kb indicator profile) <= 3)%nat.
Proof.
  intros Hkb. unfold kb_snippets.
  pose proof (kb_profiles_bounded kb indicator Hkb) as Hprofiles.
  destruct (ODict.get profile _) as [snippets|] eqn:Hget; cbn; [|lia].
  exact (odict_get_Forall (fun l => (length l <= 3)%nat) _ _ _ Hprofiles Hget).
Qed.

Lemma kb_store_bounded kb indicator profile snippets :
  kb_bounded kb -> (length snippets <= 3)%nat ->
  kb_bounded (kb_store kb indicator profile snippets).
Proof.
  intros Hkb Hlen. unfold kb_store.
  apply (odict_set_Forall profiles_bounded); [exact Hkb|].
  apply (odict_set_Forall (fun l => (length l <= 3)%nat));
    [apply kb_profiles_bounded; exact Hkb | exact Hlen].
Qed.

Lemma kb_snippets_store kb indicator profile snippets :
  kb_snippets (kb_store kb indicator profile snippets) indicator profile = snippets.
Proof. unfold kb_snippets, kb_store. rewrite odict_get_set_eq. cbn. now rewrite odict_get_set_eq. Qed.

Lemma after_append_bounded current first :
  (length current <= 3)%nat -> (length (after_append current first) <= 3)%nat.
Proof.
  intros Hlen. unfold after_append. rewrite length_app. cbn [length].
  destruct (Nat.leb_spec 3 (length current)); [|lia].
  destruct current; cbn in *; lia.
Qed.

Lemma kb_prepare_bounded kb indicator profile :
  kb_bounded kb -> kb_bounded (kb_prepare kb indicator profile).
Proof.
  intros Hkb. unfold kb_prepare. cbv zeta.
  assert (Hkb1 : kb_bounded (if ODict.mem indicator kb then kb
                             else ODict.set indicator [] kb)).
  { destruct (ODict.mem indicator kb); [exact Hkb|].
    apply (odict_set_Forall profiles_bounded); [exact Hkb | constructor]. }
  destruct (ODict.mem profile _); [exact Hkb1|].
  apply kb_store_bounded; [exact Hkb1 | cbn; lia].
Qed.

Lemma kb_prepare_snippets kb indicator profile :
  kb_snippets (kb_prepare kb indicator profile) indicator profile
  = kb_snippets kb indicator profile.
Proof.
  unfold kb_prepare. cbv zeta.
  assert (Hkb1 : kb_snippets (if ODict.mem indicator kb then kb
                              else ODict.set indicator [] kb) indicator profile
                 = kb_snippets kb indicator profile).
  { unfold ODict.mem, kb_snippets.
    destruct (ODict.get indicator kb) eqn:Hget; [rewrite Hget; reflexivity|].
    rewrite odict_get_set_eq. reflexivity. }
  destruct (ODict.mem profile _) eqn:Hmem; [exact Hkb1|].
  rewrite kb_snippets_store. rewrite <- Hkb1.
  unfold kb_snippets, ODict.mem in *.
  destruct (ODict.get profile _); [discriminate | reflexivity].
Qed.

Lemma kb_learn_unfold report_text profile analysis kb indicator :
  kb_learn report_text profile analysis kb indicator =
    if PyStr.contains indicator report_text
       && PyStr.contains indicator (PyStr.lower analysis)
    then
      match List.filter (fun l => PyStr.contains indicator (PyStr.lower l))
                        (PyStr.split_nl analysis) with
      | [] => kb_prepare kb indicator profile
      | first :: _ =>
          kb_store (kb_prepare kb indicator profile) indicator profile
            (after_append (kb_snippets (kb_prepare kb indicator profile)
                             indicator profile) first)
      end
    else kb.
Proof.
  unfold kb_learn.
  destruct (PyStr.contains indicator report_text); [|reflexivity].
  destruct (PyStr.contains indicator (PyStr.lower analysis)); reflexivity.
Qed.

Lemma kb_learn_bounded report_text profile analysis kb indicator :
  kb_bounded kb -> kb_bounded (kb_learn report_text profile analysis kb indicator).
Proof.
  intros Hkb. rewrite kb_learn_unfold.
  destruct (_ && _); [|exact Hkb].
  pose proof (kb_prepare_bounded kb indicator profile Hkb) as Hprep.
  destruct (List.filter _ _) as [|first rest]; [exact Hprep|].
  apply kb_store_bounded; [exact Hprep|].
  apply after_append_bounded, kb_snippets_bounded, Hprep.
Qed.

Lemma kb_learn_all_bounded report_text profile analysis indicators :
  forall kb, kb_bounded kb ->
    kb_bounded (fold_left (kb_learn report_text profile analysis) indicators kb).
Proof.
  induction indicators as [|indicator rest IH]; intros kb Hkb; cbn [fold_left].
  - exact Hkb.
  - apply IH, kb_learn_bounded, Hkb.
Qed.

Lemma kb_store_other kb indicator profile snippets other :
  indicator <> other ->
  ODict.get other (kb_store kb indicator profile snippets) = ODict.get other kb.
Proof. intros Hne. unfold kb_store. apply odict_get_set_ne, Hne. Qed.

Lemma kb_prepare_other kb indicator profile other :
  indicator <> other ->
  ODict.get other (kb_prepare kb indicator profile) = ODict.get other kb.
Proof.
  intros Hne. unfold kb_prepare. cbv zeta.
  assert (Hkb1 : ODict.get other (if ODict.mem indicator kb then kb
                                  else ODict.set indicator [] kb)
                 = ODict.get other kb).
  { destruct (ODict.mem indicator kb); [reflexivity | apply odict_get_set_ne, Hne]. }
  destruct (ODict.mem profile _); [exact Hkb1|].
  rewrite kb_store_other by exact Hne. exact Hkb1.
Qed.

Lemma kb_learn_other report_text profile analysis kb indicator other :
  indicator <> other ->
  ODict.get other (kb_learn report_text profile analysis kb indicator)
  = ODict.get other kb.
Proof.
  intros Hne. rewrite kb_learn_unfold.
  destruct (_ && _); [|reflexivity].
  destruct (List.filter _ _) as [|first rest].
  - apply kb_prepare_other, Hne.
  - rewrite kb_store_other by exact Hne. apply kb_prepare_other, Hne.
Qed.

Lemma kb_learn_all_other report_text profile analysis indicators other :
  ~ In other indicators ->
  forall kb,
    ODict.get other (fold_left (kb_learn report_text profile analysis) indicators kb)
    = ODict.get other kb.
Proof.
  induction indicators as [|indicator rest IH]; intros Hnotin kb; cbn [fold_left].
  - reflexivity.
  - rewrite IH by (intros Hin; apply Hnotin; right; exact Hin).
    apply kb_learn_other. intros ->. apply Hnotin. left. reflexivity.
Qed.

Lemma kb_snippets_ext kb kb' indicator profile :
  ODict.get indicator kb' = ODict.get indicator kb ->
  kb_snippets kb' indicator profile = kb_snippets kb indicator profile.
Proof. unfold kb_snippets. intros ->. reflexivity. Qed.

Lemma key_indicators_NoDup : List.NoDup key_indicators.
Proof. apply NoDup_ListNoDup, (bool_decide_unpack _). vm_compute. exact I. Qed.

Lemma kb_learn_all_snippets report_text profile analysis indicator first rest kb :
  In indicator key_indicators ->
  PyStr.contains indicator report_text = true ->
  PyStr.contains indicator (PyStr.lower analysis) = true ->
  List.filter (fun l => PyStr.contains indicator (PyStr.lower l))
              (PyStr.split_nl analysis) = first :: rest ->
  kb_snippets (fold_left (kb_learn report_text profile analysis) key_indicators kb)
              indicator profile
  = after_append (kb_snippets kb indicator profile) first.
Proof.
  intros Hin Hreport Hanalysis Hlines.
  pose proof key_indicators_NoDup as Hnodup.
  destruct (in_split _ _ Hin) as (before & after & Hsplit).
  rewrite Hsplit in Hnodup |- *.
  apply NoDup_remove_2 in Hnodup.
  rewrite fold_left_app. cbn [fold_left].
  rewrite (kb_snippets_ext _ _ _ _
             (kb_learn_all_other _ _ _ after indicator
                ltac:(intros H; apply Hnodup, in_or_app; right; exact H) _)).
  rewrite kb_learn_unfold, Hreport, Hanalysis, Hlines. cbn [andb].
  rewrite kb_snippets_store, kb_prepare_snippets.
  f_equal. apply kb_snippets_ext, kb_learn_all_other.
  intros H. apply Hnodup, in_or_app. left. exact H.
Qed.

Lemma split_nl_nonempty s : PyStr.split_nl s <> [].
Proof.
  destruct s as [|c s]; cbn [PyStr.split_nl]; [intros H; discriminate H|].
  destruct (Ascii.eqb c PyStr.newline); [intros H; discriminate H|].
  destruct (PyStr.split_nl s); intros H; discriminate H.
Qed.

Lemma prefix_empty s : String.prefix "" s = true.
Proof. destruct s; reflexivity. Qed.

(** A match that starts at the beginning of a text lies within its first
    line, as the needle has no line break. *)
Lemma prefix_first_line needle :
  newline_free needle = true ->
  forall s, String.prefix needle (PyStr.lower s) = true ->
    String.prefix needle (PyStr.lower (hd "" (PyStr.split_nl s))) = true.
Proof.
  induction needle as [|a needle IH]; intros Hfree s Hprefix;
    [apply prefix_empty|].
  cbn [newline_free] in Hfree. apply andb_prop in Hfree. destruct Hfree as [Ha Hfree].
  destruct s as [|c s]; [discriminate|].
  cbn [PyStr.lower String.prefix] in Hprefix.
  destruct (ascii_dec a (PyStr.lower_ascii c)) as [->|]; [|discriminate].
  assert (Hc : Ascii.eqb c PyStr.newline = false).
  { destruct (Ascii.eqb_spec c PyStr.newline) as [->|]; [|reflexivity].
    discriminate Ha. }
  cbn [PyStr.split_nl]. rewrite Hc.
  specialize (IH Hfree s Hprefix).
  destruct (PyStr.split_nl s) as [|l ls] eqn:Hsplit.
  - destruct (split_nl_nonempty s Hsplit).
  - cbn [hd PyStr.lower String.prefix] in *.
    destruct (ascii_dec _ _); [exact IH | contradiction].
Qed.

(** An indicator found in the lower-cased analysis is found in one of its
    lines. *)
Lemma contains_some_line needle :
  newline_free needle = true -> needle <> "" ->
  forall s, PyStr.contains needle (PyStr.lower s) = true ->
    exists line, In line (PyStr.split_nl s)
                 /\ PyStr.contains needle (PyStr.lower line) = true.
Proof.
  intros Hfree Hne s. induction s as [|c s IH]; intros Hin.
  - destruct needle; [contradiction | discriminate].
  - cbn [PyStr.lower PyStr.contains] in Hin.
    pose proof (prefix_first_line needle Hfree (String c s)) as Hline.
    cbn [PyStr.lower] in Hline.
    apply orb_prop in Hin. destruct Hin as [Hprefix|Hrest].
    + specialize (Hline Hprefix).
      exists (hd "" (PyStr.split_nl (String c s))). split.
      * destruct (PyStr.split_nl (String c s)) eqn:Hs;
          [destruct (split_nl_nonempty _ Hs) | left; reflexivity].
      * destruct (PyStr.lower (hd "" (PyStr.split_nl (String c s))));
          cbn [PyStr.contains]; rewrite Hline; reflexivity.
    + destruct (IH Hrest) as (line & Hl & Hc).
      cbn [PyStr.split_nl].
      destruct (Ascii.eqb c PyStr.newline).
      * exists line. split; [right; exact Hl | exact Hc].
      * destruct (PyStr.split_nl s) as [|l ls]; [contradiction|].
        destruct Hl as [<-|Hl].
        -- exists (String c l). split; [left; reflexivity|].
           cbn [PyStr.lower PyStr.contains]. rewrite Hc. apply orb_true_r.
        -- exists line. split; [right; exact Hl | exact Hc].
Qed.

Lemma key_indicators_plain indicator :
  In indicator key_indicators -> newline_free indicator = true /\ indicator <> "".
Proof.
  unfold key_indicators. cbn [In]. intros Hin.
  repeat (destruct Hin as [<-|Hin]; [split; [reflexivity | discriminate]|]).
  contradiction.
Qed.

Lemma relevant_lines_nonempty indicator analysis :
  In indicator key_indicators ->
  PyStr.contains indicator (PyStr.lower analysis) = true ->
  exists first rest,
    List.filter (fun l => PyStr.contains indicator (PyStr.lower l))
                (PyStr.split_nl analysis) = first :: rest.
Proof.
  intros Hin Hfound. destruct (key_indicators_plain indicator Hin) as [Hfree Hne].
  destruct (contains_some_line indicator Hfree Hne analysis Hfound)
    as (line & Hline & Hmatch).
  destruct (List.filter _ (PyStr.split_nl analysis)) as [|first rest] eqn:Hfilter.
  - assert (Hmem : In line (List.filter
                     (fun l => PyStr.contains indicator (PyStr.lower l))
                     (PyStr.split_nl analysis)))
      by (apply filter_In; split; assumption).
    rewrite Hfilter in Hmem. contradiction.
  - exists first, rest. reflexivity.
Qed.

Lemma update_knowledge_base_bounded data analysis w :
  kb_bounded (knowledge_base (w_session w)) ->
  kb_bounded (knowledge_base (w_session (snd (_update_knowledge_base data analysis w)))).
Proof.
  intros Hkb. unfold _update_knowledge_base.
  destruct data as [d|]; [|exact Hkb].
  destruct (d !! "report") as [report|]; [|exact Hkb].
  unfold bind, str_lower, modify_session, bind, get_session, put_session, ret, raise.
  destruct report; cbn [snd w_session knowledge_base set_knowledge_base];
    try exact Hkb.
  apply kb_learn_all_bounded, Hkb.
Qed.

(** C4: starting from a knowledge base whose sequences hold at most 3
    snippets, and so from the empty one the agent starts with, every sequence
    of updates leaves at most 3 snippets under each indicator and profile
    key; and an update whose report and analysis both mention an indicator
    leaves, under that indicator and the request's profile key, the previous
    snippets followed by the first line of the analysis that mentions the
    indicator, without the oldest snippet when there already were 3: a 4th
    insertion removes the 1st. *)
Theorem knowledge_base_capped_fifo :
  (forall (updates : list (Data * string)) (w : World),
     kb_bounded (knowledge_base (w_session w)) ->
     kb_bounded (knowledge_base (w_session (run_updates updates w)))
     /\ forall indicator profile,
          (length (kb_snippets (knowledge_base (w_session (run_updates updates w)))
                     indicator profile) <= 3)%nat)
  /\ (forall (d : gmap string PyVal) (report analysis indicator : string) (w : World),
        d !! "report" = Some (PStr report) ->
        In indicator key_indicators ->
        PyStr.contains indicator (PyStr.lower report) = true ->
        PyStr.contains indicator (PyStr.lower analysis) = true ->
        exists first rest,
          List.filter (fun l => PyStr.contains indicator (PyStr.lower l))
                      (PyStr.split_nl analysis) = first :: rest
          /\ kb_snippets (knowledge_base
                 (w_session (snd (_update_knowledge_base (DDict d) analysis w))))
               indicator (patient_profile_of d)
             = after_append (kb_snippets (knowledge_base (w_session w)) indicator
                               (patient_profile_of d)) first)
  /\ (forall s1 s2 s3 s4 : string, after_append [s1; s2; s3] s4 = [s2; s3; s4])
  /\ (forall (current : list string) (s : string),
        (length current < 3)%nat -> after_append current s = current ++ [s])
  /\ (forall (updates : list (Data * string)) (w : World) indicator profile,
        knowledge_base (w_session w) = [] ->
        (length (kb_snippets (knowledge_base (w_session (run_updates updates w)))
                   indicator profile) <= 3)%nat).
Proof.
  assert (Hcap : forall (updates : list (Data * string)) (w : World),
            kb_bounded (knowledge_base (w_session w)) ->
            kb_bounded (knowledge_base (w_session (run_updates updates w)))).
  { intros updates. induction updates as [|[data analysis] updates IH]; intros w Hkb.
    - exact Hkb.
    - cbn [run_updates]. apply IH, update_knowledge_base_bounded, Hkb. }
  conjs.
  - intros updates w Hkb.
    split; [apply Hcap, Hkb | intros; apply kb_snippets_bounded, Hcap, Hkb].
  - intros d report analysis indicator w Hreport Hin Hcr Hca.
    destruct (relevant_lines_nonempty indicator analysis Hin Hca)
      as (first & rest & Hlines).
    exists first, rest. split; [exact Hlines|].
    unfold _update_knowledge_base. rewrite Hreport.
    unfold bind, str_lower, modify_session, bind, get_session, put_session, ret.
    cbn [snd w_session knowledge_base set_knowledge_base].
    apply (kb_learn_all_snippets _ _ _ _ first rest); assumption.
  - reflexivity.
  - intros current s Hlen. unfold after_append.
    destruct (Nat.leb_spec 3 (length current)); [lia | reflexivity].
  - intros updates w indicator profile Hempty.
    apply kb_snippets_bounded, Hcap. rewrite Hempty. constructor.
Qed.

Lemma knowledge_base_capped_fifo_witness :
  let w3 := run_updates Scenario.three_updates (Scenario.world_with 0) in
  let w4 := snd (_update_knowledge_base Scenario.sample_report
                   Scenario.fourth_analysis w3) in
  let profile := patient_profile_of Scenario.sample_dict in
  kb_snippets (knowledge_base (w_session w3)) "hemoglobin" profile
    = ["Hemoglobin is low."; "Hemoglobin is normal."; "Hemoglobin is high."]
  /\ kb_snippets (knowledge_base (w_session w4)) "hemoglobin" profile
    = ["Hemoglobin is normal."; "Hemoglobin is high."; "Hemoglobin is stable."]
  /\ kb_bounded (knowledge_base (w_session w3)).
Proof.
  destruct knowledge_base_capped_fifo as (Hcap & Hfifo & _).
  cbv zeta. conjs.
  - vm_compute. reflexivity.
  - unfold Scenario.sample_report.
    destruct (Hfifo Scenario.sample_dict
                "Hemoglobin: 14.2 g/dL, Glucose: 110 mg/dL, HDL: 50 mg/dL"
                Scenario.fourth_analysis "hemoglobin"
                (run_updates Scenario.three_updates (Scenario.world_with 0)))
      as (first & rest & Hlines & Hsnippets).
    + vm_compute. reflexivity.
    + left. reflexivity.
    + vm_compute. reflexivity.
    + vm_compute. reflexivity.
    + vm_compute in Hlines. injection Hlines as <- _.
      rewrite Hsnippets. vm_compute. reflexivity.
  - apply (Hcap Scenario.three_updates (Scenario.world_with 0)). constructor.
Defined.

Lemma knowledge_recall_section_witness :
  fst (_get_knowledge_base_context Scenario.sample_dict Scenario.recall_world)
  = Ok (PyStr.join PyStr.nl
          ["- glucose (similar patient profile): Glucose is slightly elevated.";
           "- glucose (other patient profile): Glucose was high.";
           "- hdl (similar patient profile): HDL is protective."]).
Proof.
  pose proof (knowledge_recall_section Scenario.sample_dict
                "Hemoglobin: 14.2 g/dL, Glucose: 110 mg/dL, HDL: 50 mg/dL"
                Scenario.recall_world eq_refl) as Hrecall.
  cbv zeta in Hrecall. destruct Hrecall as [Hsection _].
  rewrite Hsection. vm_compute. reflexivity.
Defined.

(** C7 as stated fails when several stored indicators occur in the report:
    the bullets of an earlier indicator for other profile keys come before
    the bullets of a later indicator for the request's own key, and the cut
    to 5 bullets can keep the former and drop the latter. *)
Lemma knowledge_recall_order_is_per_indicator :
  precedes (bullet "glucose" "other patient profile" "Glucose was high.")
           (bullet "hdl" "similar patient profile" "HDL is protective.")
           (kb_context_items (knowledge_base (w_session Scenario.mixed_world))
              (PyStr.lower "Hemoglobin: 14.2 g/dL, Glucose: 110 mg/dL, HDL: 50 mg/dL")
              (patient_profile_of Scenario.sample_dict))
  /\ fst (_get_knowledge_base_context Scenario.sample_dict Scenario.mixed_world)
     = Ok (PyStr.join PyStr.nl
             ["- glucose (other patient profile): Glucose was high.";
              "- hdl (similar patient profile): HDL is protective."])
  /\ fst (_get_knowledge_base_context Scenario.sample_dict Scenario.crowded_world)
     = Ok (PyStr.join PyStr.nl
             ["- glucose (other patient profile): Glucose 1";
              "- glucose (other patient profile): Glucose 2";
              "- glucose (other patient profile): Glucose 3";
              "- glucose (other patient profile): Glucose 4";
              "- glucose (other patient profile): Glucose 5"]).
Proof.
  conjs.
  - exists [], [], []. vm_compute. reflexivity.
  - vm_compute. reflexivity.
  - vm_compute. reflexivity.
Qed.

Lemma generate_analysis_at_most_four_calls_witness :
  exists w',
    generate_analysis Scenario.failing_clients Scenario.sample_report "prompt" 0
      (Scenario.world_with 0)
    = (Failure "All models failed after multiple retries", w')
    /\ calls_made (w_trace w') = 4%nat.
Proof.
  destruct (generate_analysis_at_most_four_calls Scenario.failing_clients
              Scenario.sample_report "prompt" (Scenario.world_with 0))
    as (r & w' & evs & Hrun & (_ & _ & Htrace) & _ & _ & Hall & _).
  destruct (Hall Scenario.failing_client eq_refl) as [Hcalls ->].
  { intros k q. exists "Service unavailable". reflexivity. }
  exists w'. split; [exact Hrun|]. rewrite Htrace. exact Hcalls.
Defined.

Lemma update_analytics_records_usage_witness :
  models_used (w_session (snd (_update_analytics (Scenario.frozen_clock 7200000000)
                                 (Success "text" "groq/llama-3.3-70b-versatile")
                                 Scenario.seasoned_world)))
    !! "groq/llama-3.3-70b-versatile" = Some 4.
Proof.
  pose proof (update_analytics_records_usage (Scenario.frozen_clock 7200000000)
                "text" "groq/llama-3.3-70b-versatile" Scenario.seasoned_world)
    as Husage.
  cbv zeta in Husage. destruct Husage as (_ & _ & _ & Hmodel & _).
  rewrite Hmodel. vm_compute. reflexivity.
Defined.

Lemma session_context_bounded_witness :
  (length (session_items Scenario.three_exchanges) <= 2)%nat
  /\ String.length (truncate_message Scenario.long_message) = 200%nat.
Proof.
  destruct (session_context_bounded Scenario.three_exchanges)
    as (Hlen & _ & Htrunc & _).
  split; [exact Hlen|].
  destruct (Htrunc Scenario.long_message) as (_ & _ & Hlong & _).
  rewrite Hlong; vm_compute; [reflexivity | lia].
Defined.

(** ** The end-to-end scenarios of the specification *)

(** A session at 14 of 15, two hours into its window, may analyse; the
    successful analysis brings the count to 15 and restarts the window, and
    the next check is refused with the time left in the new window. *)
Example scenario_limit_reached :
  let w1 := snd (analyze_report Scenario.ticking_clock Scenario.answering_clients
                   Scenario.form_request "prompt" false None (Scenario.world_with 14)) in
  analysis_count (w_session w1) = 15
  /\ last_analysis (w_session w1) = 7260000000
  /\ fst (check_rate_limit Scenario.ticking_clock w1)
     = Ok (false, Some "Daily limit reached. Reset in 23h 59m").
Proof. vm_compute. conjs; reflexivity. Qed.

(** One successful analysis of a report mentioning hemoglobin stores the
    first line of the analysis that mentions it, under the profile key made
    of the age and the gender. *)
Example scenario_first_snippet :
  knowledge_base
    (w_session (snd (analyze_report Scenario.ticking_clock Scenario.answering_clients
                       Scenario.form_request "prompt" false None
                       (Scenario.world_with 0))))
  = [("hemoglobin", [("30-Female", ["Hemoglobin is within normal range."])])].
Proof. vm_compute. reflexivity. Qed.

(** When all four tiers raise, the four attempts are made on the four
    models in order and the exhaustion failure is returned. *)
Example scenario_all_tiers_fail :
  let out := generate_analysis Scenario.failing_clients Scenario.form_request
               "prompt" 0 (Scenario.world_with 0) in
  fst out = Failure "All models failed after multiple retries"
  /\ List.map req_model
       (flat_map (fun e => match e with EvRequest r => [r] | _ => [] end)
                 (w_trace (snd out)))
     = ["llama-3.3-70b-versatile"; "llama-3-8b-8192"; "mixtral-8x7b-32768";
        "gemma-7b-it"].
Proof. vm_compute. conjs; reflexivity. Qed.

(** With three exchanges in the history, the session recall holds the
    latest two, the older of the two first once reversed. *)
Example scenario_latest_two_exchanges :
  rev (session_items
         [mkMessage "user" "q1"; mkMessage "assistant" "a1";
          mkMessage "user" "q2"; mkMessage "assistant" "a2";
          mkMessage "user" "q3"; mkMessage "assistant" "a3"])
  = [render_exchange "q2" "a2"; render_exchange "q3" "a3"].
Proof. vm_compute. reflexivity. Qed.

(** * Further properties *)

(** ** The rate limiter: the refusal *)

Lemma refusal_fields (r : Z) :
  0 <= r < 86400000000 ->
  Timedelta.seconds r `div` 3600 = r `div` 3600000000
  /\ (Timedelta.seconds r `mod` 3600) `div` 60 = (r `div` 60000000) `mod` 60.
Proof.
  intros Hr. unfold Timedelta.seconds, Timedelta.usec_per_day, Timedelta.usec_per_second.
  change (86400 * 1000000) with 86400000000.
  rewrite Z.mod_small by lia. split.
  - rewrite Z.div_div by lia. reflexivity.
  - Z.div_mod_to_equations. lia.
Qed.

Lemma seconds_mod_day (r : Z) :
  Timedelta.seconds r = Timedelta.seconds (r `mod` 86400000000).
Proof.
  unfold Timedelta.seconds, Timedelta.usec_per_day, Timedelta.usec_per_second.
  change (86400 * 1000000) with 86400000000.
  rewrite Z.mod_mod by lia. reflexivity.
Qed.

(** X1: a session at its limit that is checked less than 24 hours after
    its last analysis (and after it) is refused, with the whole hours and
    minutes that remain until 24 hours have passed in the message; the
    session state is unchanged. *)
Theorem check_rate_limit_refusal_time (clock : nat -> Z) (w : World) :
  0 < clock (w_ticks w) - last_analysis (w_session w) <= Timedelta.of_days 1 ->
  analysis_limit (w_session w) <= analysis_count (w_session w) ->
  let remaining :=
    Timedelta.of_days 1 - (clock (w_ticks w) - last_analysis (w_session w)) in
  let hours := remaining `div` 3600000000 in
  let minutes := (remaining `div` 60000000) `mod` 60 in
  check_rate_limit clock w =
    (Ok (false, Some ("Daily limit reached. Reset in " +:+ pretty hours +:+ "h "
                        +:+ pretty minutes +:+ "m")),
     mkWorld (w_session w) (S (w_ticks w)) (w_trace w))
  /\ 0 <= hours < 24 /\ 0 <= minutes < 60
  /\ hours * 3600000000 + minutes * 60000000 <= remaining
       < hours * 3600000000 + (minutes + 1) * 60000000.
Proof.
  intros Helapsed Hcount. cbv zeta.
  set (elapsed := clock (w_ticks w) - last_analysis (w_session w)) in *.
  assert (Hday : Timedelta.of_days 1 = 86400000000) by reflexivity.
  rewrite Hday in *.
  assert (Hrem : 0 <= 86400000000 - elapsed < 86400000000) by lia.
  split.
  - rewrite check_rate_limit_unfold. cbv zeta. fold elapsed. rewrite Hday.
    destruct (Z.ltb_spec (Timedelta.days (86400000000 - elapsed)) 0) as [Hneg|_].
    { apply (proj1 (days_negative _)) in Hneg. lia. }
    destruct (Z.leb_spec (analysis_limit (w_session w))
                         (analysis_count (w_session w))) as [_|Hlt]; [|lia].
    destruct (refusal_fields _ Hrem) as [-> ->]. reflexivity.
  - Z.div_mod_to_equations. lia.
Qed.

Lemma check_rate_limit_refusal_time_witness :
  check_rate_limit (Scenario.frozen_clock 7200000001) (Scenario.world_with 15)
  = (Ok (false, Some "Daily limit reached. Reset in 21h 59m"),
     mkWorld (Scenario.session_with 15) 1 []).
Proof.
  apply (check_rate_limit_refusal_time (Scenario.frozen_clock 7200000001)
           (Scenario.world_with 15)); vm_compute; intuition discriminate.
Defined.

(** X2: when the clock reads the time of the last analysis or an earlier
    time, less than 24 hours back, a session at its limit is refused and the
    message shows the hours and minutes by which the clock is behind, not the
    24 hours and more that remain: the [seconds] field of the difference
    drops its whole day. *)
Theorem check_rate_limit_refusal_clock_behind (clock : nat -> Z) (w : World) :
  - Timedelta.of_days 1 < clock (w_ticks w) - last_analysis (w_session w) <= 0 ->
  analysis_limit (w_session w) <= analysis_count (w_session w) ->
  let behind := last_analysis (w_session w) - clock (w_ticks w) in
  check_rate_limit clock w =
    (Ok (false, Some (limit_message (behind `div` 3600000000)
                                    ((behind `div` 60000000) `mod` 60))),
     mkWorld (w_session w) (S (w_ticks w)) (w_trace w)).
Proof.
  intros Helapsed Hcount. cbv zeta.
  assert (Hday : Timedelta.of_days 1 = 86400000000) by reflexivity.
  rewrite Hday in *.
  rewrite check_rate_limit_unfold. cbv zeta. rewrite Hday.
  set (elapsed := clock (w_ticks w) - last_analysis (w_session w)) in *.
  replace (last_analysis (w_session w) - clock (w_ticks w)) with (- elapsed)
    by (subst elapsed; lia).
  destruct (Z.ltb_spec (Timedelta.days (86400000000 - elapsed)) 0) as [Hneg|_].
  { apply (proj1 (days_negative _)) in Hneg. lia. }
  destruct (Z.leb_spec (analysis_limit (w_session w))
                       (analysis_count (w_session w))) as [_|Hlt]; [|lia].
  rewrite (seconds_mod_day (86400000000 - elapsed)).
  replace ((86400000000 - elapsed) `mod` 86400000000) with (- elapsed).
  - destruct (refusal_fields (- elapsed) ltac:(lia)) as [-> ->]. reflexivity.
  - apply (Z.mod_unique_pos _ _ 1); lia.
Qed.

Lemma check_rate_limit_refusal_clock_behind_witness :
  check_rate_limit (Scenario.frozen_clock 0) (Scenario.world_with 15)
  = (Ok (false, Some "Daily limit reached. Reset in 0h 0m"),
     mkWorld (Scenario.session_with 15) 1 []).
Proof.
  apply (check_rate_limit_refusal_clock_behind (Scenario.frozen_clock 0)
           (Scenario.world_with 15)); vm_compute; intuition discriminate.
Defined.

(** X3: [check_rate_limit] refuses exactly when the count has reached the
    limit and no more than 24 hours have elapsed; it never raises, it answers
    [(True, None)] or [(False, message)], and it never changes the limit, the
    per-model counters, the knowledge base or the trace; the count is kept or
    set to 0. *)
Theorem check_rate_limit_decision (clock : nat -> Z) (w : World) :
  let s := w_session w in
  let out := check_rate_limit clock w in
  let s' := w_session (snd out) in
  ((exists msg, fst out = Ok (false, Some msg))
   <-> (clock (w_ticks w) - last_analysis s <= Timedelta.of_days 1
        /\ analysis_limit s <= analysis_count s))
  /\ (fst out = Ok (true, None) \/ exists msg, fst out = Ok (false, Some msg))
  /\ analysis_limit s' = analysis_limit s
  /\ models_used s' = models_used s
  /\ knowledge_base s' = knowledge_base s
  /\ w_trace (snd out) = w_trace w
  /\ (analysis_count s' = analysis_count s \/ analysis_count s' = 0).
Proof.
  cbv zeta. rewrite check_rate_limit_unfold. cbv zeta.
  destruct (Z.ltb_spec (Timedelta.days (Timedelta.of_days 1 -
              (clock (w_ticks w) - last_analysis (w_session w)))) 0) as [Hneg|Hpos].
  - apply (proj1 (days_negative _)) in Hneg. cbn [fst snd w_session w_trace
      analysis_limit models_used knowledge_base analysis_count].
    conjs; auto.
    split; [intros [msg Hmsg]; discriminate | lia].
  - assert (Hin : clock (w_ticks w) - last_analysis (w_session w)
                  <= Timedelta.of_days 1).
    { destruct (Z_le_gt_dec (clock (w_ticks w) - last_analysis (w_session w))
                  (Timedelta.of_days 1)) as [|Hgt]; [assumption|].
      exfalso. apply Z.le_ngt in Hpos. apply Hpos, days_negative. lia. }
    destruct (Z.leb_spec (analysis_limit (w_session w))
                         (analysis_count (w_session w))) as [Hfull|Hroom];
      cbn [fst snd w_session w_trace]; conjs; auto.
    + split; [auto | intros _; eexists; reflexivity].
    + right. eexists. reflexivity.
    + split; [intros [msg Hmsg]; discriminate | lia].
Qed.

(** ** The model manager: the chain as a loop *)

Lemma record_nil w : record [] w = w.
Proof. unfold record. rewrite app_nil_r. destruct w; reflexivity. Qed.

Lemma record_record evs1 evs2 w : record evs2 (record evs1 w) = record (evs1 ++ evs2) w.
Proof. unfold record. cbn. rewrite app_assoc. reflexivity. Qed.

Lemma new_events_record evs w : new_events w (record evs w) = evs.
Proof.
  unfold new_events, record. cbn [w_trace].
  rewrite skipn_app, Nat.sub_diag, skipn_all. reflexivity.
Qed.

Lemma tiers_from_S retry_count n :
  tiers_from retry_count (S n) = tier_of retry_count :: tiers_from (retry_count + 1) n.
Proof.
  unfold tiers_from. cbn [seq List.map]. rewrite Z.add_0_r. f_equal.
  rewrite <- seq_shift, List.map_map. apply List.map_ext.
  intros k. f_equal. lia.
Qed.

Lemma calls_made_record_attempt req msg model w :
  calls_made (w_trace (after_failure model msg (send req w)))
  = S (calls_made (w_trace w)).
Proof.
  destruct (after_failure_extends model msg (send req w)) as (_ & _ & ->).
  cbn [send w_trace]. rewrite !calls_made_app, failure_events_no_call.
  cbn. lia.
Qed.

(** The recursion on the retry count does what the loop over the tiers of
    the remaining retry counts does. *)
Lemma generate_analysis_is_ladder_run clients data system_prompt :
  forall (n : nat) (retry_count : Z) (w : World),
    Z.of_nat n = 4 - retry_count ->
    generate_analysis clients data system_prompt retry_count w =
      let out := ladder_run (clients !! "groq") system_prompt data
                   (tiers_from retry_count n) (calls_made (w_trace w)) in
      (fst out, record (snd out) w).
Proof.
  induction n as [|n IH]; intros retry_count w Hn; cbv zeta.
  - rewrite generate_analysis_exhausted by lia. cbn [tiers_from seq List.map ladder_run fst snd].
    rewrite record_nil. reflexivity.
  - rewrite generate_analysis_step by lia. cbv zeta.
    rewrite tiers_from_S. cbn [ladder_run].
    destruct (clients !! "groq" : option Client) as [client|] eqn:Hclient.
    + unfold tier_request.
      set (cfg := MODEL_CONFIG (tier_of retry_count)).
      set (req := mkRequest _ _ _ _ _).
      set (w1 := log LInfo _ w).
      assert (Hcalls : calls_made (w_trace w1) = calls_made (w_trace w)).
      { subst w1. cbn [log w_trace]. rewrite calls_made_app. cbn. lia. }
      rewrite Hcalls.
      destruct (client (calls_made (w_trace w)) req) as [content|msg].
      * cbn [fst snd]. f_equal. subst w1. unfold record, send, log.
        cbn [w_session w_ticks w_trace]. rewrite <- app_assoc. reflexivity.
      * rewrite (IH (retry_count + 1)) by lia. cbv zeta.
        rewrite calls_made_record_attempt, Hcalls.
        destruct (ladder_run _ _ _ _ _) as [r evs]. cbn [fst snd].
        f_equal.
        destruct (after_failure_extends (model cfg) msg (send req w1))
          as (Hs & Ht & Htr).
        unfold record. rewrite Hs, Ht, Htr. subst w1. cbn [send log w_session w_ticks w_trace].
        rewrite <- !app_assoc. reflexivity.
    + rewrite (IH (retry_count + 1)) by lia. cbv zeta.
      cbn [log w_trace]. rewrite calls_made_app.
      change (calls_made [EvLog LError "No client available for provider: groq"])
        with 0%nat. rewrite Nat.add_0_r.
      destruct (ladder_run _ _ _ _ _) as [r evs]. cbn [fst snd].
      unfold record, log. cbn [w_session w_ticks w_trace].
      rewrite <- app_assoc. reflexivity.
Qed.

Lemma tiers_from_0_4 : tiers_from 0 4 = ladder.
Proof. reflexivity. Qed.

Lemma requests_of_app a b : requests_of (a ++ b) = requests_of a ++ requests_of b.
Proof. unfold requests_of. apply flat_map_app. Qed.

Lemma requests_of_failure model msg : requests_of (failure_events model msg) = [].
Proof. unfold failure_events. cbv zeta. destruct (_ || _); reflexivity. Qed.



Lemma ladder_run_no_client system_prompt data tiers made :
  ladder_run None system_prompt data tiers made
  = (Failure "All models failed after multiple retries",
     repeat skip_event (length tiers)).
Proof.
  induction tiers as [|tier rest IH]; [reflexivity|].
  cbn [ladder_run]. rewrite IH. reflexivity.
Qed.

Lemma skips_have_no_request n :
  requests_of (repeat skip_event n) = [] /\ calls_made (repeat skip_event n) = 0%nat
  /\ slept (repeat skip_event n) = 0.
Proof. induction n as [|n IH]; [auto | exact IH]. Qed.

Lemma ladder_run_requests client system_prompt data :
  forall tiers made,
    requests_of (snd (ladder_run client system_prompt data tiers made))
    = List.map (tier_request system_prompt data)
        (firstn (calls_made (snd (ladder_run client system_prompt data tiers made)))
                tiers).
Proof.
  destruct client as [c|].
  - induction tiers as [|tier rest IH]; intros made; [reflexivity|].
    cbn [ladder_run]. destruct (c made _) as [content|msg]; [reflexivity|].
    specialize (IH (S made)).
    destruct (ladder_run (Some c) system_prompt data rest (S made)) as [r evs].
    cbn [fst snd] in *.
    rewrite !requests_of_app, requests_of_failure, !calls_made_app,
      failure_events_no_call, IH.
    reflexivity.
  - intros tiers made. rewrite ladder_run_no_client. cbn [snd].
    destruct (skips_have_no_request (length tiers)) as (-> & -> & _).
    reflexivity.
Qed.

Lemma ladder_run_calls_bound client system_prompt data :
  forall tiers made,
    (calls_made (snd (ladder_run client system_prompt data tiers made))
     <= length tiers)%nat.
Proof.
  destruct client as [c|].
  - induction tiers as [|tier rest IH]; intros made; [cbn; lia|].
    cbn [ladder_run]. destruct (c made _) as [content|msg]; [cbn; lia|].
    specialize (IH (S made)).
    destruct (ladder_run (Some c) system_prompt data rest (S made)) as [r evs].
    cbn [fst snd length] in *.
    rewrite !calls_made_app, failure_events_no_call. cbn. lia.
  - intros tiers made. rewrite ladder_run_no_client. cbn [snd].
    destruct (skips_have_no_request (length tiers)) as (_ & -> & _). lia.
Qed.

Lemma ladder_run_first_success c system_prompt data :
  forall k tiers made tier content,
    nth_error tiers k = Some tier ->
    (forall j t, (j < k)%nat -> nth_error tiers j = Some t ->
       exists msg, c (made + j)%nat (tier_request system_prompt data t) = Failed msg) ->
    c (made + k)%nat (tier_request system_prompt data tier) = Completed content ->
    fst (ladder_run (Some c) system_prompt data tiers made)
      = Success content ("groq/" +:+ model (MODEL_CONFIG tier))
    /\ calls_made (snd (ladder_run (Some c) system_prompt data tiers made)) = S k.
Proof.
  induction k as [|k IH]; intros tiers made tier content Hnth Hfail Hok;
    destruct tiers as [|t rest]; try discriminate; cbn [nth_error] in Hnth.
  - injection Hnth as ->. cbn [ladder_run]. rewrite Nat.add_0_r in Hok.
    rewrite Hok. split; reflexivity.
  - cbn [ladder_run].
    destruct (Hfail 0%nat t ltac:(lia) eq_refl) as [msg Hmsg].
    rewrite Nat.add_0_r in Hmsg. rewrite Hmsg.
    destruct (IH rest (S made) tier content Hnth) as [Hres Hcalls].
    + intros j t' Hj Hnj. replace (S made + j)%nat with (made + S j)%nat by lia.
      apply Hfail; [lia | exact Hnj].
    + replace (S made + k)%nat with (made + S k)%nat by lia. exact Hok.
    + destruct (ladder_run (Some c) system_prompt data rest (S made)) as [r evs].
      cbn [fst snd] in *. split; [exact Hres|].
      rewrite !calls_made_app, failure_events_no_call, Hcalls. reflexivity.
Qed.


(** X4: started at retry count 0, the recursive [generate_analysis] does
    exactly what a loop over the tiers primary, secondary, tertiary, fallback
    does: a tier without client is skipped with an error line; otherwise one
    request is sent, a completion ends the loop with that content and
    ["groq/{model}"], and a failure is logged (with a pause for rate-limit
    and quota errors) before the next tier; after the last tier the
    exhaustion failure is returned.  Only the trace changes. *)
Theorem generate_analysis_as_loop
    (clients : gmap string Client) (data : Data) (system_prompt : string) (w : World) :
  generate_analysis clients data system_prompt 0 w =
    (fst (ladder_run (clients !! "groq") system_prompt data ladder
            (calls_made (w_trace w))),
     record (snd (ladder_run (clients !! "groq") system_prompt data ladder
                    (calls_made (w_trace w)))) w).
Proof. apply (generate_analysis_is_ladder_run clients data system_prompt 4 0 w eq_refl). Qed.

(** X5: the first tier whose call completes decides the result: when the
    calls to the tiers before the [k]-th raise and the call to the [k]-th
    tier completes with [content], the result is the success with that
    content and ["groq/"] followed by the model of that tier, after exactly
    [k + 1] provider calls. *)
Theorem generate_analysis_first_success
    (clients : gmap string Client) (c : Client) (data : Data)
    (system_prompt : string) (w : World) (k : nat) (tier : ModelTier)
    (content : string) :
  clients !! "groq" = Some c ->
  nth_error ladder k = Some tier ->
  (forall j t, (j < k)%nat -> nth_error ladder j = Some t ->
     exists msg, c (calls_made (w_trace w) + j)%nat
                   (tier_request system_prompt data t) = Failed msg) ->
  c (calls_made (w_trace w) + k)%nat (tier_request system_prompt data tier)
    = Completed content ->
  fst (generate_analysis clients data system_prompt 0 w)
    = Success content ("groq/" +:+ model (MODEL_CONFIG tier))
  /\ calls_made (new_events w (snd (generate_analysis clients data system_prompt 0 w)))
     = S k.
Proof.
  intros Hclient Hnth Hfail Hok.
  rewrite (generate_analysis_is_ladder_run clients data system_prompt 4 0 w eq_refl).
  cbv zeta. cbn [fst snd]. rewrite new_events_record, Hclient.
  change (tiers_from 0 4) with ladder.
  apply ladder_run_first_success; assumption.
Qed.

Lemma generate_analysis_first_success_witness :
  fst (generate_analysis Cases.second_try_clients Scenario.sample_report "prompt" 0
         (Scenario.world_with 0))
  = Success "Second answer" "groq/llama-3-8b-8192".
Proof.
  apply (generate_analysis_first_success Cases.second_try_clients
           Cases.second_try_client Scenario.sample_report "prompt"
           (Scenario.world_with 0) 1 SECONDARY "Second answer").
  - reflexivity.
  - reflexivity.
  - intros j t Hj Hnth. destruct j as [|j]; [|lia].
    exists "Rate limit exceeded". reflexivity.
  - reflexivity.
Defined.

(** X6: the requests of a run go to the tiers in order, one per tier, from
    the primary tier on: the models requested are the first models of the
    list llama-3.3-70b-versatile, llama-3-8b-8192, mixtral-8x7b-32768,
    gemma-7b-it, and every request carries the given system prompt and data,
    a token limit of 2000 and a temperature of 0.7. *)
Theorem generate_analysis_requests_in_order
    (clients : gmap string Client) (data : Data) (system_prompt : string) (w : World) :
  let evs := new_events w (snd (generate_analysis clients data system_prompt 0 w)) in
  requests_of evs
    = List.map (tier_request system_prompt data) (firstn (calls_made evs) ladder)
  /\ List.map req_model (requests_of evs)
     = firstn (calls_made evs)
         ["llama-3.3-70b-versatile"; "llama-3-8b-8192"; "mixtral-8x7b-32768";
          "gemma-7b-it"]
  /\ Forall (fun r => req_system r = system_prompt /\ req_user r = data
                      /\ req_max_tokens r = 2000 /\ req_temperature r = 7 # 10)
            (requests_of evs).
Proof.
  cbv zeta.
  rewrite (generate_analysis_is_ladder_run clients data system_prompt 4 0 w eq_refl).
  cbv zeta. cbn [fst snd]. rewrite new_events_record.
  change (tiers_from 0 4) with ladder.
  pose proof (ladder_run_requests (clients !! "groq") system_prompt data ladder
                (calls_made (w_trace w))) as Hreq.
  set (evs := snd (ladder_run _ _ _ _ _)) in *.
  rewrite Hreq. conjs.
  - reflexivity.
  - rewrite List.map_map, <- firstn_map. reflexivity.
  - apply List.Forall_forall. intros r Hr. apply in_map_iff in Hr.
    destruct Hr as (t & <- & _). destruct t; cbn; auto.
Qed.



(** X8: the cap of 4 calls belongs to the start at retry count 0.  Started
    at any retry count up to 4, a run makes at most 4 minus that count
    calls, and exactly that many when every call raises: 5 calls from -1.
    Above 3 it returns the exhaustion failure at once with no event, and a
    negative retry count selects the fallback tier. *)
Theorem generate_analysis_other_retry_counts
    (clients : gmap string Client) (data : Data) (system_prompt : string)
    (retry_count : Z) (w : World) :
  let out := generate_analysis clients data system_prompt retry_count w in
  (3 < retry_count -> out = (Failure "All models failed after multiple retries", w))
  /\ (retry_count <= 4 ->
      (Z.of_nat (calls_made (new_events w (snd out))) <= 4 - retry_count)
      /\ requests_of (new_events w (snd out))
         = List.map (tier_request system_prompt data)
             (firstn (calls_made (new_events w (snd out)))
                     (tiers_from retry_count (Z.to_nat (4 - retry_count))))
      /\ (forall c, clients !! "groq" = Some c -> always_fails c ->
            Z.of_nat (calls_made (new_events w (snd out))) = 4 - retry_count))
  /\ (retry_count < 0 -> tier_of retry_count = FALLBACK).
Proof.
  cbv zeta. conjs.
  - intros Hhigh. apply generate_analysis_exhausted, Hhigh.
  - intros Hlow.
    assert (Hn : Z.of_nat (Z.to_nat (4 - retry_count)) = 4 - retry_count) by lia.
    destruct (generate_analysis_run clients data system_prompt _ retry_count w Hn)
      as (evs' & (_ & _ & Htrace) & _ & _ & _ & _ & _ & Hall).
    rewrite (generate_analysis_is_ladder_run clients data system_prompt _
               retry_count w Hn) in *.
    cbv zeta in *. cbn [fst snd] in *. rewrite new_events_record.
    pose proof (ladder_run_calls_bound (clients !! "groq") system_prompt data
                  (tiers_from retry_count (Z.to_nat (4 - retry_count)))
                  (calls_made (w_trace w))) as Hcalls.
    unfold tiers_from in Hcalls at 2. rewrite length_map, length_seq in Hcalls.
    conjs.
    + lia.
    + apply ladder_run_requests.
    + intros c Hc Hfails. destruct (Hall c Hc Hfails) as [_ Hexact].
      unfold record in Htrace. cbn [w_trace] in Htrace.
      apply app_inv_head in Htrace. rewrite Htrace. lia.
  - intros Hneg. unfold tier_of.
    destruct (Z.eqb_spec retry_count 0); [lia|].
    destruct (Z.eqb_spec retry_count 1); [lia|].
    destruct (Z.eqb_spec retry_count 2); [lia | reflexivity].
Qed.

Lemma generate_analysis_other_retry_counts_witness :
  calls_made (new_events (Scenario.world_with 0)
                (snd (generate_analysis Scenario.failing_clients Scenario.sample_report
                        "prompt" (-1) (Scenario.world_with 0)))) = 5%nat.
Proof.
  destruct (generate_analysis_other_retry_counts Scenario.failing_clients
              Scenario.sample_report "prompt" (-1) (Scenario.world_with 0))
    as (_ & Hlow & _).
  destruct (Hlow ltac:(lia)) as (_ & _ & Hall).
  specialize (Hall Scenario.failing_client eq_refl).
  apply Nat2Z.inj. rewrite Hall; [reflexivity|].
  intros k q. exists "Service unavailable". reflexivity.
Defined.

(** ** Pre-processing *)

Lemma preprocess_lookup (d : gmap string PyVal) (k : string) :
  match _preprocess_data (DDict d) with
  | DDict d' =>
      d' !! k = if bool_decide (k ∈ ["patient_name"; "age"; "gender"; "report"])
                then Some (dict_get d k (PStr "")) else None
  | DOther => False
  end.
Proof.
  cbn [_preprocess_data].
  destruct (decide (k = "report")) as [->|Hr]; [rewrite lookup_insert_eq; reflexivity|].
  rewrite lookup_insert_ne by congruence.
  destruct (decide (k = "gender")) as [->|Hg]; [rewrite lookup_insert_eq; reflexivity|].
  rewrite lookup_insert_ne by congruence.
  destruct (decide (k = "age")) as [->|Ha]; [rewrite lookup_insert_eq; reflexivity|].
  rewrite lookup_insert_ne by congruence.
  destruct (decide (k = "patient_name")) as [->|Hp];
    [rewrite lookup_insert_eq; reflexivity|].
  rewrite lookup_insert_ne by congruence. rewrite lookup_empty.
  rewrite bool_decide_eq_false_2; [reflexivity|].
  rewrite !elem_of_cons, elem_of_nil. intuition congruence.
Qed.

(** X9: [_preprocess_data] keeps of a dictionary exactly the four fields
    patient_name, age, gender and report, each with its value or with the
    empty string when it was missing, and drops every other key; applying it
    twice changes nothing more; anything that is not a dictionary is returned
    as it is. *)
Theorem preprocess_data_fields (d : gmap string PyVal) :
  (exists d',
     _preprocess_data (DDict d) = DDict d'
     /\ dom d' = ({["patient_name"; "age"; "gender"; "report"]} : gset string)
     /\ (forall k, k ∈ ["patient_name"; "age"; "gender"; "report"] ->
           d' !! k = Some (default (PStr "") (d !! k)))
     /\ (forall k, k ∉ ["patient_name"; "age"; "gender"; "report"] -> d' !! k = None))
  /\ _preprocess_data (_preprocess_data (DDict d)) = _preprocess_data (DDict d)
  /\ _preprocess_data DOther = DOther.
Proof.
  conjs; [| |reflexivity].
  - eexists. split; [reflexivity|]. conjs.
    + apply set_eq. intros k. rewrite elem_of_dom.
      pose proof (preprocess_lookup d k) as Hl. cbn [_preprocess_data] in Hl.
      rewrite Hl. case_bool_decide as Hk.
      * split; [intros _ | intros _; eexists; reflexivity].
        rewrite !elem_of_cons, elem_of_nil in Hk.
        rewrite !elem_of_union, !elem_of_singleton. tauto.
      * split; [intros [v Hv]; discriminate | intros Hin; exfalso; apply Hk].
        rewrite !elem_of_union, !elem_of_singleton in Hin.
        rewrite !elem_of_cons, elem_of_nil. tauto.
    + intros k Hk. pose proof (preprocess_lookup d k) as Hl. cbn [_preprocess_data] in Hl.
      rewrite Hl, bool_decide_eq_true_2 by exact Hk. reflexivity.
    + intros k Hk. pose proof (preprocess_lookup d k) as Hl. cbn [_preprocess_data] in Hl.
      rewrite Hl, bool_decide_eq_false_2 by exact Hk. reflexivity.
  - pose proof (preprocess_lookup d) as Hfirst.
    destruct (_preprocess_data (DDict d)) as [d'|] eqn:Hpre; [|discriminate].
    pose proof (preprocess_lookup d') as Hsecond.
    destruct (_preprocess_data (DDict d')) as [d''|] eqn:Hpre'; [|discriminate].
    f_equal. apply map_eq. intros k. rewrite Hsecond, Hfirst.
    case_bool_decide as Hk; [|reflexivity].
    unfold dict_get at 1. rewrite Hfirst, bool_decide_eq_true_2 by exact Hk.
    reflexivity.
Qed.

(** X10: the profile key of pre-processed data never uses the word
    ["unknown"]: a missing age or gender was replaced by the empty string, so
    a dictionary with neither is filed under ["-"] by [analyze_report], while
    [_update_knowledge_base] on the same dictionary as it came would use
    ["unknown-unknown"]. *)
Theorem preprocessed_profile_key (d d' : gmap string PyVal) :
  _preprocess_data (DDict d) = DDict d' ->
  patient_profile_of d'
    = py_format (default (PStr "") (d !! "age")) +:+ "-"
        +:+ py_format (default (PStr "") (d !! "gender"))
  /\ (d !! "age" = None -> d !! "gender" = None ->
      patient_profile_of d' = "-" /\ patient_profile_of d = "unknown-unknown").
Proof.
  intros Hpre. cbn [_preprocess_data] in Hpre. injection Hpre as <-.
  assert (Hprofile : patient_profile_of
            (<["report" := dict_get d "report" (PStr "")]>
             (<["gender" := dict_get d "gender" (PStr "")]>
              (<["age" := dict_get d "age" (PStr "")]>
               (<["patient_name" := dict_get d "patient_name" (PStr "")]> ∅))))
          = py_format (default (PStr "") (d !! "age")) +:+ "-"
              +:+ py_format (default (PStr "") (d !! "gender"))).
  { unfold patient_profile_of, dict_get.
    rewrite (lookup_insert_ne _ "report" "age") by discriminate.
    rewrite (lookup_insert_ne _ "gender" "age") by discriminate.
    rewrite lookup_insert_eq.
    rewrite (lookup_insert_ne _ "report" "gender") by discriminate.
    rewrite lookup_insert_eq. reflexivity. }
  split; [exact Hprofile|].
  intros Hage Hgender. rewrite Hprofile.
  unfold patient_profile_of, dict_get. rewrite Hage, Hgender. split; reflexivity.
Qed.

Lemma preprocessed_profile_key_witness :
  patient_profile_of (<["report" := PStr "Glucose 90"]>
                      (<["gender" := PStr ""]>
                       (<["age" := PStr ""]> (<["patient_name" := PStr ""]> ∅)))) = "-".
Proof.
  refine (proj1 (proj2 (preprocessed_profile_key {["report" := PStr "Glucose 90"]} _ _)
                   _ _)).
  - vm_compute. reflexivity.
  - vm_compute. reflexivity.
  - vm_compute. reflexivity.
Defined.

(** ** The knowledge base: what an update keeps *)

Lemma odict_keys_set {V} (k : string) (v : V) (d : list (string * V)) :
  List.map fst (ODict.set k v d)
  = if ODict.mem k d then List.map fst d else List.map fst d ++ [k].
Proof.
  unfold ODict.mem. induction d as [|[k' v'] d IH]; [reflexivity|].
  cbn [ODict.set ODict.get]. destruct (String.eqb k' k); [reflexivity|].
  cbn [List.map fst]. rewrite IH. destruct (ODict.get k d); reflexivity.
Qed.

Lemma odict_get_key_In {V} (k : string) (v : V) (d : list (string * V)) :
  ODict.get k d = Some v -> In (k, v) d.
Proof.
  induction d as [|[k' v'] d IH]; cbn [ODict.get]; [discriminate|].
  destruct (String.eqb_spec k' k) as [->|Hne].
  - intros [= ->]. left. reflexivity.
  - intros Hget. right. apply IH, Hget.
Qed.

Lemma odict_get_None_keys {V} (k : string) (d : list (string * V)) :
  ODict.get k d = None -> ~ In k (List.map fst d).
Proof.
  induction d as [|[k' v'] d IH]; cbn [ODict.get List.map fst In]; [tauto|].
  destruct (String.eqb_spec k' k) as [->|Hne]; [discriminate|].
  intros Hget [Heq|Hin]; [contradiction | exact (IH Hget Hin)].
Qed.

Lemma odict_set_NoDup {V} (k : string) (v : V) (d : list (string * V)) :
  List.NoDup (List.map fst d) -> List.NoDup (List.map fst (ODict.set k v d)).
Proof.
  intros Hd. rewrite odict_keys_set. unfold ODict.mem.
  destruct (ODict.get k d) eqn:Hget; [exact Hd|].
  apply NoDup_ListNoDup, NoDup_app. apply NoDup_ListNoDup in Hd.
  split; [exact Hd|]. split.
  - intros x Hx Hk. apply list_elem_of_singleton in Hk. subst x.
    apply (odict_get_None_keys _ _ Hget). apply list_elem_of_In, Hx.
  - apply NoDup_singleton.
Qed.

Lemma odict_set_Forall_key {V} (Q : string * V -> Prop) (k : string) (v : V)
    (d : list (string * V)) :
  Forall Q d -> Q (k, v) -> Forall Q (ODict.set k v d).
Proof.
  intros Hd Hv. induction Hd as [|[k' v'] d Hhead Htail IH]; cbn [ODict.set].
  - constructor; [exact Hv | constructor].
  - destruct (String.eqb_spec k' k) as [->|Hne]; constructor; auto.
Qed.

Lemma odict_get_Forall_key {V} (Q : string * V -> Prop) (k : string) (v : V)
    (d : list (string * V)) :
  Forall Q d -> ODict.get k d = Some v -> Q (k, v).
Proof.
  intros Hd Hget. apply odict_get_key_In in Hget.
  rewrite List.Forall_forall in Hd. apply Hd, Hget.
Qed.

Lemma odict_mem_set {V} (k k' : string) (v : V) (d : list (string * V)) :
  ODict.mem k' d = true -> ODict.mem k' (ODict.set k v d) = true.
Proof.
  unfold ODict.mem. destruct (String.eqb_spec k k') as [->|Hne].
  - rewrite odict_get_set_eq. reflexivity.
  - rewrite odict_get_set_ne by exact Hne. auto.
Qed.

Lemma profiles_ok_of_kb kb indicator :
  kb_ok kb -> profiles_ok indicator (default [] (ODict.get indicator kb)).
Proof.
  intros [_ Hkb]. destruct (ODict.get indicator kb) as [profiles|] eqn:Hget; cbn.
  - exact (proj2 (odict_get_Forall_key _ _ _ _ Hkb Hget)).
  - split; constructor.
Qed.

Lemma kb_snippets_ok kb indicator profile :
  kb_ok kb -> Forall (snippet_ok indicator) (kb_snippets kb indicator profile).
Proof.
  intros Hkb. unfold kb_snippets.
  destruct (profiles_ok_of_kb kb indicator Hkb) as [_ Hall].
  destruct (ODict.get profile _) as [snippets|] eqn:Hget; cbn; [|constructor].
  exact (odict_get_Forall_key (fun e => Forall (snippet_ok indicator) (snd e))
           _ _ _ Hall Hget).
Qed.

Lemma kb_store_ok kb indicator profile snippets :
  kb_ok kb -> In indicator key_indicators ->
  Forall (snippet_ok indicator) snippets ->
  kb_ok (kb_store kb indicator profile snippets).
Proof.
  intros Hkb Hin Hsnippets. unfold kb_store.
  destruct (profiles_ok_of_kb kb indicator Hkb) as [Hnodup Hall].
  destruct Hkb as [Hkeys Hentries]. split.
  - apply odict_set_NoDup, Hkeys.
  - apply odict_set_Forall_key; [exact Hentries|]. cbn [fst snd].
    split; [exact Hin|]. split.
    + apply odict_set_NoDup, Hnodup.
    + apply (odict_set_Forall_key
               (fun e => Forall (snippet_ok indicator) (snd e)));
        [exact Hall | exact Hsnippets].
Qed.

Lemma kb_prepare_ok kb indicator profile :
  kb_ok kb -> In indicator key_indicators -> kb_ok (kb_prepare kb indicator profile).
Proof.
  intros Hkb Hin. unfold kb_prepare. cbv zeta.
  assert (Hkb1 : kb_ok (if ODict.mem indicator kb then kb
                        else ODict.set indicator [] kb)).
  { destruct (ODict.mem indicator kb); [exact Hkb|].
    destruct Hkb as [Hkeys Hentries]. split.
    - apply odict_set_NoDup, Hkeys.
    - apply odict_set_Forall_key; [exact Hentries|]. cbn [fst snd].
      split; [exact Hin|]. split; constructor. }
  destruct (ODict.mem profile _); [exact Hkb1|].
  apply kb_store_ok; [exact Hkb1 | exact Hin | constructor].
Qed.

Lemma split_nl_newline_free s :
  Forall (fun line => newline_free line = true) (PyStr.split_nl s).
Proof.
  induction s as [|c s IH]; cbn [PyStr.split_nl].
  - constructor; [reflexivity | constructor].
  - destruct (Ascii.eqb c PyStr.newline) eqn:Hc.
    + constructor; [reflexivity | exact IH].
    + destruct (PyStr.split_nl s) as [|l ls]; [constructor; [|constructor]|].
      * cbn [newline_free]. rewrite Hc. reflexivity.
      * inversion IH as [|x xs Hl Hls]; subst.
        constructor; [|exact Hls]. cbn [newline_free]. rewrite Hc, Hl. reflexivity.
Qed.

Lemma after_append_ok indicator current first :
  Forall (snippet_ok indicator) current -> snippet_ok indicator first ->
  Forall (snippet_ok indicator) (after_append current first).
Proof.
  intros Hcurrent Hfirst. unfold after_append. apply Forall_app. split.
  - destruct (3 <=? length current)%nat; [|exact Hcurrent].
    destruct Hcurrent; [constructor | assumption].
  - constructor; [exact Hfirst | constructor].
Qed.

Lemma kb_learn_ok report_text profile analysis kb indicator :
  kb_ok kb -> In indicator key_indicators ->
  kb_ok (kb_learn report_text profile analysis kb indicator).
Proof.
  intros Hkb Hin. rewrite kb_learn_unfold.
  destruct (_ && _); [|exact Hkb].
  pose proof (kb_prepare_ok kb indicator profile Hkb Hin) as Hprep.
  destruct (List.filter _ _) as [|first rest] eqn:Hfilter; [exact Hprep|].
  apply kb_store_ok; [exact Hprep | exact Hin|].
  apply after_append_ok; [apply kb_snippets_ok, Hprep|].
  assert (Hmem : In first (List.filter
                   (fun l => PyStr.contains indicator (PyStr.lower l))
                   (PyStr.split_nl analysis)))
    by (rewrite Hfilter; left; reflexivity).
  apply filter_In in Hmem. destruct Hmem as [Hline Hmatch].
  split; [exact Hmatch|].
  pose proof (split_nl_newline_free analysis) as Hfree.
  rewrite List.Forall_forall in Hfree. apply Hfree, Hline.
Qed.

Lemma kb_learn_all_ok report_text profile analysis indicators :
  (forall i, In i indicators -> In i key_indicators) ->
  forall kb, kb_ok kb ->
    kb_ok (fold_left (kb_learn report_text profile analysis) indicators kb).
Proof.
  induction indicators as [|indicator rest IH]; intros Hsub kb Hkb; cbn [fold_left].
  - exact Hkb.
  - apply IH; [intros i Hi; apply Hsub; right; exact Hi|].
    apply kb_learn_ok; [exact Hkb | apply Hsub; left; reflexivity].
Qed.

Lemma update_knowledge_base_unfold data analysis w :
  _update_knowledge_base data analysis w =
    match data with
    | DOther => (Ok tt, w)
    | DDict d =>
        match d !! "report" with
        | None => (Ok tt, w)
        | Some (PStr report) =>
            (Ok tt,
             mkWorld (set_knowledge_base
                        (fold_left (kb_learn (PyStr.lower report) (patient_profile_of d)
                                      analysis)
                                   key_indicators (knowledge_base (w_session w)))
                        (w_session w))
                     (w_ticks w) (w_trace w))
        | Some (PInt _) =>
            (Raise (AttributeError "'int' object has no attribute 'lower'"), w)
        | Some PNone =>
            (Raise (AttributeError "'NoneType' object has no attribute 'lower'"), w)
        end
    end.
Proof.
  unfold _update_knowledge_base. destruct data as [d|]; [|reflexivity].
  destruct (d !! "report") as [[report|n|]|]; reflexivity.
Qed.

Lemma update_knowledge_base_ok data analysis w :
  kb_ok (knowledge_base (w_session w)) ->
  kb_ok (knowledge_base (w_session (snd (_update_knowledge_base data analysis w)))).
Proof.
  intros Hkb. rewrite update_knowledge_base_unfold.
  destruct data as [d|]; [|exact Hkb].
  destruct (d !! "report") as [[report|n|]|]; try exact Hkb.
  cbn [snd w_session set_knowledge_base knowledge_base].
  apply kb_learn_all_ok; [auto | exact Hkb].
Qed.

Lemma run_updates_ok updates :
  forall w, kb_ok (knowledge_base (w_session w)) ->
            kb_ok (knowledge_base (w_session (run_updates updates w))).
Proof.
  induction updates as [|[data analysis] updates IH]; intros w Hkb; [exact Hkb|].
  cbn [run_updates]. apply IH, update_knowledge_base_ok, Hkb.
Qed.

Lemma kb_ok_length kb : kb_ok kb -> (length kb <= 10)%nat.
Proof.
  intros [Hkeys Hentries].
  rewrite <- (List.length_map fst kb).
  change 10%nat with (length key_indicators).
  apply List.NoDup_incl_length; [exact Hkeys|].
  intros k Hk. apply in_map_iff in Hk. destruct Hk as ([k' v] & <- & Hin).
  rewrite List.Forall_forall in Hentries. exact (proj1 (Hentries _ Hin)).
Qed.

Lemma kb_ok_mem kb indicator :
  kb_ok kb -> ODict.mem indicator kb = true -> In indicator key_indicators.
Proof.
  intros [_ Hentries]. unfold ODict.mem.
  destruct (ODict.get indicator kb) as [profiles|] eqn:Hget; [|discriminate].
  intros _.
  exact (proj1 (odict_get_Forall_key
                  (fun e => In (fst e) key_indicators /\ profiles_ok (fst e) (snd e))
                  _ _ _ Hentries Hget)).
Qed.

(** X11 ([AnalysisAgent._update_knowledge_base], shape of the store): Whatever
    reports and analyses are fed to the knowledge base, in any number, a
    well-formed store stays well formed: its indicator keys are distinct words
    of the fixed vocabulary, so at most 10 of them; the profile keys under one
    indicator are distinct; and every stored snippet is a single line of an
    analysis that mentions, in any letter case, the indicator it is stored
    under. *)
Theorem knowledge_base_well_formed (updates : list (Data * string)) (w : World) :
  kb_ok (knowledge_base (w_session w)) ->
  let kb' := knowledge_base (w_session (run_updates updates w)) in
  kb_ok kb'
  /\ (length kb' <= 10)%nat
  /\ (forall indicator, ODict.mem indicator kb' = true -> In indicator key_indicators)
  /\ (forall indicator profile snippet,
        In snippet (kb_snippets kb' indicator profile) ->
        PyStr.contains indicator (PyStr.lower snippet) = true
        /\ newline_free snippet = true).
Proof.
  intros Hkb kb'.
  assert (Hok : kb_ok kb') by (apply run_updates_ok, Hkb).
  split; [exact Hok|]. split; [apply kb_ok_length, Hok|].
  split; [intros indicator; apply kb_ok_mem, Hok|].
  intros indicator profile snippet Hin.
  pose proof (kb_snippets_ok kb' indicator profile Hok) as Hall.
  rewrite List.Forall_forall in Hall. exact (Hall _ Hin).
Qed.

Lemma knowledge_base_well_formed_witness :
  let kb' := knowledge_base
               (w_session (run_updates Scenario.three_updates (Scenario.world_with 0))) in
  kb_ok kb' /\ (length kb' <= 10)%nat.
Proof.
  cbv zeta.
  assert (Hempty : kb_ok (knowledge_base (w_session (Scenario.world_with 0))))
    by (split; constructor).
  split.
  - exact (proj1 (knowledge_base_well_formed Scenario.three_updates
                    (Scenario.world_with 0) Hempty)).
  - exact (proj1 (proj2 (knowledge_base_well_formed Scenario.three_updates
                           (Scenario.world_with 0) Hempty))).
Defined.

(** *** What an update leaves alone *)

Lemma kb_snippets_store_other kb indicator profile snippets indicator' profile' :
  indicator' <> indicator \/ profile' <> profile ->
  kb_snippets (kb_store kb indicator profile snippets) indicator' profile'
  = kb_snippets kb indicator' profile'.
Proof.
  intros Hother. unfold kb_snippets, kb_store.
  destruct (String.eqb_spec indicator indicator') as [<-|Hne].
  - destruct Hother as [Hi|Hp]; [contradiction|].
    rewrite odict_get_set_eq. cbn [default from_option id].
    rewrite odict_get_set_ne by (intros Heq; apply Hp; symmetry; exact Heq).
    reflexivity.
  - rewrite odict_get_set_ne by exact Hne. reflexivity.
Qed.

Lemma kb_snippets_prepare kb indicator profile indicator' profile' :
  kb_snippets (kb_prepare kb indicator profile) indicator' profile'
  = kb_snippets kb indicator' profile'.
Proof.
  destruct (String.eqb_spec indicator indicator') as [<-|Hne].
  - destruct (String.eqb_spec profile profile') as [<-|Hnp].
    + apply kb_prepare_snippets.
    + unfold kb_prepare. cbv zeta.
      assert (Hkb1 : kb_snippets (if ODict.mem indicator kb then kb
                                  else ODict.set indicator [] kb) indicator profile'
                     = kb_snippets kb indicator profile').
      { unfold ODict.mem, kb_snippets.
        destruct (ODict.get indicator kb) eqn:Hget; [rewrite Hget; reflexivity|].
        rewrite odict_get_set_eq. reflexivity. }
      destruct (ODict.mem profile _); [exact Hkb1|].
      rewrite kb_snippets_store_other; [exact Hkb1|].
      right. intros Heq. apply Hnp. symmetry. exact Heq.
  - apply kb_snippets_ext, kb_prepare_other, Hne.
Qed.

Lemma kb_learn_untouched report_text profile analysis kb indicator indicator' profile' :
  indicator' <> indicator \/ profile' <> profile
  \/ PyStr.contains indicator report_text
     && PyStr.contains indicator (PyStr.lower analysis) = false ->
  kb_snippets (kb_learn report_text profile analysis kb indicator) indicator' profile'
  = kb_snippets kb indicator' profile'.
Proof.
  intros Hother. rewrite kb_learn_unfold.
  destruct (_ && _) eqn:Hcond; [|reflexivity].
  assert (Hother' : indicator' <> indicator \/ profile' <> profile)
    by (destruct Hother as [H|[H|H]]; [left; exact H | right; exact H | discriminate H]).
  destruct (List.filter _ _) as [|first rest].
  - apply kb_snippets_prepare.
  - rewrite kb_snippets_store_other by exact Hother'. apply kb_snippets_prepare.
Qed.

Lemma kb_learn_all_untouched report_text profile analysis indicator' profile' indicators :
  (In indicator' indicators ->
   profile' <> profile
   \/ PyStr.contains indicator' report_text
      && PyStr.contains indicator' (PyStr.lower analysis) = false) ->
  forall kb,
    kb_snippets (fold_left (kb_learn report_text profile analysis) indicators kb)
                indicator' profile'
    = kb_snippets kb indicator' profile'.
Proof.
  induction indicators as [|indicator rest IH]; intros Hother kb; cbn [fold_left].
  - reflexivity.
  - rewrite IH by (intros Hin; apply Hother; right; exact Hin).
    apply kb_learn_untouched.
    destruct (String.eqb_spec indicator' indicator) as [->|Hne].
    + right. apply Hother. left. reflexivity.
    + left. exact Hne.
Qed.

Lemma odict_keys_set_grow {V} (k : string) (v : V) (d : list (string * V)) :
  exists added, List.map fst (ODict.set k v d) = List.map fst d ++ added.
Proof.
  rewrite odict_keys_set. destruct (ODict.mem k d).
  - exists []. rewrite app_nil_r. reflexivity.
  - exists [k]. reflexivity.
Qed.

Lemma kb_prepare_keys kb indicator profile :
  exists added, List.map fst (kb_prepare kb indicator profile) = List.map fst kb ++ added.
Proof.
  unfold kb_prepare. cbv zeta.
  assert (Hkb1 : exists added,
             List.map fst (if ODict.mem indicator kb then kb
                           else ODict.set indicator [] kb) = List.map fst kb ++ added).
  { destruct (ODict.mem indicator kb).
    - exists []. rewrite app_nil_r. reflexivity.
    - apply odict_keys_set_grow. }
  destruct (ODict.mem profile _); [exact Hkb1|].
  destruct Hkb1 as [added1 Hkb1]. unfold kb_store.
  match goal with
  | |- context [ODict.set indicator ?v ?d] =>
      destruct (odict_keys_set_grow indicator v d) as [added2 Hkb2]
  end.
  exists (added1 ++ added2). rewrite app_assoc.
  exact (eq_trans Hkb2 (f_equal (fun l => l ++ added2) Hkb1)).
Qed.

Lemma kb_learn_keys report_text profile analysis kb indicator :
  exists added,
    List.map fst (kb_learn report_text profile analysis kb indicator)
    = List.map fst kb ++ added.
Proof.
  rewrite kb_learn_unfold.
  destruct (_ && _); [|exists []; rewrite app_nil_r; reflexivity].
  destruct (kb_prepare_keys kb indicator profile) as [added1 Hprep].
  destruct (List.filter _ _) as [|first rest]; [exists added1; exact Hprep|].
  unfold kb_store at 1.
  match goal with
  | |- context [ODict.set indicator ?v ?d] =>
      destruct (odict_keys_set_grow indicator v d) as [added2 Hstore]
  end.
  exists (added1 ++ added2). rewrite app_assoc.
  exact (eq_trans Hstore (f_equal (fun l => l ++ added2) Hprep)).
Qed.

Lemma kb_learn_all_keys report_text profile analysis indicators :
  forall kb, exists added,
    List.map fst (fold_left (kb_learn report_text profile analysis) indicators kb)
    = List.map fst kb ++ added.
Proof.
  induction indicators as [|indicator rest IH]; intros kb; cbn [fold_left].
  - exists []. rewrite app_nil_r. reflexivity.
  - destruct (IH (kb_learn report_text profile analysis kb indicator)) as [added2 H2].
    destruct (kb_learn_keys report_text profile analysis kb indicator) as [added1 H1].
    exists (added1 ++ added2). rewrite app_assoc.
    exact (eq_trans H2 (f_equal (fun l => l ++ added2) H1)).
Qed.

(** X12 ([AnalysisAgent._update_knowledge_base], frame): An update never
    removes or reorders an indicator key: the keys held before remain, in the
    same order, and new ones come after them. The snippets stored under an
    indicator and a profile key change only when the data is a dictionary with
    a string report, the profile key is the one of this patient, and the
    indicator is a word of the vocabulary that occurs in the lower-cased
    report and in the lower-cased analysis. *)
Theorem update_knowledge_base_touches_only (data : Data) (analysis : string) (w : World) :
  let kb := knowledge_base (w_session w) in
  let kb' := knowledge_base (w_session (snd (_update_knowledge_base data analysis w))) in
  (exists added, List.map fst kb' = List.map fst kb ++ added)
  /\ forall indicator profile,
       kb_snippets kb' indicator profile <> kb_snippets kb indicator profile ->
       exists d report,
         data = DDict d /\ d !! "report" = Some (PStr report)
         /\ profile = patient_profile_of d
         /\ In indicator key_indicators
         /\ PyStr.contains indicator (PyStr.lower report) = true
         /\ PyStr.contains indicator (PyStr.lower analysis) = true.
Proof.
  cbv zeta. rewrite update_knowledge_base_unfold.
  assert (Hsame : exists added : list string,
             List.map fst (knowledge_base (w_session w))
             = List.map fst (knowledge_base (w_session w)) ++ added)
    by (exists []; rewrite app_nil_r; reflexivity).
  destruct data as [d|]; [|split; [exact Hsame | intros ? ? H; contradiction H; reflexivity]].
  destruct (d !! "report") as [[report|n|]|] eqn:Hreport;
    try (split; [exact Hsame | intros ? ? H; contradiction H; reflexivity]).
  cbn [snd w_session set_knowledge_base knowledge_base].
  split; [apply kb_learn_all_keys|].
  intros indicator profile Hchanged.
  exists d, report. split; [reflexivity|]. split; [exact Hreport|].
  destruct (string_dec profile (patient_profile_of d)) as [Hp|Hp].
  - destruct (in_dec string_dec indicator key_indicators) as [Hin|Hin].
    + destruct (PyStr.contains indicator (PyStr.lower report)) eqn:Hcr.
      * destruct (PyStr.contains indicator (PyStr.lower analysis)) eqn:Hca.
        -- auto.
        -- contradiction Hchanged. apply kb_learn_all_untouched.
           intros _. right. rewrite Hcr, Hca. reflexivity.
      * contradiction Hchanged. apply kb_learn_all_untouched.
        intros _. right. rewrite Hcr. reflexivity.
    + contradiction Hchanged. apply kb_learn_all_untouched.
      intros Hin'. contradiction.
  - contradiction Hchanged. apply kb_learn_all_untouched.
    intros _. left. exact Hp.
Qed.

Lemma kb_learn_all_idle report_text profile analysis indicators kb :
  (forall indicator, In indicator indicators ->
     PyStr.contains indicator report_text
     && PyStr.contains indicator (PyStr.lower analysis) = false) ->
  fold_left (kb_learn report_text profile analysis) indicators kb = kb.
Proof.
  induction indicators as [|indicator rest IH]; intros Hidle; cbn [fold_left].
  - reflexivity.
  - rewrite kb_learn_unfold, (Hidle indicator) by (left; reflexivity).
    apply IH. intros i Hi. apply Hidle. right. exact Hi.
Qed.

(** X13 ([AnalysisAgent._update_knowledge_base], edge cases): Data that is no
    dictionary, or a dictionary without a report, is ignored. A report that is
    an integer or [None] raises [AttributeError] and leaves the session as it
    was. A string report never raises; when no word of the vocabulary occurs
    both in the report and in the analysis, nothing is stored and no key is
    created. *)
Theorem update_knowledge_base_edge_cases (analysis : string) (w : World) :
  _update_knowledge_base DOther analysis w = (Ok tt, w)
  /\ (forall d, d !! "report" = None ->
        _update_knowledge_base (DDict d) analysis w = (Ok tt, w))
  /\ (forall d n, d !! "report" = Some (PInt n) ->
        _update_knowledge_base (DDict d) analysis w
        = (Raise (AttributeError "'int' object has no attribute 'lower'"), w))
  /\ (forall d, d !! "report" = Some PNone ->
        _update_knowledge_base (DDict d) analysis w
        = (Raise (AttributeError "'NoneType' object has no attribute 'lower'"), w))
  /\ (forall d report, d !! "report" = Some (PStr report) ->
        fst (_update_knowledge_base (DDict d) analysis w) = Ok tt)
  /\ (forall d report, d !! "report" = Some (PStr report) ->
        (forall indicator, In indicator key_indicators ->
           PyStr.contains indicator (PyStr.lower report)
           && PyStr.contains indicator (PyStr.lower analysis) = false) ->
        _update_knowledge_base (DDict d) analysis w = (Ok tt, w)).
Proof.
  split; [reflexivity|].
  split; [intros d H; rewrite update_knowledge_base_unfold, H; reflexivity|].
  split; [intros d n H; rewrite update_knowledge_base_unfold, H; reflexivity|].
  split; [intros d H; rewrite update_knowledge_base_unfold, H; reflexivity|].
  split; [intros d report H; rewrite update_knowledge_base_unfold, H; reflexivity|].
  intros d report H Hidle. rewrite update_knowledge_base_unfold, H.
  rewrite kb_learn_all_idle by exact Hidle.
  destruct w as [[count last limit used kb] ticks trace]. reflexivity.
Qed.

(** *** From an update to the next recall *)




(** ** The recall from the knowledge base: edge cases and layout *)

Lemma get_knowledge_base_context_unfold d w :
  _get_knowledge_base_context d w =
    match knowledge_base (w_session w) with
    | [] => (Ok "", w)
    | kb =>
        match dict_get d "report" (PStr "") with
        | PStr report =>
            match kb_context_items kb (PyStr.lower report) (patient_profile_of d) with
            | [] => (Ok "", w)
            | context_items => (Ok (PyStr.join PyStr.nl context_items), w)
            end
        | PInt _ => (Raise (AttributeError "'int' object has no attribute 'lower'"), w)
        | PNone =>
            (Raise (AttributeError "'NoneType' object has no attribute 'lower'"), w)
        end
    end.
Proof.
  unfold _get_knowledge_base_context, bind, get_session.
  destruct (knowledge_base (w_session w)) as [|entry kb]; [reflexivity|].
  destruct (dict_get d "report" (PStr "")) as [report|n|]; cbn [str_lower];
    try reflexivity.
  unfold ret. destruct (kb_context_items _ _ _); reflexivity.
Qed.

Lemma recall_bullets_none kb report_text profile :
  (forall indicator, ODict.mem indicator kb = true ->
     PyStr.contains indicator report_text = false) ->
  recall_bullets kb report_text profile = [].
Proof.
  intros Hnone. unfold recall_bullets.
  assert (Hall : forall entry, In entry kb ->
                   PyStr.contains (fst entry) report_text = false).
  { clear profile. induction kb as [|[k v] kb IH]; intros entry Hin; [contradiction|].
    destruct Hin as [<-|Hin].
    - apply Hnone. unfold ODict.mem. cbn [ODict.get fst]. rewrite String.eqb_refl.
      reflexivity.
    - apply IH; [|exact Hin]. intros indicator Hmem. apply Hnone.
      unfold ODict.mem in *. cbn [ODict.get].
      destruct (String.eqb k indicator); [reflexivity | exact Hmem]. }
  clear Hnone. induction kb as [|entry kb IH]; [reflexivity|].
  cbn [flat_map]. rewrite (Hall entry) by (left; reflexivity).
  apply IH. intros e He. apply Hall. right. exact He.
Qed.

(** X15 ([AnalysisAgent._get_knowledge_base_context], edge cases): The recall
    never changes the session. With an empty knowledge base it is the empty
    string whatever the data holds, even a report that is no string. With a
    non-empty knowledge base a report that is an integer or [None] raises
    [AttributeError]. For a string report in which no stored indicator occurs
    the recall is the empty string. *)
Theorem knowledge_base_context_edge_cases (d : gmap string PyVal) (w : World) :
  snd (_get_knowledge_base_context d w) = w
  /\ (knowledge_base (w_session w) = [] ->
        _get_knowledge_base_context d w = (Ok "", w))
  /\ (forall n, knowledge_base (w_session w) <> [] ->
        dict_get d "report" (PStr "") = PInt n ->
        _get_knowledge_base_context d w
        = (Raise (AttributeError "'int' object has no attribute 'lower'"), w))
  /\ (knowledge_base (w_session w) <> [] ->
        dict_get d "report" (PStr "") = PNone ->
        _get_knowledge_base_context d w
        = (Raise (AttributeError "'NoneType' object has no attribute 'lower'"), w))
  /\ (forall report,
        dict_get d "report" (PStr "") = PStr report ->
        (forall indicator, ODict.mem indicator (knowledge_base (w_session w)) = true ->
           PyStr.contains indicator (PyStr.lower report) = false) ->
        _get_knowledge_base_context d w = (Ok "", w)).
Proof.
  split; [apply get_knowledge_base_context_pure|].
  rewrite get_knowledge_base_context_unfold.
  split; [intros ->; reflexivity|].
  split; [|split].
  - intros n Hkb Hreport. destruct (knowledge_base (w_session w)); [contradiction|].
    rewrite Hreport. reflexivity.
  - intros Hkb Hreport. destruct (knowledge_base (w_session w)); [contradiction|].
    rewrite Hreport. reflexivity.
  - intros report Hreport Hnone. rewrite Hreport.
    destruct (knowledge_base (w_session w)) as [|entry kb]; [reflexivity|].
    rewrite kb_context_items_spec, recall_bullets_none by exact Hnone.
    reflexivity.
Qed.

(** *** One bullet, one line *)

Lemma newline_free_app (a b : string) :
  newline_free (a +:+ b) = newline_free a && newline_free b.
Proof.
  induction a as [|c a IH]; simpl; [reflexivity|].
  rewrite IH, andb_assoc. reflexivity.
Qed.

Lemma split_nl_single (s : string) :
  newline_free s = true -> PyStr.split_nl s = [s].
Proof.
  induction s as [|c s IH]; cbn [newline_free PyStr.split_nl]; [reflexivity|].
  intros H. apply andb_prop in H. destruct H as [Hc Hs].
  apply negb_true_iff in Hc. rewrite Hc, (IH Hs). reflexivity.
Qed.

Lemma split_nl_line (s rest : string) :
  newline_free s = true ->
  PyStr.split_nl (s +:+ PyStr.nl +:+ rest) = s :: PyStr.split_nl rest.
Proof.
  induction s as [|c s IH]; intros H.
  - reflexivity.
  - simpl in H. apply andb_prop in H. destruct H as [Hc Hs].
    apply negb_true_iff in Hc.
    change (PyStr.split_nl (String c (s +:+ PyStr.nl +:+ rest))
            = String c s :: PyStr.split_nl rest).
    cbn [PyStr.split_nl]. rewrite Hc, (IH Hs). reflexivity.
Qed.

Lemma split_nl_join (items : list string) :
  items <> [] -> Forall (fun line => newline_free line = true) items ->
  PyStr.split_nl (PyStr.join PyStr.nl items) = items.
Proof.
  unfold PyStr.join. intros Hne Hall.
  induction Hall as [|item items Hitem Hitems IH]; [contradiction|].
  destruct items as [|item2 items].
  - cbn [String.concat]. apply split_nl_single, Hitem.
  - change (String.concat PyStr.nl (item :: item2 :: items))
      with (item +:+ PyStr.nl +:+ String.concat PyStr.nl (item2 :: items)).
    rewrite split_nl_line by exact Hitem. f_equal. apply IH. discriminate.
Qed.

Lemma bullet_newline_free indicator label snippet :
  newline_free indicator = true -> newline_free label = true ->
  newline_free snippet = true ->
  newline_free (bullet indicator label snippet) = true.
Proof.
  intros Hi Hl Hs. unfold bullet.
  rewrite !newline_free_app, Hi, Hl, Hs. reflexivity.
Qed.

Lemma recall_of_indicator_lines profile indicator profiles :
  In indicator key_indicators -> profiles_ok indicator profiles ->
  Forall (fun line => newline_free line = true)
         (recall_of_indicator profile indicator profiles).
Proof.
  intros Hin [_ Hall]. pose proof (key_indicators_plain indicator Hin) as [Hfree _].
  unfold recall_of_indicator. apply Forall_app. split.
  - destruct (ODict.get profile profiles) as [snippets|] eqn:Hget; cbn; [|constructor].
    pose proof (odict_get_Forall_key
                  (fun e => Forall (snippet_ok indicator) (snd e)) _ _ _ Hall Hget)
      as Hsnippets.
    cbn [snd] in Hsnippets. apply List.Forall_forall. intros line Hline.
    apply in_map_iff in Hline. destruct Hline as (snippet & <- & Hsnippet).
    rewrite List.Forall_forall in Hsnippets.
    apply bullet_newline_free;
      [exact Hfree | reflexivity | exact (proj2 (Hsnippets _ Hsnippet))].
  - apply List.Forall_forall. intros line Hline.
    apply in_flat_map in Hline. destruct Hline as ([p snippets] & Hentry & Hline).
    cbn [fst snd] in Hline. destruct (String.eqb p profile); [contradiction|].
    apply in_map_iff in Hline. destruct Hline as (snippet & <- & Hsnippet).
    rewrite List.Forall_forall in Hall. pose proof (Hall _ Hentry) as Hsnippets.
    cbn [snd] in Hsnippets. rewrite List.Forall_forall in Hsnippets.
    apply bullet_newline_free;
      [exact Hfree | reflexivity | exact (proj2 (Hsnippets _ Hsnippet))].
Qed.

Lemma recall_bullets_lines kb report_text profile :
  kb_ok kb ->
  Forall (fun line => newline_free line = true) (recall_bullets kb report_text profile).
Proof.
  intros [_ Hentries]. unfold recall_bullets.
  apply List.Forall_forall. intros line Hline.
  apply in_flat_map in Hline. destruct Hline as ([indicator profiles] & Hentry & Hline).
  cbn [fst snd] in Hline.
  destruct (PyStr.contains indicator report_text); [|contradiction].
  rewrite List.Forall_forall in Hentries. destruct (Hentries _ Hentry) as [Hin Hok].
  pose proof (recall_of_indicator_lines profile indicator profiles Hin Hok) as Hlines.
  rewrite List.Forall_forall in Hlines. apply Hlines, Hline.
Qed.

(** X16 ([AnalysisAgent._get_knowledge_base_context], layout): Over a
    well-formed knowledge base, which is what the updates maintain, the recall
    for a string report is laid out one bullet per line: splitting the
    returned text at the line breaks gives back exactly the first five
    bullets, so a non-empty recall has between one and five lines. *)
Theorem knowledge_base_context_lines
    (d : gmap string PyVal) (report : string) (w : World) :
  kb_ok (knowledge_base (w_session w)) ->
  dict_get d "report" (PStr "") = PStr report ->
  let bullets := recall_bullets (knowledge_base (w_session w)) (PyStr.lower report)
                   (patient_profile_of d) in
  bullets <> [] ->
  exists text,
    _get_knowledge_base_context d w = (Ok text, w)
    /\ text <> ""
    /\ PyStr.split_nl text = firstn 5 bullets
    /\ (1 <= length (PyStr.split_nl text) <= 5)%nat.
Proof.
  intros Hok Hreport. cbv zeta.
  pose proof (recall_bullets_lines (knowledge_base (w_session w)) (PyStr.lower report)
                (patient_profile_of d) Hok) as Hfree.
  remember (recall_bullets (knowledge_base (w_session w)) (PyStr.lower report)
              (patient_profile_of d)) as bullets eqn:Hbullets.
  intros Hne.
  assert (Hkb : knowledge_base (w_session w) <> []).
  { intros Hempty. apply Hne. rewrite Hbullets, Hempty. reflexivity. }
  assert (Hfirst : firstn 5 bullets <> [])
    by (destruct bullets; [contradiction | discriminate]).
  assert (Hlines : Forall (fun line => newline_free line = true) (firstn 5 bullets))
    by (apply Forall_take, Hfree).
  exists (PyStr.join PyStr.nl (firstn 5 bullets)).
  assert (Hsplit : PyStr.split_nl (PyStr.join PyStr.nl (firstn 5 bullets))
                   = firstn 5 bullets) by (apply split_nl_join; assumption).
  split; [|split; [|split]].
  - rewrite get_knowledge_base_context_unfold, Hreport.
    destruct (knowledge_base (w_session w)) as [|entry kb]; [contradiction|].
    rewrite kb_context_items_spec, <- Hbullets.
    destruct (firstn 5 bullets); [contradiction | reflexivity].
  - intros Hempty. rewrite Hempty in Hsplit. cbn in Hsplit.
    destruct bullets as [|b bs]; [contradiction|].
    cbn [firstn] in Hsplit. injection Hsplit as Hb _.
    assert (Hin : In b (recall_bullets (knowledge_base (w_session w))
                          (PyStr.lower report) (patient_profile_of d)))
      by (rewrite <- Hbullets; left; reflexivity).
    unfold recall_bullets in Hin. apply in_flat_map in Hin.
    destruct Hin as (entry & _ & Hin).
    destruct (PyStr.contains _ _); [|contradiction].
    unfold recall_of_indicator in Hin. apply in_app_or in Hin.
    destruct Hin as [Hin|Hin].
    + apply in_map_iff in Hin. destruct Hin as (s & Hs & _).
      rewrite <- Hb in Hs. discriminate Hs.
    + apply in_flat_map in Hin. destruct Hin as (e & _ & Hin).
      destruct (String.eqb _ _); [contradiction|].
      apply in_map_iff in Hin. destruct Hin as (s & Hs & _).
      rewrite <- Hb in Hs. discriminate Hs.
  - exact Hsplit.
  - rewrite Hsplit. split.
    + destruct (firstn 5 bullets); [contradiction | cbn; lia].
    + apply firstn_le_length.
Qed.

Lemma knowledge_base_context_lines_witness :
  let w := run_updates Scenario.three_updates (Scenario.world_with 0) in
  exists text,
    _get_knowledge_base_context Scenario.sample_dict w = (Ok text, w)
    /\ (1 <= length (PyStr.split_nl text) <= 5)%nat.
Proof.
  cbv zeta.
  destruct (knowledge_base_context_lines Scenario.sample_dict
              "Hemoglobin: 14.2 g/dL, Glucose: 110 mg/dL, HDL: 50 mg/dL"
              (run_updates Scenario.three_updates (Scenario.world_with 0)))
    as (text & Hrun & _ & _ & Hlen).
  - apply run_updates_ok. split; constructor.
  - vm_compute. reflexivity.
  - vm_compute. discriminate.
  - exists text. split; [exact Hrun | exact Hlen].
Defined.

(** ** The session recall: which exchanges it finds *)

Lemma py_range_down_step (start : Z) :
  1 <= start -> py_range start 0 (-2) = start :: py_range (start - 2) 0 (-2).
Proof.
  intros Hstart. unfold py_range.
  change (0 <? -2) with false. change (-2 <? 0) with true. cbv iota.
  change (- -2) with 2.
  destruct (Z.ltb_spec 0 start) as [_|?]; [|lia].
  assert (Hn : Z.to_nat ((start - 0 - 1) `div` 2 + 1)
               = S (Z.to_nat (if 0 <? start - 2
                              then (start - 2 - 0 - 1) `div` 2 + 1 else 0))).
  { destruct (Z.ltb_spec 0 (start - 2)) as [Hpos|Hneg].
    - rewrite <- Z2Nat.inj_succ by (Z.div_mod_to_equations; lia).
      f_equal. Z.div_mod_to_equations. lia.
    - change (Z.to_nat 0) with 0%nat. change 1%nat with (Z.to_nat 1).
      f_equal. Z.div_mod_to_equations. lia. }
  rewrite Hn. cbn [seq List.map]. f_equal; [lia|].
  rewrite <- seq_shift, List.map_map. apply List.map_ext. intros k. lia.
Qed.

Lemma py_range_down_stop (start : Z) : start < 1 -> py_range start 0 (-2) = [].
Proof.
  intros Hstart. unfold py_range.
  change (0 <? -2) with false. change (-2 <? 0) with true. cbv iota.
  destruct (Z.ltb_spec 0 start) as [?|_]; [lia | reflexivity].
Qed.

Lemma py_range_down_parity (start i : Z) :
  In i (py_range start 0 (-2)) -> exists k : nat, i = start - 2 * Z.of_nat k.
Proof.
  unfold py_range. intros Hin. apply in_map_iff in Hin.
  destruct Hin as (k & <- & _). exists k. lia.
Qed.

Lemma session_loop_skip (h : list ChatMessage) (indices : list Z) (acc : list string) :
  (forall i, In i indices -> msg_role (message_at h i) <> "assistant") ->
  session_loop h indices acc = acc.
Proof.
  induction indices as [|i rest IH]; intros Hskip; cbn [session_loop]; [reflexivity|].
  destruct (String.eqb_spec (msg_role (message_at h i)) "assistant") as [Heq|_].
  - exfalso. apply (Hskip i); [left; reflexivity | exact Heq].
  - rewrite andb_false_r. apply IH. intros j Hj. apply Hskip. right. exact Hj.
Qed.

Lemma message_at_tail (earlier tail : list ChatMessage) (k : nat) :
  message_at (earlier ++ tail) (Z.of_nat (length earlier + k)) = nth k tail empty_message.
Proof.
  unfold message_at. rewrite Nat2Z.id. apply app_nth2_plus.
Qed.

Lemma conversation_even_role (exchanges : list (string * string)) (pending : string) :
  forall k : nat,
    (k <= length exchanges)%nat ->
    msg_role (nth (2 * k) (conversation exchanges ++ [mkMessage "user" pending])
                  empty_message) = "user".
Proof.
  induction exchanges as [|[q a] exchanges IH]; intros k Hk.
  - cbn in Hk. assert (k = 0%nat) as -> by lia. reflexivity.
  - destruct k as [|k]; [reflexivity|].
    replace (2 * S k)%nat with (S (S (2 * k))) by lia.
    cbn [conversation flat_map app nth]. apply IH. cbn in Hk. lia.
Qed.

Lemma conversation_length (exchanges : list (string * string)) :
  length (conversation exchanges) = (2 * length exchanges)%nat.
Proof.
  induction exchanges as [|[q a] exchanges IH]; [reflexivity|].
  cbn [conversation flat_map app length]. unfold conversation in IH. rewrite IH. lia.
Qed.

(** X17 ([AnalysisAgent._get_session_context], the aligned case): When the
    history ends with two complete exchanges, a question then its answer twice
    over, the session recall is exactly those two exchanges, the older one
    first, separated by a blank line, each message cut to 200 characters;
    whatever came earlier in the history is not looked at. A history of one
    exchange gives that exchange alone. *)
Theorem session_context_last_two_exchanges
    (earlier : list ChatMessage) (q1 a1 q2 a2 : string) :
  _get_session_context
    (Some (earlier ++ [mkMessage "user" q1; mkMessage "assistant" a1;
                       mkMessage "user" q2; mkMessage "assistant" a2]))
  = recalled q1 a1 +:+ PyStr.nl +:+ PyStr.nl +:+ recalled q2 a2
  /\ _get_session_context (Some [mkMessage "user" q1; mkMessage "assistant" a1])
     = recalled q1 a1.
Proof.
  split; [|reflexivity].
  set (tail := [mkMessage "user" q1; mkMessage "assistant" a1;
                mkMessage "user" q2; mkMessage "assistant" a2]).
  assert (Hitems : session_items (earlier ++ tail) = [recalled q2 a2; recalled q1 a1]).
  { unfold session_items. rewrite length_app.
    replace (Z.of_nat (length earlier + length tail) - 1)
      with (Z.of_nat (length earlier + 3)) by (cbn [length tail]; lia).
    rewrite py_range_down_step by lia.
    replace (Z.of_nat (length earlier + 3) - 2)
      with (Z.of_nat (length earlier + 1)) by lia.
    rewrite py_range_down_step by lia.
    cbn [session_loop].
    replace (Z.of_nat (length earlier + 3) - 1)
      with (Z.of_nat (length earlier + 2)) by lia.
    replace (Z.of_nat (length earlier + 1) - 1)
      with (Z.of_nat (length earlier + 0)) by lia.
    rewrite !message_at_tail. cbn [nth tail msg_role msg_content].
    destruct (Z.leb_spec 1 (Z.of_nat (length earlier + 3))) as [_|?]; [|lia].
    destruct (Z.leb_spec 1 (Z.of_nat (length earlier + 1))) as [_|?]; [|lia].
    reflexivity. }
  unfold _get_session_context. rewrite Hitems.
  destruct earlier as [|m earlier]; [reflexivity|].
  cbn [app truthy negb orb length Nat.ltb Nat.leb].
  rewrite length_app. cbn [length tail].
  destruct (Nat.leb_spec (S (length earlier + 4)) 0) as [?|_]; [lia|].
  replace (length earlier + 4)%nat with (S (S (S (S (length earlier))))) by lia.
  reflexivity.
Qed.

(** X18 ([AnalysisAgent._get_session_context], the pending question): The loop
    pairs the messages from the end of the history. So when the history is a
    run of complete exchanges followed by one more user message, the question
    still waiting for its answer, no pair lines up and the session recall is
    empty, however many complete exchanges precede. *)
Theorem session_context_pending_question
    (exchanges : list (string * string)) (pending : string) :
  session_items (conversation exchanges ++ [mkMessage "user" pending]) = []
  /\ _get_session_context
       (Some (conversation exchanges ++ [mkMessage "user" pending])) = "".
Proof.
  assert (Hitems : session_items (conversation exchanges ++ [mkMessage "user" pending])
                   = []).
  { unfold session_items. apply session_loop_skip. intros i Hin.
    pose proof (py_range_down_bounds _ _ Hin) as Hbounds.
    apply py_range_down_parity in Hin. destruct Hin as [k Hk].
    rewrite length_app, conversation_length in Hk, Hbounds.
    cbn [length] in Hk, Hbounds.
    unfold message_at.
    replace (Z.to_nat i) with (2 * (length exchanges - k))%nat by lia.
    rewrite conversation_even_role by lia. discriminate. }
  split; [exact Hitems|].
  unfold _get_session_context. rewrite Hitems.
  destruct (negb _ || _); reflexivity.
Qed.

(** ** The prompt builder *)

Lemma string_app_cons (c : ascii) (a b : string) :
  String c a +:+ b = String c (a +:+ b).
Proof. reflexivity. Qed.

Lemma string_app_nil_r (s : string) : s +:+ "" = s.
Proof.
  induction s as [|c s IH]; [reflexivity|].
  rewrite string_app_cons, IH. reflexivity.
Qed.



Lemma build_enhanced_prompt_unfold system_prompt data chat_history w :
  _build_enhanced_prompt system_prompt data chat_history w =
    match data with
    | DDict d =>
        match d !! "report" with
        | Some _ =>
            match _get_knowledge_base_context d w with
            | (Ok kb_context, _) =>
                (Ok ((system_prompt +:+ kb_section kb_context)
                       +:+ session_section chat_history), w)
            | (Raise e, _) => (Raise e, w)
            end
        | None => (Ok (system_prompt +:+ session_section chat_history), w)
        end
    | DOther => (Ok (system_prompt +:+ session_section chat_history), w)
    end.
Proof.
  assert (Hsession : forall p,
             (if truthy chat_history
              then ret (if String.eqb (_get_session_context chat_history) "" then p
                        else p +:+ session_heading +:+ _get_session_context chat_history)
              else ret p) w
             = (Ok (p +:+ session_section chat_history), w)).
  { intros p. unfold session_section, ret.
    destruct (truthy chat_history); [|rewrite string_app_nil_r; reflexivity].
    destruct (String.eqb _ ""); [rewrite string_app_nil_r|]; reflexivity. }
  unfold _build_enhanced_prompt, bind.
  destruct data as [d|]; [|cbn [ret]; apply Hsession].
  destruct (d !! "report"); [|cbn [ret]; apply Hsession].
  pose proof (get_knowledge_base_context_pure d w) as Hpure.
  destruct (_get_knowledge_base_context d w) as [[kb_context|e] w1];
    cbn [snd] in Hpure; subst w1; [|reflexivity].
  cbn [ret]. rewrite Hsession. unfold kb_section.
  destruct (String.eqb kb_context ""); [rewrite string_app_nil_r|]; reflexivity.
Qed.


(** ** [analyze_report], end to end *)

Lemma check_rate_limit_frame clock w :
  let w1 := snd (check_rate_limit clock w) in
  w_trace w1 = w_trace w
  /\ knowledge_base (w_session w1) = knowledge_base (w_session w)
  /\ models_used (w_session w1) = models_used (w_session w)
  /\ analysis_limit (w_session w1) = analysis_limit (w_session w).
Proof.
  cbv zeta. rewrite check_rate_limit_unfold. cbv zeta.
  destruct (_ <? 0); [cbn; auto|]. destruct (_ <=? _); cbn; auto.
Qed.

(** X20 ([AnalysisAgent.analyze_report], the refused request): A session that
    is at its limit and was last counted no more than 24 hours ago gets the
    refusal whatever is asked, with data, prompt, history and the check-only
    flag all ignored: the answer is the limit message, the clock has been read
    once, and nothing else happened; no provider call, no log line, no change
    to the session. *)
Theorem analyze_report_refused
    (clock : nat -> Z) (clients : gmap string Client) (data : Data)
    (system_prompt : string) (check_only : bool)
    (chat_history : option (list ChatMessage)) (w : World) :
  clock (w_ticks w) - last_analysis (w_session w) <= Timedelta.of_days 1 ->
  analysis_limit (w_session w) <= analysis_count (w_session w) ->
  exists msg,
    check_rate_limit clock w
    = (Ok (false, Some msg), mkWorld (w_session w) (S (w_ticks w)) (w_trace w))
    /\ analyze_report clock clients data system_prompt check_only chat_history w
       = (Ok (RLimit (Some msg)), mkWorld (w_session w) (S (w_ticks w)) (w_trace w)).
Proof.
  intros Helapsed Hlimit.
  assert (Hcheck : exists msg,
             check_rate_limit clock w
             = (Ok (false, Some msg),
                mkWorld (w_session w) (S (w_ticks w)) (w_trace w))).
  { rewrite check_rate_limit_unfold. cbv zeta.
    destruct (Z.ltb_spec (Timedelta.days (Timedelta.of_days 1
                 - (clock (w_ticks w) - last_analysis (w_session w)))) 0) as [Hneg|_].
    - apply (proj1 (days_negative _)) in Hneg. lia.
    - destruct (Z.leb_spec (analysis_limit (w_session w))
                           (analysis_count (w_session w))) as [_|?]; [|lia].
      eexists. reflexivity. }
  destruct Hcheck as [msg Hcheck]. exists msg. split; [exact Hcheck|].
  rewrite analyze_report_unfold, Hcheck. reflexivity.
Qed.

Lemma analyze_report_refused_witness :
  exists msg,
    analyze_report (Scenario.frozen_clock 7200000000) Scenario.answering_clients
      Scenario.form_request "You are a medical analyst." false None
      (Scenario.world_with 15)
    = (Ok (RLimit (Some msg)), mkWorld (Scenario.session_with 15) 1 []).
Proof.
  destruct (analyze_report_refused (Scenario.frozen_clock 7200000000)
              Scenario.answering_clients Scenario.form_request
              "You are a medical analyst." false None (Scenario.world_with 15))
    as (msg & _ & Hrun).
  - vm_compute. discriminate.
  - vm_compute. discriminate.
  - exists msg. exact Hrun.
Defined.

Lemma generate_analysis_extends clients data system_prompt w :
  exists evs,
    extends w (snd (generate_analysis clients data system_prompt 0 w)) evs
    /\ (calls_made evs <= 4)%nat.
Proof.
  destruct (generate_analysis_run clients data system_prompt 4 0 w eq_refl)
    as (evs & Hext & Hcalls & _).
  exists evs. split; assumption.
Qed.

(** X21 ([AnalysisAgent.analyze_report], the successful request): When the
    rate check passes, the prompt is built and a model answers, the report is
    counted exactly once on top of what the check left (so it is 1 after a
    reset), the time of the analysis is the clock reading that follows the
    check, the answering model is tallied, the knowledge base is what
    [_update_knowledge_base] makes of the stored one with the pre-processed
    data and the answer, and at most four provider calls were made. This holds
    when the pre-processed report is a string, which it is for data that is no
    dictionary too. *)
Theorem analyze_report_success
    (clock : nat -> Z) (clients : gmap string Client) (data : Data)
    (system_prompt prompt content model_used : string)
    (chat_history : option (list ChatMessage)) (w w3 : World) :
  let w1 := snd (check_rate_limit clock w) in
  let processed := _preprocess_data data in
  fst (check_rate_limit clock w) = Ok (true, None) ->
  fst (enhanced_prompt system_prompt processed chat_history w1) = Ok prompt ->
  generate_analysis clients processed prompt 0 w1 = (Success content model_used, w3) ->
  (forall d n, data = DDict d -> d !! "report" <> Some (PInt n)) ->
  (forall d, data = DDict d -> d !! "report" <> Some PNone) ->
  let out := analyze_report clock clients data system_prompt false chat_history w in
  let s' := w_session (snd out) in
  fst out = Ok (RGenerated (Success content model_used))
  /\ analysis_count s' = analysis_count (w_session w1) + 1
  /\ last_analysis s' = clock (w_ticks w1)
  /\ analysis_limit s' = analysis_limit (w_session w)
  /\ models_used s'
     = <[model_used := match models_used (w_session w) !! model_used with
                       | Some n => n + 1
                       | None => 1
                       end]> (models_used (w_session w))
  /\ knowledge_base s'
     = knowledge_base (w_session (snd (_update_knowledge_base processed content w)))
  /\ w_trace (snd out) = w_trace w3
  /\ (exists evs, w_trace w3 = w_trace w ++ evs /\ (1 <= calls_made evs <= 4)%nat).
Proof.
  intros w1 processed Hcheck Hprompt Hgen Hint Hnone. cbv zeta.
  pose proof (check_rate_limit_frame clock w) as (Htrace1 & Hkb1 & Hused1 & Hlimit1).
  rewrite analyze_report_unfold. subst w1.
  destruct (check_rate_limit clock w) as [r0 w1] eqn:Hcr.
  cbn [fst snd] in *. subst r0. cbv zeta. fold processed.
  destruct (generate_analysis_extends clients processed prompt w1)
    as (evs & (Hs3 & Ht3 & Hr3) & Hcalls).
  rewrite Hgen in Hs3, Ht3, Hr3. cbn [snd] in Hs3, Ht3, Hr3.
  pose proof (enhanced_prompt_pure system_prompt processed chat_history w1) as Hpure.
  destruct (enhanced_prompt system_prompt processed chat_history w1) as [r2 w2] eqn:Hep.
  cbn [fst] in Hprompt. cbn [snd] in Hpure. subst r2 w2.
  rewrite Hgen, update_analytics_unfold. cbv zeta.
  set (w4 := mkWorld _ _ _).
  assert (Hkb : exists kb',
             _update_knowledge_base processed content w4
             = (Ok tt, mkWorld (set_knowledge_base kb' (w_session w4))
                               (w_ticks w4) (w_trace w4))
             /\ kb' = knowledge_base
                        (w_session (snd (_update_knowledge_base processed content w)))).
  { rewrite !update_knowledge_base_unfold. subst processed.
    destruct data as [d|]; cbn [_preprocess_data].
    - rewrite lookup_insert_eq. unfold dict_get.
      destruct (d !! "report") as [[report|n|]|] eqn:Hreport;
        cbn [default from_option id].
      + eexists. split; [reflexivity|].
        cbn [snd w_session set_knowledge_base knowledge_base]. subst w4.
        cbn [w_session knowledge_base]. rewrite Hs3, Hkb1. reflexivity.
      + exfalso. exact (Hint d n eq_refl Hreport).
      + exfalso. exact (Hnone d eq_refl Hreport).
      + eexists. split; [reflexivity|].
        cbn [snd w_session set_knowledge_base knowledge_base]. subst w4.
        cbn [w_session knowledge_base]. rewrite Hs3, Hkb1.
        assert (Hidle : forall indicator, In indicator key_indicators ->
                          PyStr.contains indicator (PyStr.lower "")
                          && PyStr.contains indicator (PyStr.lower content) = false).
        { intros indicator Hin. clear - Hin.
          repeat (destruct Hin as [<-|Hin]; [reflexivity|]). contradiction. }
        rewrite !kb_learn_all_idle by exact Hidle. reflexivity.
    - exists (knowledge_base (w_session w4)). split.
      + destruct w4 as [[c l m u k] t tr]. reflexivity.
      + cbn [snd]. subst w4. cbn [w_session knowledge_base].
        rewrite Hs3, Hkb1. reflexivity. }
  destruct Hkb as (kb' & -> & Hkb'). cbn [fst snd w_session set_knowledge_base].
  subst w4. cbn [w_session w_ticks w_trace analysis_count last_analysis analysis_limit
                 models_used knowledge_base].
  rewrite Hs3, Ht3, Hused1, Hlimit1.
  split; [reflexivity|]. split; [reflexivity|]. split; [reflexivity|].
  split; [reflexivity|]. split; [reflexivity|]. split; [exact Hkb'|].
  split; [reflexivity|].
  exists evs. split; [rewrite Hr3, Htrace1; reflexivity|].
  split; [|exact Hcalls].
  destruct (calls_made evs) eqn:Hzero; [|lia]. exfalso.
  pose proof (generate_analysis_run clients processed prompt 4 0 w1 eq_refl)
    as (evs' & (_ & _ & Hr') & _ & _ & _ & _ & Hnoclient & _).
  rewrite Hgen in Hr', Hnoclient. cbn [fst snd] in Hr', Hnoclient.
  assert (evs' = evs) as -> by (rewrite Hr3 in Hr'; apply app_inv_head in Hr'; congruence).
  destruct (clients !! "groq") as [c|] eqn:Hclient.
  - rewrite generate_analysis_step in Hgen by lia. cbv zeta in Hgen.
    rewrite Hclient in Hgen.
    destruct (c _ _) as [answer|msg] eqn:Hanswer.
    + injection Hgen as _ _ Hw3. rewrite <- Hw3 in Hr3.
      unfold send, log in Hr3. cbn [w_trace] in Hr3. rewrite <- app_assoc in Hr3.
      apply app_inv_head in Hr3. subst evs. discriminate Hzero.
    + match type of Hgen with
      | generate_analysis _ _ _ _ ?wf = _ =>
          destruct (generate_analysis_run clients processed prompt 3 (0 + 1) wf eq_refl)
            as (evs2 & (_ & _ & Hr2) & _)
      end.
      rewrite Hgen in Hr2. cbn [snd] in Hr2.
      pose proof (after_failure_extends
                    (model (MODEL_CONFIG (tier_of 0))) msg
                    (send (mkRequest (model (MODEL_CONFIG (tier_of 0))) prompt processed
                             (temperature (MODEL_CONFIG (tier_of 0)))
                             (max_tokens (MODEL_CONFIG (tier_of 0))))
                          (log LInfo ("Attempting generation with groq model: "
                                        +:+ model (MODEL_CONFIG (tier_of 0))) w1)))
        as (_ & _ & Hr4).
      rewrite Hr4 in Hr2. unfold send, log in Hr2. cbn [w_trace] in Hr2.
      rewrite <- !app_assoc in Hr2. rewrite Hr3 in Hr2.
      apply app_inv_head in Hr2. subst evs. discriminate Hzero.
  - destruct (Hnoclient eq_refl) as [_ Hfail]. discriminate Hfail.
Qed.

Lemma analyze_report_success_witness :
  let out := analyze_report Scenario.ticking_clock Scenario.answering_clients
               Scenario.form_request "prompt" false None (Scenario.world_with 14) in
  analysis_count (w_session (snd out)) = 15
  /\ models_used (w_session (snd out)) !! "groq/llama-3.3-70b-versatile" = Some 1.
Proof.
  pose proof (analyze_report_success Scenario.ticking_clock Scenario.answering_clients
                Scenario.form_request "prompt" "prompt"
                ("Summary of the report." +:+ PyStr.nl
                   +:+ "Hemoglobin is within normal range.")
                "groq/llama-3.3-70b-versatile" None (Scenario.world_with 14)
                (snd (generate_analysis Scenario.answering_clients
                        (_preprocess_data Scenario.form_request) "prompt" 0
                        (snd (check_rate_limit Scenario.ticking_clock
                                (Scenario.world_with 14))))))
    as Hrun.
  cbv zeta in Hrun.
  destruct Hrun as (_ & Hcount & _ & _ & Hused & _).
  - vm_compute. reflexivity.
  - vm_compute. reflexivity.
  - vm_compute. reflexivity.
  - intros d n [= <-]. vm_compute. discriminate.
  - intros d [= <-]. vm_compute. discriminate.
  - cbv zeta. rewrite Hcount, Hused. vm_compute. split; reflexivity.
Defined.

Lemma preprocess_report (d : gmap string PyVal) (v : PyVal) :
  d !! "report" = Some v ->
  exists d', _preprocess_data (DDict d) = DDict d'
             /\ d' !! "report" = Some v /\ dict_get d' "report" (PStr "") = v.
Proof.
  intros Hreport. eexists. split; [reflexivity|].
  unfold dict_get. rewrite lookup_insert_eq. unfold dict_get. rewrite Hreport.
  split; reflexivity.
Qed.

(** X22 ([AnalysisAgent.analyze_report], a report that is no string): When the
    data holds a report that is an integer or [None] and the rate check
    passes, the request ends in [AttributeError], at one of two places.
    Without a history the model is called first and its answer is counted
    against the limit before the update of the knowledge base raises, so the
    caller gets no analysis but has used one. With a history and a non-empty
    knowledge base the recall raises before any model is called, and nothing
    is counted. *)
Theorem analyze_report_report_not_text
    (clock : nat -> Z) (clients : gmap string Client) (d : gmap string PyVal)
    (v : PyVal) (system_prompt : string) (w : World) :
  let w1 := snd (check_rate_limit clock w) in
  let processed := _preprocess_data (DDict d) in
  d !! "report" = Some v ->
  (forall report, v <> PStr report) ->
  fst (check_rate_limit clock w) = Ok (true, None) ->
  (forall content model_used w3,
     generate_analysis clients processed system_prompt 0 w1
     = (Success content model_used, w3) ->
     let out := analyze_report clock clients (DDict d) system_prompt false None w in
     (exists text, fst out = Raise (AttributeError text))
     /\ snd out = snd (_update_analytics clock (Success content model_used) w3)
     /\ analysis_count (w_session (snd out)) = analysis_count (w_session w1) + 1
     /\ knowledge_base (w_session (snd out)) = knowledge_base (w_session w))
  /\ (forall first later,
        knowledge_base (w_session w) <> [] ->
        let out := analyze_report clock clients (DDict d) system_prompt false
                     (Some (first :: later)) w in
        (exists text, fst out = Raise (AttributeError text)) /\ snd out = w1).
Proof.
  intros w1 processed Hreport Hv Hcheck.
  destruct (preprocess_report d v Hreport) as (d' & Hpre & Hreport' & Hget').
  pose proof (check_rate_limit_frame clock w) as (Htrace1 & Hkb1 & _).
  subst w1 processed. rewrite Hpre.
  destruct (check_rate_limit clock w) as [r0 w1] eqn:Hcr.
  cbn [fst snd] in *. subst r0.
  split.
  - intros content model_used w3 Hgen. cbv zeta.
    rewrite analyze_report_unfold, Hcr, Hpre. cbv zeta. cbn [enhanced_prompt truthy ret].
    rewrite Hgen.
    destruct (generate_analysis_extends clients (DDict d') system_prompt w1)
      as (evs & (Hs3 & _) & _).
    rewrite Hgen in Hs3. cbn [snd] in Hs3.
    rewrite update_analytics_unfold. cbv beta iota zeta.
    rewrite update_knowledge_base_unfold. cbn [w_session w_ticks w_trace].
    rewrite Hreport'.
    destruct v as [report|n|]; [contradiction (Hv report); reflexivity| |];
      cbn [fst snd w_session analysis_count knowledge_base];
      rewrite Hs3, Hkb1; (split; [eexists; reflexivity|]); auto.
  - intros first later Hkb. cbv zeta.
    rewrite analyze_report_unfold, Hcr, Hpre. cbv zeta. cbn [enhanced_prompt truthy].
    rewrite build_enhanced_prompt_unfold, Hreport'.
    rewrite get_knowledge_base_context_unfold, Hget', Hkb1.
    destruct (knowledge_base (w_session w)); [contradiction Hkb; reflexivity|].
    destruct v as [report|n|]; [contradiction (Hv report); reflexivity| |];
      cbn [fst snd]; (split; [eexists; reflexivity | reflexivity]).
Qed.

Lemma analyze_report_report_not_text_witness :
  let out := analyze_report Scenario.ticking_clock Scenario.answering_clients
               (DDict {["report" := PInt 7]}) "prompt" false None
               (Scenario.world_with 14) in
  (exists text, fst out = Raise (AttributeError text))
  /\ analysis_count (w_session (snd out)) = 15.
Proof.
  destruct (analyze_report_report_not_text Scenario.ticking_clock
              Scenario.answering_clients {["report" := PInt 7]} (PInt 7) "prompt"
              (Scenario.world_with 14)) as [Hcounted _].
  - vm_compute. reflexivity.
  - intros report. discriminate.
  - vm_compute. reflexivity.
  - destruct (Hcounted ("Summary of the report." +:+ PyStr.nl
                          +:+ "Hemoglobin is within normal range.")
                "groq/llama-3.3-70b-versatile"
                (snd (generate_analysis Scenario.answering_clients
                        (_preprocess_data (DDict {["report" := PInt 7]})) "prompt" 0
                        (snd (check_rate_limit Scenario.ticking_clock
                                (Scenario.world_with 14))))))
      as (Hraise & _ & Hcount & _).
    + vm_compute. reflexivity.
    + cbv zeta. split; [exact Hraise|]. rewrite Hcount. vm_compute. reflexivity.
Defined.

(** ** Setting up the agent *)

Lemma session_of_raw_of (s : Session) : session_of (raw_of s) = Some s.
Proof. destruct s. reflexivity. Qed.

Lemma raw_of_session_of (r : RawSession) (s : Session) :
  session_of r = Some s -> raw_of s = r.
Proof.
  destruct r as [[count|] [last|] [limit|] [used|] [kb|]]; cbn; try discriminate.
  intros [= <-]. reflexivity.
Qed.

Lemma init_state_session clock r ticks :
  fst (_init_state clock r ticks) = raw_of (initial_session clock r ticks).
Proof.
  unfold _init_state, initial_session, raw_of.
  destruct r as [[count|] [last|] [limit|] [used|] [kb|]]; reflexivity.
Qed.

(** X23 ([AnalysisAgent._init_state]): after [_init_state] all five keys of
    the agent are there.  A key that was there keeps its value, so a count
    the sidebar created, or one left from before, is not reset; an absent
    key gets 0, the current time, 15, an empty tally or an empty knowledge
    base.  The clock is read exactly when [last_analysis] was absent.
    Running it again changes nothing and does not read the clock, and on a
    state that has all five keys it does nothing at all. *)
Theorem init_state_fills_missing (clock : nat -> Z) (r : RawSession) (ticks : nat) :
  let out := _init_state clock r ticks in
  session_of (fst out) = Some (initial_session clock r ticks)
  /\ snd out = match raw_last_analysis r with Some _ => ticks | None => S ticks end
  /\ _init_state clock (fst out) (snd out) = out
  /\ (forall s, session_of r = Some s -> out = (r, ticks))
  /\ (forall n, raw_analysis_count r = Some n ->
        raw_analysis_count (fst out) = Some n).
Proof.
  cbv zeta. split; [rewrite init_state_session; apply session_of_raw_of|].
  destruct r as [[count|] [last|] [limit|] [used|] [kb|]];
    cbn; (split; [reflexivity|]); (split; [reflexivity|]);
    (split; [intros s Hs; try discriminate Hs; reflexivity | intros n Hn; exact Hn
                                                             || discriminate Hn]).
Qed.

Lemma init_analysis_state_ready clock connect clients w :
  Services.init_analysis_state clock connect (app_of clients w) = app_of clients w.
Proof. reflexivity. Qed.

Lemma with_agent_ready {A} clock connect (method : gmap string Client -> M A) clients w :
  Services.with_agent clock connect method (app_of clients w)
  = Some (fst (method clients w), app_of clients (snd (method clients w))).
Proof.
  unfold Services.with_agent. rewrite init_analysis_state_ready.
  cbn [app_of app_agent app_raw app_ticks app_trace]. rewrite session_of_raw_of.
  destruct w as [s ticks trace]. cbn [w_session w_ticks w_trace].
  destruct (method clients (mkWorld s ticks trace)) as [r w']. reflexivity.
Qed.

Lemma init_analysis_state_app_of clock connect app :
  consistent app ->
  exists clients w,
    Services.init_analysis_state clock connect app = app_of clients w
    /\ (forall c, app_agent app = Some c -> clients = c)
    /\ (app_agent app = None ->
        clients = fst (_initialize_clients connect)
        /\ w_session w = initial_session clock (app_raw app) (app_ticks app))
    /\ exists logged, w_trace w = app_trace app ++ logged
                      /\ calls_made logged = 0%nat.
Proof.
  intros Hok. unfold Services.init_analysis_state.
  destruct (app_agent app) as [c|] eqn:Hagent.
  - destruct Hok as [Hnone|[s Hs]]; [congruence|].
    exists c, (mkWorld s (app_ticks app) (app_trace app)).
    split; [|split; [intros c' [= <-]; reflexivity|split; [discriminate|]]].
    + unfold app_of. cbn [w_session w_ticks w_trace].
      rewrite (raw_of_session_of _ _ Hs). destruct app. cbn in *. subst. reflexivity.
    + exists []. cbn [w_trace]. rewrite app_nil_r. split; reflexivity.
  - pose proof (init_state_session clock (app_raw app) (app_ticks app)) as Hinit.
    destruct (_init_state clock (app_raw app) (app_ticks app)) as [raw ticks].
    cbn [fst] in Hinit. subst raw.
    destruct connect as [client|msg]; cbn [_initialize_clients].
    + eexists _, (mkWorld _ ticks _). split; [reflexivity|].
      split; [discriminate|]. split; [intros _; split; reflexivity|].
      exists []. split; reflexivity.
    + eexists _, (mkWorld _ ticks _). split; [reflexivity|].
      split; [discriminate|]. split; [intros _; split; reflexivity|].
      eexists. split; reflexivity.
Qed.

Lemma with_agent_after_init {A} clock connect (method : gmap string Client -> M A) app :
  Services.with_agent clock connect method
    (Services.init_analysis_state clock connect app)
  = Services.with_agent clock connect method app.
Proof.
  unfold Services.with_agent.
  assert (Hidem : Services.init_analysis_state clock connect
                    (Services.init_analysis_state clock connect app)
                  = Services.init_analysis_state clock connect app).
  { unfold Services.init_analysis_state.
    destruct (app_agent app) as [c|] eqn:Hagent.
    - rewrite Hagent. reflexivity.
    - destruct (_initialize_clients connect) as [clients logged].
      destruct (_init_state clock (app_raw app) (app_ticks app)) as [raw ticks].
      reflexivity. }
  rewrite Hidem. reflexivity.
Qed.

(** X24 ([generate_analysis] and [check_rate_limit] of [services.py]): on a
    state without agent, or with an agent and all its keys, a service call
    first has an agent in place, the one that was there or a new one with
    fresh keys, and then runs the agent's method; it leaves an agent with
    all its keys behind.  With [check_only] set the answer is always the
    bare pair of [check_rate_limit], also on a refusal, whatever the data,
    the prompt and the session id.  Without it the call is [analyze_report]
    without a history: the answer is never a pair, the session id plays no
    part, and every request sent to a model carries the system prompt as
    given and the pre-processed data. *)
Theorem services_generate_analysis_shapes
    (clock : nat -> Z) (connect : Client + string) (data : Data)
    (system_prompt : string) (session_id : option string) (app : App) :
  consistent app ->
  exists clients w can msg,
    Services.init_analysis_state clock connect app = app_of clients w
    /\ fst (check_rate_limit clock w) = Ok (can, msg)
    /\ (forall d p sid,
          Services.generate_analysis clock connect d p true sid app
          = Some (Ok (RCheck can msg), app_of clients (snd (check_rate_limit clock w))))
    /\ Services.check_rate_limit clock connect app
       = Some (Ok (can, msg), app_of clients (snd (check_rate_limit clock w)))
    /\ Services.generate_analysis clock connect data system_prompt false session_id app
       = Some (fst (analyze_report clock clients data system_prompt false None w),
               app_of clients
                 (snd (analyze_report clock clients data system_prompt false None w)))
    /\ (forall can' msg',
          fst (analyze_report clock clients data system_prompt false None w)
          <> Ok (RCheck can' msg'))
    /\ (exists evs,
          w_trace (snd (analyze_report clock clients data system_prompt false None w))
          = w_trace w ++ evs
          /\ Forall (issued_for system_prompt (_preprocess_data data)) evs).
Proof.
  intros Hok.
  destruct (init_analysis_state_app_of clock connect app Hok)
    as (clients & w & Hinit & _).
  assert (Hcheck : exists can msg, fst (check_rate_limit clock w) = Ok (can, msg)).
  { destruct (check_rate_limit_shape clock w) as [_ [Hpass|[m Hrefuse]]].
    - exists true, None. exact Hpass.
    - exists false, (Some m). rewrite Hrefuse. reflexivity. }
  destruct Hcheck as (can & msg & Hcheck).
  exists clients, w, can, msg.
  split; [exact Hinit|]. split; [exact Hcheck|].
  split; [|split; [|split; [|split]]].
  - intros d p sid. unfold Services.generate_analysis.
    rewrite <- with_agent_after_init, Hinit, with_agent_ready.
    unfold bind. destruct (check_rate_limit clock w) as [r w1].
    cbn [fst] in Hcheck. subst r. reflexivity.
  - unfold Services.check_rate_limit.
    rewrite <- with_agent_after_init, Hinit, with_agent_ready.
    rewrite Hcheck. reflexivity.
  - unfold Services.generate_analysis.
    rewrite <- with_agent_after_init, Hinit, with_agent_ready. reflexivity.
  - intros can' msg'. rewrite analyze_report_unfold.
    destruct (check_rate_limit clock w) as [[[[|] m]|e] w1]; cbn [fst];
      try discriminate.
    cbv zeta. destruct (enhanced_prompt _ _ _ _) as [[prompt|e] w2]; cbn [fst];
      try discriminate.
    destruct (generate_analysis _ _ _ _ _) as [[content m'|e] w3]; cbn [fst];
      try discriminate.
    destruct (_update_analytics _ _ _) as [[u|e] w4]; cbn [fst]; try discriminate.
    destruct (_update_knowledge_base _ _ _) as [[u'|e] w5]; cbn [fst]; discriminate.
  - destruct (analyze_report_requests clock clients data system_prompt false None w)
      as (evs & Htrace & Hissued).
    exists evs. split; [exact Htrace|]. apply Hissued. intros w1. reflexivity.
Qed.

Lemma services_generate_analysis_shapes_witness :
  exists app',
    Services.generate_analysis (Scenario.frozen_clock 7200000000)
      (inl Scenario.answering_client) DOther "" true None
      (mkApp None (mkRaw (Some 15) None None None None) 0 [])
    = Some (Ok (RCheck false (Some "Daily limit reached. Reset in 0h 0m")), app').
Proof.
  destruct (services_generate_analysis_shapes (Scenario.frozen_clock 7200000000)
              (inl Scenario.answering_client) DOther "" None
              (mkApp None (mkRaw (Some 15) None None None None) 0 []))
    as (clients & w & can & msg & Hinit & Hcheck & Hrun & _).
  - left. reflexivity.
  - rewrite (Hrun DOther "" None).
    destruct w as [[count last limit used kb] ticks trace].
    vm_compute in Hinit. injection Hinit as <- <- <- <- <- <- <- <-.
    vm_compute in Hcheck. injection Hcheck as <- <-.
    eexists. reflexivity.
Defined.

(** ** The analysis form *)

(** X25 ([handle_form_submission], the guard): the form is turned down
    with "Please fill in all fields", without touching the agent or calling
    a service, exactly when the patient name is empty, the gender is empty,
    or the age is 0, an age the number field itself accepts.  In every other
    case the function does not return normally. *)
Theorem handle_form_submission_incomplete
    (clock : nat -> Z) (connect : Client + string)
    (comprehensive_analyst session_id patient_name : string) (age : Z)
    (gender pdf_contents : string) (page : Page) :
  let result := handle_form_submission clock connect comprehensive_analyst session_id
                  patient_name age gender pdf_contents page in
  (patient_name = "" \/ age = 0 \/ gender = "" ->
   result = Some (Returned, show_error (Some "Please fill in all fields") page))
  /\ (forall page', result = Some (Returned, page') ->
        patient_name = "" \/ age = 0 \/ gender = "").
Proof.
  cbv zeta. unfold handle_form_submission.
  destruct (String.eqb_spec patient_name "") as [Hname|Hname];
    [split; [reflexivity | intros; left; exact Hname]|].
  destruct (Z.eqb_spec age 0) as [Hage|Hage];
    [split; [reflexivity | intros; right; left; exact Hage]|].
  destruct (String.eqb_spec gender "") as [Hgender|Hgender];
    [split; [reflexivity | intros; right; right; exact Hgender]|].
  cbn [negb andb]. split; [intros [H|[H|H]]; contradiction|].
  intros page' Hresult. exfalso.
  destruct (Services.generate_analysis _ _ _ _ _ _ _) as [[[checked|e] app1]|];
    try discriminate Hresult.
  destruct (unpack_check checked) as [[can_analyze error_msg]|e];
    try discriminate Hresult.
  destruct (negb can_analyze); try discriminate Hresult.
  destruct (Services.generate_analysis _ _ _ _ _ _ _) as [[[result|e] app3]|];
    try discriminate Hresult.
  destruct result as [m|c m|[content model_used|e]]; discriminate Hresult.
Qed.

Lemma analyze_report_text_answers clock clients d report system_prompt w :
  d !! "report" = Some (PStr report) ->
  match fst (analyze_report clock clients (DDict d) system_prompt false None w) with
  | Ok (RLimit _) | Ok (RGenerated _) => True
  | _ => False
  end.
Proof.
  intros Hreport.
  destruct (preprocess_report d (PStr report) Hreport) as (d' & Hpre & Hreport' & _).
  rewrite analyze_report_unfold.
  destruct (check_rate_limit_shape clock w) as [_ [Hpass|[m Hrefuse]]].
  - destruct (check_rate_limit clock w) as [r w1]. cbn [fst] in Hpass. subst r.
    cbv zeta. rewrite Hpre. cbn [enhanced_prompt truthy ret].
    destruct (generate_analysis _ _ _ _ _) as [[content m|e] w3]; [|exact I].
    rewrite update_analytics_unfold. cbv beta iota zeta.
    rewrite update_knowledge_base_unfold, Hreport'. exact I.
  - rewrite Hrefuse. exact I.
Qed.

Lemma handle_form_submission_run
    clock connect comprehensive_analyst session_id patient_name age gender pdf_contents
    page clients w :
  patient_name <> "" -> age <> 0 -> gender <> "" ->
  Services.init_analysis_state clock connect (pg_app page) = app_of clients w ->
  handle_form_submission clock connect comprehensive_analyst session_id
    patient_name age gender pdf_contents page
  = match check_rate_limit clock w with
    | (Raise e, w1) => Some (Raised (FromAgent e), mkPage (app_of clients w1) (pg_events page))
    | (Ok (false, msg), w1) =>
        Some (Stopped, mkPage (app_of clients w1) (pg_events page ++ [ShowError msg]))
    | (Ok (true, _), w1) =>
        let asked := SaveMessage session_id
                       ("Analyzing report for patient: " +:+ patient_name) "user"
                       (clock (w_ticks w1)) in
        let events := pg_events page ++ [asked] in
        match analyze_report clock clients
                (form_data patient_name age gender pdf_contents)
                comprehensive_analyst false None
                (mkWorld (w_session w1) (S (w_ticks w1)) (w_trace w1)) with
        | (Raise e, w3) => Some (Raised (FromAgent e), mkPage (app_of clients w3) events)
        | (Ok (RGenerated (Success content model_used)), w3) =>
            Some (Rerun,
                  mkPage (app_of clients
                            (mkWorld (w_session w3) (S (w_ticks w3)) (w_trace w3)))
                         (events ++ [SaveMessage session_id
                                       (content +:+ model_info model_used) "assistant"
                                       (clock (w_ticks w3))]))
        | (Ok (RGenerated (Failure e)), w3) =>
            Some (Stopped, mkPage (app_of clients w3) (events ++ [ShowError (Some e)]))
        | (Ok (RLimit error_msg), w3) =>
            Some (Stopped, mkPage (app_of clients w3) (events ++ [ShowError error_msg]))
        | (Ok (RCheck _ _), w3) =>
            Some (Raised (TypeError "tuple indices must be integers or slices, not str"),
                  mkPage (app_of clients w3) events)
        end
    end.
Proof.
  intros Hname Hage Hgender Hinit. unfold handle_form_submission.
  destruct (String.eqb_spec patient_name "") as [?|_]; [contradiction|].
  destruct (Z.eqb_spec age 0) as [?|_]; [contradiction|].
  destruct (String.eqb_spec gender "") as [?|_]; [contradiction|].
  cbn [negb andb].
  unfold Services.generate_analysis at 1.
  rewrite <- with_agent_after_init, Hinit, with_agent_ready.
  unfold bind.
  destruct (check_rate_limit clock w) as [[[can msg]|e] w1]; cbn [fst snd ret];
    [|reflexivity].
  cbn [unpack_check]. destruct can; cbn [negb]; [|reflexivity].
  unfold Services.generate_analysis.
  change (pg_app (save_chat_message clock session_id
                    ("Analyzing report for patient: " +:+ patient_name) "user"
                    (set_app (app_of clients w1) page)))
    with (app_of clients (mkWorld (w_session w1) (S (w_ticks w1)) (w_trace w1))).
  rewrite with_agent_ready. cbv zeta.
  destruct (analyze_report clock clients
              (form_data patient_name age gender pdf_contents)
              comprehensive_analyst false None
              (mkWorld (w_session w1) (S (w_ticks w1)) (w_trace w1)))
    as [[[m|c m|[content model_used|e]]|e] w3]; reflexivity.
Qed.

(** X26 ([handle_form_submission], the flow): with all fields filled, on a
    state the services are modelled for, a submission never returns
    normally and never raises.  When the rate check refuses, the message is
    shown, the script stops, and nothing was saved.  Otherwise the user
    message "Analyzing report for patient: NAME" is saved first, stamped
    with the next clock reading, and [analyze_report] runs on the four form
    fields without a history: a model's answer is saved as the assistant
    message with the line naming the model appended, and the script is
    rerun; a failure or a refusal there is shown and the script stops, with
    the user message saved and no answer to it. *)
Theorem handle_form_submission_flow
    (clock : nat -> Z) (connect : Client + string)
    (comprehensive_analyst session_id patient_name : string) (age : Z)
    (gender pdf_contents : string) (page : Page) :
  consistent (pg_app page) ->
  patient_name <> "" -> age <> 0 -> gender <> "" ->
  exists clients w can msg,
    Services.init_analysis_state clock connect (pg_app page) = app_of clients w
    /\ fst (check_rate_limit clock w) = Ok (can, msg)
    /\ let w1 := snd (check_rate_limit clock w) in
       let asked := SaveMessage session_id
                      ("Analyzing report for patient: " +:+ patient_name) "user"
                      (clock (w_ticks w1)) in
       let w2 := mkWorld (w_session w1) (S (w_ticks w1)) (w_trace w1) in
       let out := analyze_report clock clients
                    (form_data patient_name age gender pdf_contents)
                    comprehensive_analyst false None w2 in
       let result := handle_form_submission clock connect comprehensive_analyst
                       session_id patient_name age gender pdf_contents page in
       (can = false ->
        result = Some (Stopped,
                       mkPage (app_of clients w1) (pg_events page ++ [ShowError msg])))
       /\ (can = true ->
           match fst out with
           | Ok (RGenerated (Success content model_used)) =>
               result
               = Some (Rerun,
                       mkPage (app_of clients
                                 (mkWorld (w_session (snd out)) (S (w_ticks (snd out)))
                                          (w_trace (snd out))))
                              ((pg_events page ++ [asked])
                                 ++ [SaveMessage session_id
                                       (content +:+ model_info model_used) "assistant"
                                       (clock (w_ticks (snd out)))]))
           | Ok (RGenerated (Failure e)) =>
               result
               = Some (Stopped,
                       mkPage (app_of clients (snd out))
                              ((pg_events page ++ [asked]) ++ [ShowError (Some e)]))
           | Ok (RLimit error_msg) =>
               result
               = Some (Stopped,
                       mkPage (app_of clients (snd out))
                              ((pg_events page ++ [asked]) ++ [ShowError error_msg]))
           | _ => False
           end).
Proof.
  intros Hok Hname Hage Hgender.
  destruct (init_analysis_state_app_of clock connect (pg_app page) Hok)
    as (clients & w & Hinit & _).
  assert (Hcheck : exists can msg, fst (check_rate_limit clock w) = Ok (can, msg)).
  { destruct (check_rate_limit_shape clock w) as [_ [Hpass|[m Hrefuse]]].
    - exists true, None. exact Hpass.
    - exists false, (Some m). rewrite Hrefuse. reflexivity. }
  destruct Hcheck as (can & msg & Hcheck).
  exists clients, w, can, msg. split; [exact Hinit|]. split; [exact Hcheck|].
  cbv zeta.
  rewrite (handle_form_submission_run clock connect comprehensive_analyst session_id
             patient_name age gender pdf_contents page clients w
             Hname Hage Hgender Hinit).
  destruct (check_rate_limit clock w) as [r w1]. cbn [fst] in Hcheck. subst r.
  cbn [fst snd].
  destruct can.
  - split; [discriminate|]. intros _. cbv zeta.
    pose proof (analyze_report_text_answers clock clients
                  (<["report" := PStr pdf_contents]>
                   (<["gender" := PStr gender]>
                    (<["age" := PInt age]>
                     (<["patient_name" := PStr patient_name]> ∅))))
                  pdf_contents comprehensive_analyst
                  (mkWorld (w_session w1) (S (w_ticks w1)) (w_trace w1))
                  (lookup_insert_eq _ _ _)) as Hanswers.
    fold (form_data patient_name age gender pdf_contents) in Hanswers.
    destruct (analyze_report clock clients
                (form_data patient_name age gender pdf_contents)
                comprehensive_analyst false None
                (mkWorld (w_session w1) (S (w_ticks w1)) (w_trace w1)))
      as [[[m|c m|[content model_used|e]]|e] w3]; cbn [fst snd] in *;
      try contradiction; reflexivity.
  - split; [|discriminate]. intros _. reflexivity.
Qed.

Lemma handle_form_submission_flow_witness :
  exists page',
    handle_form_submission Scenario.ticking_clock (inl Scenario.answering_client)
      "prompt" "session-1" "Jane" 30 "Female" "Hemoglobin: 14.2 g/dL"
      (mkPage (mkApp None (mkRaw None None None None None) 0 []) [])
    = Some (Rerun, page')
    /\ saved_messages (pg_events page')
       = [("user", "Analyzing report for patient: Jane");
          ("assistant",
           "Summary of the report." +:+ PyStr.nl
             +:+ "Hemoglobin is within normal range."
             +:+ model_info "groq/llama-3.3-70b-versatile")].
Proof.
  destruct (handle_form_submission_flow Scenario.ticking_clock
              (inl Scenario.answering_client) "prompt" "session-1" "Jane" 30 "Female"
              "Hemoglobin: 14.2 g/dL"
              (mkPage (mkApp None (mkRaw None None None None None) 0 []) []))
    as (clients & w & can & msg & Hinit & Hcheck & Hflow).
  - left. reflexivity.
  - discriminate.
  - discriminate.
  - discriminate.
  - destruct w as [[count last limit used kb] ticks trace].
    vm_compute in Hinit. injection Hinit as <- <- <- <- <- <- <- <-.
    vm_compute in Hcheck. injection Hcheck as <- <-.
    cbv zeta in Hflow. destruct Hflow as [_ Hflow]. specialize (Hflow eq_refl).
    match type of Hflow with
    | match ?x with _ => _ end =>
        let v := eval vm_compute in x in change x with v in Hflow
    end.
    cbv beta iota in Hflow.
    eexists. split; [exact Hflow|]. vm_compute. reflexivity.
Defined.

(** ** A session without provider client *)

(** X30 (the services on a new session when the Groq client cannot be
    built): [ModelManager._initialize_clients] logs the failure and leaves
    the manager without client.  The first analysis request of a session
    that has none of the agent's keys is then let through by the rate
    check, skips the four tiers with an error line each, makes no provider
    call, and returns the failure "All models failed after multiple
    retries"; the count stays 0 and the agent stays in place without
    client. *)
Theorem services_without_groq_client
    (clock : nat -> Z) (msg : string) (data : Data) (system_prompt : string)
    (session_id : option string) (ticks : nat) (trace : list Event) :
  let app := mkApp None (mkRaw None None None None None) ticks trace in
  exists app',
    Services.generate_analysis clock (inr msg) data system_prompt false session_id app
    = Some (Ok (RGenerated (Failure exhausted_message)), app')
    /\ app_agent app' = Some ∅
    /\ app_trace app'
       = trace ++ EvLog LError ("Failed to initialize Groq client: " +:+ msg)
                  :: repeat skip_event 4
    /\ calls_made (app_trace app') = calls_made trace
    /\ raw_analysis_count (app_raw app') = Some 0
    /\ raw_analysis_limit (app_raw app') = Some 15
    /\ raw_knowledge_base (app_raw app') = Some [].
Proof.
  cbv zeta. unfold Services.generate_analysis, Services.with_agent,
    Services.init_analysis_state.
  cbn [app_agent app_raw app_ticks app_trace _initialize_clients _init_state
       raw_analysis_count raw_last_analysis raw_analysis_limit raw_models_used
       raw_knowledge_base session_of].
  set (w := mkWorld _ _ _).
  assert (Hcheck : exists w1,
             check_rate_limit clock w = (Ok (true, None), w1)
             /\ analysis_count (w_session w1) = 0
             /\ analysis_limit (w_session w1) = 15
             /\ knowledge_base (w_session w1) = []
             /\ w_trace w1 = w_trace w).
  { rewrite check_rate_limit_unfold. cbv zeta. subst w.
    cbn [w_session w_ticks w_trace analysis_limit analysis_count last_analysis
         models_used knowledge_base].
    destruct (_ <? 0); eexists; (split; [reflexivity|]); cbn; auto. }
  destruct Hcheck as (w1 & Hcheck & Hcount & Hlimit & Hkb & Htrace).
  rewrite analyze_report_unfold, Hcheck. cbv zeta. cbn [enhanced_prompt truthy ret].
  destruct (generate_analysis_run ∅ (_preprocess_data data) system_prompt 4 0 w1 eq_refl)
    as (evs & (Hs3 & Ht3 & Hr3) & _ & _ & _ & _ & Hnone & _).
  destruct (Hnone (lookup_empty _)) as [Hevs Hfail].
  destruct (generate_analysis ∅ (_preprocess_data data) system_prompt 0 w1)
    as [r w3]. cbn [fst snd] in *. subst r evs.
  eexists. split; [reflexivity|].
  cbn [app_agent app_trace app_raw raw_of raw_analysis_count raw_analysis_limit
       raw_knowledge_base].
  rewrite Hs3, Hr3, Htrace, Hcount, Hlimit, Hkb. subst w. cbn [w_trace].
  split; [reflexivity|]. split; [rewrite <- app_assoc; reflexivity|].
  split; [|auto].
  rewrite !calls_made_app. cbn. lia.
Qed.

(** ** The uploaded report *)











(** ** Passwords *)




